(** * PrydanJobBackend: payment-to-subscription reconciliation

    A shallow embedding of the payment ledger (models/Payment.js), the
    subscription lifecycle (models/Subscription.js), the plan catalog
    (models/Plan.js) and the request handlers that drive them
    (controllers/paymentController.js, subscriptionController.js,
    webhookController.js), followed by the properties of the reconciliation
    engine.

    Conventions of the embedding.
    - A MongoDB collection is the list of its documents in natural
      (insertion) order; [findOne] returns the first match, [findById] the
      first document carrying the identifier.
    - A [Date] is its number of milliseconds since the epoch.
    - One run of a handler happens at one instant [now]: every [new Date()]
      and [Date.now()] of the run reads it.
    - Persistence itself does not fail: [save], [create] and [updateMany]
      always write.  The [createdAt] stamp is kept, [updatedAt] is not.
    - What the JavaScript platform provides (HMAC, Buffer, JSON, Date, the
      gateway client, Math.random) is a [Runtime] record the handlers are
      given. *)

From Stdlib Require Import ZArith List Ascii String Bool Lia Arith.
Import ListNotations.

Open Scope string_scope.
Open Scope Z_scope.

Definition ObjectId := nat.
Definition Date := Z.

(** Milliseconds in [d] days: [d * 24 * 60 * 60 * 1000]. *)
Definition days_ms (d : Z) : Z := d * 24 * 60 * 60 * 1000.

(** JavaScript truthiness of a string and of an optional string field. *)
Definition truthy (s : string) : bool := negb (String.eqb s "").

Definition truthy_opt (o : option string) : bool :=
  match o with Some s => truthy s | None => false end.

(** ** models/Plan.js *)
Module Plan.
Record t := mk {
    _id : ObjectId;
    name : string;
    price : Z;
    amount : Z;
    (** [None]: a value [Number.isFinite(Number(duration))] rejects. *)
    duration : option Z;
    isActive : bool;
    priority : Z;
    (** [None]: a falsy non-number, read as [renewLimit || 0]. *)
    renewLimit : option Z;
    allowDowngrade : bool
  }.

Definition set_allowDowngrade (b : bool) (p : t) : t :=
    mk (_id p) (name p) (price p) (amount p) (duration p) (isActive p)
       (priority p) (renewLimit p) b.
End Plan.

(** ** models/Subscription.js *)
Module Subscription.
Inductive status_t := active | expired | cancelled | pending.

Definition status_eqb (a b : status_t) : bool :=
    match a, b with
    | active, active | expired, expired
    | cancelled, cancelled | pending, pending => true
    | _, _ => false
    end.

Inductive outcome := success | failed.

Record billing := mkBilling {
    date : Date;
    b_amount : Z;
    b_paymentId : ObjectId;
    b_status : outcome
  }.

Record t := mk {
    _id : ObjectId;
    user : ObjectId;
    plan : ObjectId;
    status : status_t;
    startDate : Date;
    endDate : Date;
    paymentId : option ObjectId;
    cancelledAt : option Date;
    cancellationReason : option string;
    billingHistory : list billing;
    createdAt : Date
  }.

Definition set_status (v : status_t) (s : t) : t :=
    mk (_id s) (user s) (plan s) v (startDate s) (endDate s) (paymentId s)
       (cancelledAt s) (cancellationReason s) (billingHistory s) (createdAt s).

Definition set_endDate (v : Date) (s : t) : t :=
    mk (_id s) (user s) (plan s) (status s) (startDate s) v (paymentId s)
       (cancelledAt s) (cancellationReason s) (billingHistory s) (createdAt s).

Definition set_billingHistory (v : list billing) (s : t) : t :=
    mk (_id s) (user s) (plan s) (status s) (startDate s) (endDate s)
       (paymentId s) (cancelledAt s) (cancellationReason s) v (createdAt s).

Definition set_cancelledAt (v : option Date) (s : t) : t :=
    mk (_id s) (user s) (plan s) (status s) (startDate s) (endDate s)
       (paymentId s) v (cancellationReason s) (billingHistory s) (createdAt s).
End Subscription.

(** ** Requests and gateway payloads *)

(** Body of POST /api/payments/verify. *)
Record VerifyBody := mkVerifyBody {
  razorpay_order_id : string;
  razorpay_payment_id : string;
  razorpay_signature : string;
  vb_paymentId : option ObjectId
}.

(** The payment entity of a webhook event ([data.payment || data.entity]). *)
Record PaymentEntity := mkEntity {
  order_id : string;
  entity_id : string;
  entity_status : string
}.

Record WebhookPayload := mkWebhookPayload {
  event : string;
  entity : option PaymentEntity
}.

(** [gatewayResponse] is a Mixed field: the verify body as stored by
    [markCompleted], and the [webhook] object keyed by entity status. *)
Record GatewayResponse := mkGatewayResponse {
  gr_body : option VerifyBody;
  gr_webhook : list (string * PaymentEntity)
}.

(** ** models/Payment.js *)
Module Payment.
Inductive status_t := pending | completed | failed | cancelled.

Definition status_eqb (a b : status_t) : bool :=
    match a, b with
    | pending, pending | completed, completed
    | failed, failed | cancelled, cancelled => true
    | _, _ => false
    end.

Inductive action_t := purchase | renew | upgrade.

Definition action_eqb (a b : action_t) : bool :=
    match a, b with
    | purchase, purchase | renew, renew | upgrade, upgrade => true
    | _, _ => false
    end.

Record t := mk {
    _id : ObjectId;
    user : ObjectId;
    plan : ObjectId;
    subscription : option ObjectId;
    action : action_t;
    targetSubscription : option ObjectId;
    amount : Z;
    razorpayOrderId : option string;
    razorpayPaymentId : option string;
    razorpaySignature : option string;
    status : status_t;
    receipt : option string;
    invoiceNumber : option string;
    invoiceUrl : option string;
    invoiceGeneratedAt : option Date;
    gatewayResponse : option GatewayResponse;
    webhookReceived : bool;
    webhookData : option WebhookPayload;
    completedAt : option Date;
    failureReason : option string;
    createdAt : Date
  }.

Definition set_subscription (v : option ObjectId) (p : t) : t :=
    mk (_id p) (user p) (plan p) v (action p) (targetSubscription p)
       (amount p) (razorpayOrderId p) (razorpayPaymentId p)
       (razorpaySignature p) (status p) (receipt p) (invoiceNumber p)
       (invoiceUrl p) (invoiceGeneratedAt p) (gatewayResponse p)
       (webhookReceived p) (webhookData p) (completedAt p) (failureReason p)
       (createdAt p).

Definition set_razorpayOrderId (v : option string) (p : t) : t :=
    mk (_id p) (user p) (plan p) (subscription p) (action p)
       (targetSubscription p) (amount p) v (razorpayPaymentId p)
       (razorpaySignature p) (status p) (receipt p) (invoiceNumber p)
       (invoiceUrl p) (invoiceGeneratedAt p) (gatewayResponse p)
       (webhookReceived p) (webhookData p) (completedAt p) (failureReason p)
       (createdAt p).

Definition set_razorpayPaymentId (v : option string) (p : t) : t :=
    mk (_id p) (user p) (plan p) (subscription p) (action p)
       (targetSubscription p) (amount p) (razorpayOrderId p) v
       (razorpaySignature p) (status p) (receipt p) (invoiceNumber p)
       (invoiceUrl p) (invoiceGeneratedAt p) (gatewayResponse p)
       (webhookReceived p) (webhookData p) (completedAt p) (failureReason p)
       (createdAt p).

Definition set_razorpaySignature (v : option string) (p : t) : t :=
    mk (_id p) (user p) (plan p) (subscription p) (action p)
       (targetSubscription p) (amount p) (razorpayOrderId p)
       (razorpayPaymentId p) v (status p) (receipt p) (invoiceNumber p)
       (invoiceUrl p) (invoiceGeneratedAt p) (gatewayResponse p)
       (webhookReceived p) (webhookData p) (completedAt p) (failureReason p)
       (createdAt p).

Definition set_status (v : status_t) (p : t) : t :=
    mk (_id p) (user p) (plan p) (subscription p) (action p)
       (targetSubscription p) (amount p) (razorpayOrderId p)
       (razorpayPaymentId p) (razorpaySignature p) v (receipt p)
       (invoiceNumber p) (invoiceUrl p) (invoiceGeneratedAt p)
       (gatewayResponse p) (webhookReceived p) (webhookData p)
       (completedAt p) (failureReason p) (createdAt p).

Definition set_receipt (v : option string) (p : t) : t :=
    mk (_id p) (user p) (plan p) (subscription p) (action p)
       (targetSubscription p) (amount p) (razorpayOrderId p)
       (razorpayPaymentId p) (razorpaySignature p) (status p) v
       (invoiceNumber p) (invoiceUrl p) (invoiceGeneratedAt p)
       (gatewayResponse p) (webhookReceived p) (webhookData p)
       (completedAt p) (failureReason p) (createdAt p).

Definition set_invoiceNumber (v : option string) (p : t) : t :=
    mk (_id p) (user p) (plan p) (subscription p) (action p)
       (targetSubscription p) (amount p) (razorpayOrderId p)
       (razorpayPaymentId p) (razorpaySignature p) (status p) (receipt p) v
       (invoiceUrl p) (invoiceGeneratedAt p) (gatewayResponse p)
       (webhookReceived p) (webhookData p) (completedAt p) (failureReason p)
       (createdAt p).

Definition set_invoiceGeneratedAt (v : option Date) (p : t) : t :=
    mk (_id p) (user p) (plan p) (subscription p) (action p)
       (targetSubscription p) (amount p) (razorpayOrderId p)
       (razorpayPaymentId p) (razorpaySignature p) (status p) (receipt p)
       (invoiceNumber p) (invoiceUrl p) v (gatewayResponse p)
       (webhookReceived p) (webhookData p) (completedAt p) (failureReason p)
       (createdAt p).

Definition set_gatewayResponse (v : option GatewayResponse) (p : t) : t :=
    mk (_id p) (user p) (plan p) (subscription p) (action p)
       (targetSubscription p) (amount p) (razorpayOrderId p)
       (razorpayPaymentId p) (razorpaySignature p) (status p) (receipt p)
       (invoiceNumber p) (invoiceUrl p) (invoiceGeneratedAt p) v
       (webhookReceived p) (webhookData p) (completedAt p) (failureReason p)
       (createdAt p).

Definition set_webhookReceived (v : bool) (p : t) : t :=
    mk (_id p) (user p) (plan p) (subscription p) (action p)
       (targetSubscription p) (amount p) (razorpayOrderId p)
       (razorpayPaymentId p) (razorpaySignature p) (status p) (receipt p)
       (invoiceNumber p) (invoiceUrl p) (invoiceGeneratedAt p)
       (gatewayResponse p) v (webhookData p) (completedAt p)
       (failureReason p) (createdAt p).

Definition set_webhookData (v : option WebhookPayload) (p : t) : t :=
    mk (_id p) (user p) (plan p) (subscription p) (action p)
       (targetSubscription p) (amount p) (razorpayOrderId p)
       (razorpayPaymentId p) (razorpaySignature p) (status p) (receipt p)
       (invoiceNumber p) (invoiceUrl p) (invoiceGeneratedAt p)
       (gatewayResponse p) (webhookReceived p) v (completedAt p)
       (failureReason p) (createdAt p).

Definition set_completedAt (v : option Date) (p : t) : t :=
    mk (_id p) (user p) (plan p) (subscription p) (action p)
       (targetSubscription p) (amount p) (razorpayOrderId p)
       (razorpayPaymentId p) (razorpaySignature p) (status p) (receipt p)
       (invoiceNumber p) (invoiceUrl p) (invoiceGeneratedAt p)
       (gatewayResponse p) (webhookReceived p) (webhookData p) v
       (failureReason p) (createdAt p).

Definition set_failureReason (v : option string) (p : t) : t :=
    mk (_id p) (user p) (plan p) (subscription p) (action p)
       (targetSubscription p) (amount p) (razorpayOrderId p)
       (razorpayPaymentId p) (razorpaySignature p) (status p) (receipt p)
       (invoiceNumber p) (invoiceUrl p) (invoiceGeneratedAt p)
       (gatewayResponse p) (webhookReceived p) (webhookData p)
       (completedAt p) v (createdAt p).
End Payment.

(** ** The platform *)

(** Result of the gateway's [orders.create]. *)
Record Order := mkOrder {
  order_ident : string;
  order_amount : Z;
  order_currency : string
}.

Record Runtime := mkRuntime {
  (** process.env.RAZORPAY_KEY_SECRET and RAZORPAY_WEBHOOK_SECRET *)
  RAZORPAY_KEY_SECRET : option string;
  RAZORPAY_WEBHOOK_SECRET : option string;
  (** [crypto.createHmac('sha256', key).update(msg).digest('hex')] *)
  hmac_sha256_hex : string -> string -> string;
  (** [Buffer.from(s, 'hex')] and [String(s).trim()] *)
  buffer_from_hex : string -> list nat;
  trim : string -> string;
  (** [JSON.parse] of a webhook body; [None] when it throws, and when it
      returns [null], which has no fields to read. *)
  JSON_parse : string -> option WebhookPayload;
  (** [d.getFullYear()], [d.getMonth()] and [new Date(y, m, 1)] *)
  getFullYear : Date -> Z;
  getMonth : Date -> Z;
  first_of_month : Z -> Z -> Date;
  (** [razorpay.orders.create]: amount and receipt to an order, or the
      message of the error it throws. *)
  orders_create : Z -> string -> string + Order;
  (** The receipt and invoice numbers a pre-save hook draws at an instant
      (a date prefix and a [Math.random] suffix). *)
  receipt_token : Date -> ObjectId -> string;
  invoice_token : Date -> ObjectId -> string
}.

(** ** The persisted state *)
Record DB := mkDB {
  plans : list Plan.t;
  payments : list Payment.t;
  subscriptions : list Subscription.t
}.

Definition set_payments (v : list Payment.t) (db : DB) : DB :=
  mkDB (plans db) v (subscriptions db).

Definition set_subscriptions (v : list Subscription.t) (db : DB) : DB :=
  mkDB (plans db) (payments db) v.

Definition set_plans (v : list Plan.t) (db : DB) : DB :=
  mkDB v (payments db) (subscriptions db).

Section Collection.
Context {A : Type} (key : A -> ObjectId).

Definition findById (l : list A) (i : ObjectId) : option A :=
    find (fun x => Nat.eqb (key x) i) l.

  (** [findById] on a reference that may be undefined. *)
Definition findByRef (l : list A) (r : option ObjectId) : option A :=
    match r with Some i => findById l i | None => None end.

  (** [doc.save()] on a stored document: the document with this [_id] is
      replaced in place. *)
Definition replaceById (x : A) (l : list A) : list A :=
    map (fun y => if Nat.eqb (key y) (key x) then x else y) l.

  (** A fresh identifier for [create]. *)
Definition freshId (l : list A) : ObjectId :=
    S (fold_right (fun x m => Nat.max (key x) m) O l).
End Collection.

(** ** utils/validators.js *)

(** [crypto.timingSafeEqual] on two buffers of one length. *)
Definition timingSafeEqual (a b : list nat) : bool :=
  forallb (fun xy => Nat.eqb (fst xy) (snd xy)) (combine a b).

(** [None] stands for a thrown error. *)
Definition computeRazorpaySignature (rt : Runtime)
    (orderId paymentId secret : string) : option string :=
  if negb (truthy orderId) || negb (truthy paymentId) then None
  else if negb (truthy secret) then None
  else Some (hmac_sha256_hex rt secret (orderId ++ "|" ++ paymentId)%string).

Definition compareHex (rt : Runtime) (expected given : string) : bool :=
  let a := buffer_from_hex rt expected in
  let b := buffer_from_hex rt (trim rt given) in
  if negb (Nat.eqb (List.length a) (List.length b)) then false
  else timingSafeEqual a b.

Definition verifyRazorpaySignature (rt : Runtime)
    (orderId paymentId signature : string) : option bool :=
  if negb (truthy orderId) || negb (truthy paymentId)
     || negb (truthy signature)
  then Some false
  else
    match RAZORPAY_KEY_SECRET rt with
    | None => None
    | Some secret =>
        if negb (truthy secret) then None
        else
          match computeRazorpaySignature rt orderId paymentId secret with
          | None => None
          | Some expected => Some (compareHex rt expected signature)
          end
    end.

(** [rawBody] is the Buffer that [express.raw] hands to the webhook: an
    object, so [!rawBody] is false also when the body is empty. *)
Definition verifyRazorpayWebhookSignature (rt : Runtime)
    (rawBody signatureHeader : string) : option bool :=
  match RAZORPAY_WEBHOOK_SECRET rt with
  | None => None
  | Some secret =>
      if negb (truthy secret) then None
      else if negb (truthy signatureHeader)
      then Some false
      else Some (compareHex rt (hmac_sha256_hex rt secret rawBody)
                            signatureHeader)
  end.

(** ** Payment: hooks, methods *)

(** [paymentSchema.pre('save')].  [statusModified] is
    [this.isModified('status')]. *)
Definition Payment_pre_save (rt : Runtime) (now : Date)
    (isNew statusModified : bool) (p : Payment.t) : Payment.t :=
  let p1 :=
    if isNew && negb (truthy_opt (Payment.receipt p))
    then Payment.set_receipt
           (Some (receipt_token rt now (Payment._id p))) p
    else p in
  if statusModified
     && Payment.status_eqb (Payment.status p1) Payment.completed
     && negb (truthy_opt (Payment.invoiceNumber p1))
  then
    Payment.set_completedAt (Some now)
      (Payment.set_invoiceGeneratedAt (Some now)
         (Payment.set_invoiceNumber
            (Some (invoice_token rt now (Payment._id p1))) p1))
  else p1.

(** [payment.save()] of a stored document.  Its status counts as modified
    when it differs from the persisted one. *)
Definition Payment_save (rt : Runtime) (now : Date) (db : DB)
    (p : Payment.t) : DB * Payment.t :=
  let statusModified :=
    match findById Payment._id (payments db) (Payment._id p) with
    | Some o => negb (Payment.status_eqb (Payment.status o) (Payment.status p))
    | None => true
    end in
  let p' := Payment_pre_save rt now false statusModified p in
  (set_payments (replaceById Payment._id p' (payments db)) db, p').

(** [Payment.create({ user, plan, amount, action, targetSubscription })]. *)
Definition Payment_create (rt : Runtime) (now : Date) (db : DB)
    (user plan : ObjectId) (amount : Z) (action : Payment.action_t)
    (target : option ObjectId) : DB * Payment.t :=
  let p :=
    Payment.mk (freshId Payment._id (payments db)) user plan None action
      target amount None None None Payment.pending None None None None None
      false None None None now in
  let p' := Payment_pre_save rt now true true p in
  (set_payments (payments db ++ [p']) db, p').

Definition markCompleted (rt : Runtime) (now : Date) (db : DB)
    (p : Payment.t) (razorpayPaymentId razorpaySignature : string)
    (gatewayResponse : option VerifyBody) : DB * Payment.t :=
  let p1 := Payment.set_status Payment.completed p in
  let p2 := if truthy razorpayPaymentId
            then Payment.set_razorpayPaymentId (Some razorpayPaymentId) p1
            else p1 in
  let p3 := if truthy razorpaySignature
            then Payment.set_razorpaySignature (Some razorpaySignature) p2
            else p2 in
  let p4 := match gatewayResponse with
            | Some body =>
                Payment.set_gatewayResponse
                  (Some (mkGatewayResponse (Some body) [])) p3
            | None => p3
            end in
  Payment_save rt now db (Payment.set_completedAt (Some now) p4).

(** [payment.markFailed(reason)], as stored when validation lets the
    reason through: [failureReason] has [maxlength: 500].  The reasons
    [verifyPayment] passes are fixed and short; [createOrder] passes the
    gateway's message, and [placeOrder] tests its length. *)
Definition markFailed (rt : Runtime) (now : Date) (db : DB)
    (p : Payment.t) (reason : string) : DB * Payment.t :=
  let p1 := Payment.set_status Payment.failed p in
  let p2 := Payment.set_failureReason
              (Some (if truthy reason then reason else "Payment failed")) p1 in
  Payment_save rt now db p2.

Definition updateWebhook (rt : Runtime) (now : Date) (db : DB)
    (p : Payment.t) (payload : WebhookPayload) : DB * Payment.t :=
  Payment_save rt now db
    (Payment.set_webhookData (Some payload)
       (Payment.set_webhookReceived true p)).

Definition findByRazorpayOrderId (db : DB) (orderId : string)
    : option Payment.t :=
  find (fun p => match Payment.razorpayOrderId p with
                 | Some o => String.eqb o orderId
                 | None => false
                 end) (payments db).

(** ** Subscription: hooks, statics *)

(** [Number.isFinite(Number(plan.duration)) ? Number(plan.duration) : 30] *)
Definition durationDays (pl : Plan.t) : Z :=
  match Plan.duration pl with Some d => d | None => 30 end.

(** [Subscription.create(...)] with [subscriptionSchema.pre('validate')]:
    a missing [endDate] is derived from the plan's duration (30 days when
    the plan is not found), and a cancelled status stamps [cancelledAt].
    This is the document as validation lets it through; an end date beyond
    8.64e15 ms either side of the epoch is an Invalid Date, for which
    [create] rejects. *)
Definition Subscription_create (now : Date) (db : DB)
    (user plan : ObjectId) (paymentId : ObjectId)
    (status : Subscription.status_t) (startDate : Date)
    (endDate : option Date) (history : list Subscription.billing)
    : DB * Subscription.t :=
  let e :=
    match endDate with
    | Some e => e
    | None =>
        match findById Plan._id (plans db) plan with
        | None => now + days_ms 30
        | Some pl => startDate + days_ms (durationDays pl)
        end
    end in
  let cancelledAt :=
    if Subscription.status_eqb status Subscription.cancelled
    then Some now else None in
  let s :=
    Subscription.mk (freshId Subscription._id (subscriptions db)) user plan
      status startDate e (Some paymentId) cancelledAt None history now in
  (set_subscriptions (subscriptions db ++ [s]) db, s).

(** [sub.save()] of a stored subscription, with the pre-validate hook, as
    validation lets it through (an Invalid Date as end date makes it
    reject). *)
Definition Subscription_save (now : Date) (db : DB) (s : Subscription.t)
    : DB * Subscription.t :=
  let statusModified :=
    match findById Subscription._id (subscriptions db) (Subscription._id s) with
    | Some o =>
        negb (Subscription.status_eqb (Subscription.status o)
                                      (Subscription.status s))
    | None => true
    end in
  let s' :=
    if statusModified
       && Subscription.status_eqb (Subscription.status s) Subscription.cancelled
       && match Subscription.cancelledAt s with Some _ => false | None => true end
    then Subscription.set_cancelledAt (Some now) s
    else s in
  (set_subscriptions (replaceById Subscription._id s' (subscriptions db)) db,
   s').

(** [{ user, status: 'active', endDate: { $gt: now } }] *)
Definition activeQuery (user : ObjectId) (now : Date) (s : Subscription.t)
    : bool :=
  Nat.eqb (Subscription.user s) user
  && Subscription.status_eqb (Subscription.status s) Subscription.active
  && (now <? Subscription.endDate s).

Definition findActiveByUser (db : DB) (user : ObjectId) (now : Date)
    : option Subscription.t :=
  find (activeQuery user now) (subscriptions db).

Definition startOfMonth (rt : Runtime) (now : Date) : Date :=
  first_of_month rt (getFullYear rt now) (getMonth rt now).

Definition startOfNextMonth (rt : Runtime) (now : Date) : Date :=
  first_of_month rt (getFullYear rt now) (getMonth rt now + 1).

(** [{ action: 'renew', targetSubscription, status: 'completed',
       createdAt: { $gte: firstDay, $lt: lastDay } }] *)
Definition renewQuery (rt : Runtime) (now : Date) (subId : ObjectId)
    (p : Payment.t) : bool :=
  Payment.action_eqb (Payment.action p) Payment.renew
  && match Payment.targetSubscription p with
     | Some t => Nat.eqb t subId
     | None => false
     end
  && Payment.status_eqb (Payment.status p) Payment.completed
  && (startOfMonth rt now <=? Payment.createdAt p)
  && (Payment.createdAt p <? startOfNextMonth rt now).

Definition countRenewsThisMonth (rt : Runtime) (now : Date) (db : DB)
    (subId : ObjectId) : Z :=
  Z.of_nat (List.length (filter (renewQuery rt now subId) (payments db))).

(** [updateMany({ status: 'active', endDate: { $lt: now } },
                { $set: { status: 'expired' } })] *)
Definition expireOldSubscriptions (now : Date) (db : DB) : DB :=
  set_subscriptions
    (map (fun s =>
            if Subscription.status_eqb (Subscription.status s)
                 Subscription.active
               && (Subscription.endDate s <? now)
            then Subscription.set_status Subscription.expired s
            else s)
         (subscriptions db))
    db.

(** ** Responses *)

(** [next(new ApiError(message, statusCode))], or
    [res.status(statusCode).json({ success: true, message, data })] where
    [data] may carry the payment, the subscription and, after
    [populate('plan')], the subscription's plan document. *)
Inductive Response :=
| ApiError (message : string) (statusCode : nat)
| Json (statusCode : nat) (message : option string)
       (payment : option Payment.t) (subscription : option Subscription.t)
       (populated : option Plan.t).

(** [Subscription.findById(ref).populate('plan')]: the subscription and its
    plan document. *)
Definition populatePlan (db : DB) (s : option Subscription.t)
    : option Plan.t :=
  match s with
  | Some sub => findById Plan._id (plans db) (Subscription.plan sub)
  | None => None
  end.

(** ** controllers/paymentController.js: verifyPayment *)

(** The billing-history entry a completed payment contributes:
    [{ date: now, amount: payment.amount, paymentId: payment._id,
       status: 'success' }]. *)
Definition billingEntry (now : Date) (payment : Payment.t)
    : Subscription.billing :=
  Subscription.mkBilling now (Payment.amount payment) (Payment._id payment)
    Subscription.success.

(** [if (payment.action === 'renew') { ... }] *)
Definition handleRenew (rt : Runtime) (now : Date) (db : DB)
    (payment : Payment.t) (plan : Plan.t) : DB * Response :=
  let subId :=
    match Payment.targetSubscription payment with
    | Some t => Some t
    | None => Payment.subscription payment
    end in
  match findByRef Subscription._id (subscriptions db) subId with
  | None =>
      let '(db1, _) :=
        markFailed rt now db payment
          "Target subscription not found for renewal" in
      (db1, ApiError "Target subscription not found for renewal" 400)
  | Some sub =>
      match findById Plan._id (plans db) (Subscription.plan sub) with
      | None =>
          (* planForSub.renewLimit on null: the TypeError reaches the error
             middleware *)
          (db, ApiError
                 "Cannot read properties of null (reading 'renewLimit')" 500)
      | Some planForSub =>
          let renewLimit :=
            match Plan.renewLimit planForSub with
            | Some n => n
            | None => 0
            end in
          if (0 <? renewLimit)
             && (renewLimit <=?
                 countRenewsThisMonth rt now db (Subscription._id sub))
          then
            let '(db1, _) :=
              markFailed rt now db payment
                "Renew limit exceeded for this month" in
            (db1, ApiError
                    "You have reached the maximum renewals for this period"
                    400)
          else
            let currentEnd :=
              if now <? Subscription.endDate sub
              then Subscription.endDate sub else now in
            let addDays := durationDays plan in
            let sub1 :=
              Subscription.set_endDate (currentEnd + days_ms addDays) sub in
            let sub2 :=
              Subscription.set_billingHistory
                (Subscription.billingHistory sub1
                   ++ [billingEntry now payment]) sub1 in
            let sub3 := Subscription.set_status Subscription.active sub2 in
            let '(db1, sub4) := Subscription_save now db sub3 in
            let '(db2, _) :=
              Payment_save rt now db1
                (Payment.set_subscription (Some (Subscription._id sub4))
                   payment) in
            (db2, Json 200 (Some "Subscription renewed") None (Some sub4)
                       None)
      end
  end.

(** [if (payment.action === 'upgrade') { ... }] *)
Definition handleUpgrade (rt : Runtime) (now : Date) (db : DB)
    (payment : Payment.t) (plan : Plan.t) : DB * Response :=
  match Payment.targetSubscription payment with
  | None =>
      let '(db1, _) :=
        markFailed rt now db payment
          "Target subscription missing for upgrade" in
      (db1, ApiError "Target subscription is required for upgrade" 400)
  | Some target =>
      match findById Subscription._id (subscriptions db) target with
      | None =>
          let '(db1, _) :=
            markFailed rt now db payment
              "Old subscription not found for upgrade" in
          (db1, ApiError "Old subscription not found for upgrade" 400)
      | Some oldSub =>
          match findById Plan._id (plans db) (Subscription.plan oldSub) with
          | None =>
              let '(db1, _) :=
                markFailed rt now db payment
                  "Old plan not found for upgrade" in
              (db1, ApiError "Old plan not found" 400)
          | Some oldPlan =>
              if Plan.priority plan <=? Plan.priority oldPlan
              then
                let '(db1, _) :=
                  markFailed rt now db payment
                    "Downgrade / same-level upgrade attempted" in
                (db1, ApiError
                        "Cannot downgrade or choose same level plan. Upgrade only to higher plans."
                        400)
              else
                let '(db1, _) :=
                  Subscription_save now db
                    (Subscription.set_status Subscription.expired oldSub) in
                let startDate := now in
                let endDate := startDate + days_ms (durationDays plan) in
                let '(db2, newSub) :=
                  Subscription_create now db1 (Payment.user payment)
                    (Payment.plan payment) (Payment._id payment)
                    Subscription.active startDate (Some endDate)
                    [billingEntry now payment] in
                let '(db3, _) :=
                  Payment_save rt now db2
                    (Payment.set_subscription
                       (Some (Subscription._id newSub)) payment) in
                (db3, Json 200 (Some "Plan upgraded") None (Some newSub) None)
          end
      end
  end.

(** The default branch: purchase.  [existingActive] was read before the
    dispatch on the action. *)
Definition handlePurchase (rt : Runtime) (now : Date) (db : DB)
    (payment : Payment.t) (plan : Plan.t)
    (existingActive : option Subscription.t) : DB * Response :=
  let blocked :=
    match existingActive with
    | Some ex => Nat.eqb (Subscription.plan ex) (Plan._id plan)
    | None => false
    end in
  if blocked
  then
    let '(db1, _) :=
      markFailed rt now db payment
        "User already has an active subscription for this plan" in
    (db1, ApiError "You already have an active subscription for this plan"
                   400)
  else
    let startDate := now in
    let endDate := startDate + days_ms (durationDays plan) in
    let '(db1, subscription) :=
      Subscription_create now db (Payment.user payment)
        (Payment.plan payment) (Payment._id payment) Subscription.active
        startDate (Some endDate) [billingEntry now payment] in
    let '(db2, _) :=
      Payment_save rt now db1
        (Payment.set_subscription (Some (Subscription._id subscription))
           payment) in
    (db2, Json 200 (Some "Payment verified and subscription activated") None
               (Some subscription) None).

(** What [verifyPayment] does once the signature has been accepted. *)
Definition reconcile (rt : Runtime) (now : Date) (db : DB)
    (payment : Payment.t) (body : VerifyBody) : DB * Response :=
  match Payment.status payment, Payment.subscription payment with
  | Payment.completed, Some sid =>
      let existingSub := findById Subscription._id (subscriptions db) sid in
      (db, Json 200 (Some "Payment already processed") (Some payment)
               existingSub (populatePlan db existingSub))
  | _, _ =>
      let '(db1, payment1) :=
        markCompleted rt now db payment (razorpay_payment_id body)
          (razorpay_signature body) (Some body) in
      match findById Plan._id (plans db1) (Payment.plan payment1) with
      | None =>
          let '(db2, _) :=
            markFailed rt now db1 payment1 "Associated plan not found" in
          (db2, ApiError "Associated plan not found" 500)
      | Some plan =>
          let existingActive :=
            findActiveByUser db1 (Payment.user payment1) now in
          match Payment.action payment1 with
          | Payment.renew => handleRenew rt now db1 payment1 plan
          | Payment.upgrade => handleUpgrade rt now db1 payment1 plan
          | Payment.purchase =>
              handlePurchase rt now db1 payment1 plan existingActive
          end
      end
  end.

(** [payment.razorpayOrderId && payment.razorpayOrderId !== razorpay_order_id] *)
Definition orderIdMismatch (payment : Payment.t) (body : VerifyBody) : bool :=
  match Payment.razorpayOrderId payment with
  | Some o => truthy o && negb (String.eqb o (razorpay_order_id body))
  | None => false
  end.

(** [!razorpay_order_id || !razorpay_payment_id || !razorpay_signature];
    the fourth field, [paymentId], is matched on by [verifyPayment]. *)
Definition missingFields (body : VerifyBody) : bool :=
  negb (truthy (razorpay_order_id body))
  || negb (truthy (razorpay_payment_id body))
  || negb (truthy (razorpay_signature body)).

Definition verifyPayment (rt : Runtime) (now : Date) (db : DB)
    (body : VerifyBody) : DB * Response :=
  match vb_paymentId body with
  | None => (db, ApiError "Missing required fields for verification" 400)
  | Some paymentId =>
      if missingFields body
      then (db, ApiError "Missing required fields for verification" 400)
      else
        match findById Payment._id (payments db) paymentId with
        | None => (db, ApiError "Payment record not found" 404)
        | Some payment =>
            if orderIdMismatch payment body
            then (db, ApiError "Order id mismatch" 400)
            else
              match verifyRazorpaySignature rt (razorpay_order_id body)
                      (razorpay_payment_id body) (razorpay_signature body)
              with
              | None =>
                  let '(db1, _) :=
                    markFailed rt now db payment
                      "Signature verification error" in
                  (db1, ApiError "Payment verification failed" 400)
              | Some false =>
                  let '(db1, _) :=
                    markFailed rt now db payment
                      "Signature verification failed" in
                  (db1, ApiError "Payment verification failed" 400)
              | Some true => reconcile rt now db payment body
              end
        end
  end.

(** ** controllers/paymentController.js: createOrder *)

Record CreateOrderBody := mkCreateOrderBody {
  co_planId : option ObjectId;
  co_action : option string;
  co_subscriptionId : option ObjectId
}.

Inductive OrderResponse :=
| OrderError (message : string) (statusCode : nat)
| OrderCreated (orderId : string) (amount : Z) (currency : string)
               (paymentId : ObjectId).

(** [allowedActions.includes(action)] *)
Definition parseAction (a : string) : option Payment.action_t :=
  if String.eqb a "purchase" then Some Payment.purchase
  else if String.eqb a "renew" then Some Payment.renew
  else if String.eqb a "upgrade" then Some Payment.upgrade
  else None.

(** [failureReason: { type: String, maxlength: 500 }]: whether validation
    lets the reason through when the payment is saved. *)
Definition fitsFailureReason (reason : string) : bool :=
  Nat.leb (String.length reason) 500.

(** The tail of [createOrder]: the payment document, the gateway order and
    the order id stored on the payment. *)
Definition placeOrder (rt : Runtime) (now : Date) (db : DB)
    (user : ObjectId) (plan : Plan.t) (action : Payment.action_t)
    (target : option ObjectId) : DB * OrderResponse :=
  let '(db1, payment) :=
    Payment_create rt now db user (Plan._id plan) (Plan.amount plan) action
      target in
  let receipt :=
    match Payment.receipt payment with Some r => r | None => "" end in
  match orders_create rt (Plan.amount plan) receipt with
  | inl err =>
      let reason := ("Razorpay order creation failed: " ++ err)%string in
      (* with a reason that validation refuses the save in [markFailed]
         rejects, nothing is stored, and the rejection is swallowed by
         [try { ... } catch (_) {}] *)
      if fitsFailureReason reason
      then
        let '(db2, _) := markFailed rt now db1 payment reason in
        (db2, OrderError "Failed to create Razorpay order" 502)
      else (db1, OrderError "Failed to create Razorpay order" 502)
  | inr order =>
      let '(db2, _) :=
        Payment_save rt now db1
          (Payment.set_razorpayOrderId (Some (order_ident order)) payment) in
      (db2, OrderCreated (order_ident order) (order_amount order)
              (order_currency order) (Payment._id payment))
  end.

Definition createOrder (rt : Runtime) (now : Date) (db : DB)
    (reqUser : option ObjectId) (body : CreateOrderBody)
    : DB * OrderResponse :=
  match reqUser with
  | None => (db, OrderError "Not authenticated" 401)
  | Some uid =>
  match parseAction
          (match co_action body with Some a => a | None => "purchase" end)
  with
  | None => (db, OrderError "Invalid action" 400)
  | Some action =>
  match co_planId body with
  | None => (db, OrderError "planId is required" 400)
  | Some planId =>
  match findById Plan._id (plans db) planId with
  | None => (db, OrderError "Invalid planId" 400)
  | Some plan =>
  if negb (0 <? Plan.amount plan)
  then (db, OrderError "Server misconfiguration: plan amount invalid" 500)
  else
    match action with
    | Payment.purchase =>
        let existingActive := findActiveByUser db uid now in
        if match existingActive with
           | Some ex => Nat.eqb (Subscription.plan ex) (Plan._id plan)
           | None => false
           end
        then (db, OrderError
                    "You already have an active subscription for this plan. Use renew or upgrade."
                    400)
        else placeOrder rt now db uid plan action None
    | _ =>
        match co_subscriptionId body with
        | None =>
            (db, OrderError "subscriptionId is required for renew/upgrade"
                   400)
        | Some sid =>
            match findById Subscription._id (subscriptions db) sid with
            | None => (db, OrderError "Target subscription not found" 404)
            | Some target =>
                if negb (Nat.eqb (Subscription.user target) uid)
                then (db, OrderError "Target subscription not owned by user"
                            403)
                else if Payment.action_eqb action Payment.upgrade
                        && Nat.eqb (Subscription.plan target) (Plan._id plan)
                then (db, OrderError "Cannot upgrade to the same plan" 400)
                else placeOrder rt now db uid plan action
                       (Some (Subscription._id target))
            end
        end
    end
  end end end end.

(** ** controllers/subscriptionController.js: activate *)

Record ActivateBody := mkActivateBody {
  ab_paymentId : option ObjectId;
  ab_planId : option ObjectId
}.

Definition activate (rt : Runtime) (now : Date) (db : DB)
    (reqUser : ObjectId) (body : ActivateBody) : DB * Response :=
  match ab_paymentId body, ab_planId body with
  | Some paymentId, Some planId =>
      match findById Payment._id (payments db) paymentId with
      | None => (db, ApiError "Payment record not found" 404)
      | Some payment =>
          if negb (Payment.status_eqb (Payment.status payment)
                     Payment.completed)
          then (db, ApiError "Payment is not completed" 400)
          else
            match findById Plan._id (plans db) planId with
            | None => (db, ApiError "Plan not found" 404)
            | Some plan =>
                if negb (Nat.eqb (Payment.user payment) reqUser)
                then (db, ApiError
                            "Payment does not belong to the authenticated user"
                            403)
                else
                  match Payment.subscription payment with
                  | Some sid =>
                      let existingSub :=
                        findById Subscription._id (subscriptions db) sid in
                      (db, Json 200 None None existingSub
                               (populatePlan db existingSub))
                  | None =>
                      let '(db1, subscription) :=
                        Subscription_create now db (Payment.user payment)
                          (Plan._id plan) (Payment._id payment)
                          Subscription.active now None [] in
                      let '(db2, _) :=
                        Payment_save rt now db1
                          (Payment.set_subscription
                             (Some (Subscription._id subscription)) payment) in
                      (db2, Json 201 None None (Some subscription) None)
                  end
            end
      end
  | _, _ => (db, ApiError "paymentId and planId are required" 400)
  end.

(** ** controllers/webhookController.js: razorpayWebhook *)

Record WebhookRequest := mkWebhookRequest {
  x_razorpay_signature : string;
  rawBody : string
}.

(** [res.status(code).send(text)] or [res.status(200).json({status:'ok'})] *)
Inductive WebhookResponse := WebhookSend (statusCode : nat) (text : string).

(** [obj[k] = v] on an object kept as an association list. *)
Fixpoint assign {V : Type} (k : string) (v : V) (o : list (string * V))
    : list (string * V) :=
  match o with
  | [] => [(k, v)]
  | (k', v') :: rest =>
      if String.eqb k' k then (k, v) :: rest else (k', v') :: assign k v rest
  end.

(** The mutation the webhook applies to a found payment, as [save] stores
    it.  [gatewayResponse] is a Mixed field: when the payment has none the
    assignment of [{}] marks it modified and it is stored with the entity
    under [webhook[status]]; when it has one, [p.gatewayResponse =
    p.gatewayResponse] modifies nothing, the entity is written into the
    object in place, which mongoose does not track, and the stored value
    stays as it was. *)
Definition applyWebhook (now : Date) (payload : WebhookPayload)
    (pe : PaymentEntity) (p : Payment.t) : Payment.t :=
  let status := entity_status pe in
  let p1 := Payment.set_webhookReceived true p in
  let p2 := Payment.set_webhookData (Some payload) p1 in
  let p3 :=
    match Payment.gatewayResponse p2 with
    | Some _ => p2
    | None =>
        Payment.set_gatewayResponse
          (Some (mkGatewayResponse None (assign status pe []))) p2
    end in
  if String.eqb status "captured" || String.eqb status "authorized"
  then
    if negb (Payment.status_eqb (Payment.status p3) Payment.completed)
    then
      Payment.set_completedAt (Some now)
        (Payment.set_status Payment.completed
           (Payment.set_razorpayPaymentId (Some (entity_id pe)) p3))
    else p3
  else if String.eqb status "failed"
  then
    Payment.set_failureReason (Some "Webhook: payment failed")
      (Payment.set_status Payment.failed p3)
  else p3.

(** JSON white space: space, tab, line feed, carriage return. *)
Definition isJsonSpace (c : ascii) : bool :=
  let n := Ascii.nat_of_ascii c in
  Nat.eqb n 32 || Nat.eqb n 9 || Nat.eqb n 10 || Nat.eqb n 13.

Fixpoint dropJsonSpace (s : string) : string :=
  match s with
  | String c rest => if isJsonSpace c then dropJsonSpace rest else s
  | EmptyString => EmptyString
  end.

Fixpoint allJsonSpace (s : string) : bool :=
  match s with
  | String c rest => isJsonSpace c && allJsonSpace rest
  | EmptyString => true
  end.

(** [JSON.parse(body)] returns [null]: the text is the literal [null]
    between white space.  Destructuring [null] throws inside the handler's
    [try], which answers 500. *)
Definition parsesToNull (body : string) : bool :=
  match dropJsonSpace body with
  | String c1 (String c2 (String c3 (String c4 rest))) =>
      String.eqb (String c1 (String c2 (String c3 (String c4 ""))))
        "null"
      && allJsonSpace rest
  | _ => false
  end.

Definition eventOfInterest (e : string) : bool :=
  String.eqb e "payment.captured" || String.eqb e "payment.authorized"
  || String.eqb e "payment.failed".

Definition razorpayWebhook (rt : Runtime) (now : Date) (db : DB)
    (req : WebhookRequest) : DB * WebhookResponse :=
  match verifyRazorpayWebhookSignature rt (rawBody req)
          (x_razorpay_signature req)
  with
  | None => (db, WebhookSend 400 "signature verification error")
  | Some false => (db, WebhookSend 400 "invalid signature")
  | Some true =>
      match JSON_parse rt (rawBody req) with
      | None =>
          if parsesToNull (rawBody req)
          then (db, WebhookSend 500 "error processing webhook")
          else (db, WebhookSend 400 "invalid payload")
      | Some payload =>
          if eventOfInterest (event payload)
          then
            match entity payload with
            | Some pe =>
                match findByRazorpayOrderId db (order_id pe) with
                | Some p =>
                    let '(db1, _) :=
                      Payment_save rt now db (applyWebhook now payload pe p) in
                    (* the auto-activation branch that follows does no work *)
                    (db1, WebhookSend 200 "ok")
                | None => (db, WebhookSend 200 "ok")
                end
            | None => (db, WebhookSend 200 "ok")
            end
          else (db, WebhookSend 200 "ok")
      end
  end.

(** ** A runtime to run the handlers on concrete inputs

    The calendar is the proleptic Gregorian one in UTC.  The HMAC, the hex
    decoder, the JSON reader, the gateway and the token source are small
    deterministic stand-ins: the handlers only consume their results. *)
Module Sample.

Definition MS_PER_DAY : Z := 86400000.

(** Days since 1970-01-01 of a civil date ([m] in 1..12). *)
Definition days_from_civil (y m d : Z) : Z :=
  let y' := if m <=? 2 then y - 1 else y in
  let era := y' / 400 in
  let yoe := y' - era * 400 in
  let mp := if 2 <? m then m - 3 else m + 9 in
  let doy := (153 * mp + 2) / 5 + d - 1 in
  let doe := yoe * 365 + yoe / 4 - yoe / 100 + doy in
  era * 146097 + doe - 719468.

(** Civil year and month (1..12) of a day number. *)
Definition civil_from_days (z : Z) : Z * Z :=
  let z0 := z + 719468 in
  let era := z0 / 146097 in
  let doe := z0 - era * 146097 in
  let yoe := (doe - doe / 1460 + doe / 36524 - doe / 146096) / 365 in
  let y := yoe + era * 400 in
  let doy := doe - (365 * yoe + yoe / 4 - yoe / 100) in
  let mp := (5 * doy + 2) / 153 in
  let m := if mp <? 10 then mp + 3 else mp - 9 in
  (if m <=? 2 then y + 1 else y, m).

Definition utcFullYear (t : Date) : Z := fst (civil_from_days (t / MS_PER_DAY)).

Definition utcMonth (t : Date) : Z := snd (civil_from_days (t / MS_PER_DAY)) - 1.

(** [new Date(y, m, 1)]: a month index past 11 rolls into the next year. *)
Definition utcFirstOfMonth (y m : Z) : Date :=
  days_from_civil (y + m / 12) (m mod 12 + 1) 1 * MS_PER_DAY.

Definition tag (k msg : string) : string := (k ++ ":" ++ msg)%string.

Definition codes (s : string) : list nat :=
  map Ascii.nat_of_ascii (list_ascii_of_string s).

(** Splits on spaces. *)
Fixpoint words (cur : string) (s : string) : list string :=
  match s with
  | EmptyString => [cur]
  | String c rest =>
      if Ascii.eqb c (Ascii.ascii_of_nat 32) then cur :: words "" rest
      else words (cur ++ String c "")%string rest
  end.

(** A webhook body is read as [event order_id id status]. *)
Definition parse (body : string) : option WebhookPayload :=
  match words "" body with
  | [ev; oid; pid; st] =>
      Some (mkWebhookPayload ev (Some (mkEntity oid pid st)))
  | _ => None
  end.

Definition runtime : Runtime :=
  mkRuntime (Some "key") (Some "hook") tag codes (fun s => s) parse
    utcFullYear utcMonth utcFirstOfMonth
    (fun amount receipt =>
       inr (mkOrder ("order_" ++ receipt)%string amount "INR"))
    (fun _ i => ("RCPT_" ++ String (Ascii.ascii_of_nat (48 + i)%nat) "")%string)
    (fun _ i => ("INV-" ++ String (Ascii.ascii_of_nat (48 + i)%nat) "")%string).

(** The catalog of [seedDefaultPlans]. *)
Definition Basic : Plan.t :=
  Plan.mk 1%nat "Basic" 199 19900 (Some 30) true 1 (Some 1) false.

Definition Standard : Plan.t :=
  Plan.mk 2%nat "Standard" 499 49900 (Some 90) true 2 (Some 2) false.

Definition Premium : Plan.t :=
  Plan.mk 3%nat "Premium" 999 99900 (Some 365) true 3 (Some 0) true.

Definition catalog : DB := mkDB [Basic; Standard; Premium] [] [].

(** 2024-03-15T00:00:00Z *)
Definition t0 : Date := 1710460800000.

(** The verify request a client sends for payment [i] of [db] with gateway
    payment id [pay]. *)
Definition verifyBodyFor (db : DB) (i : ObjectId) (pay : string)
    : VerifyBody :=
  let order :=
    match findById Payment._id (payments db) i with
    | Some p =>
        match Payment.razorpayOrderId p with Some o => o | None => "" end
    | None => ""
    end in
  mkVerifyBody order pay (tag "key" (order ++ "|" ++ pay)%string) (Some i).

End Sample.

(** ** A purchase, run end to end *)
Module Scenario.
Import Sample.

Definition alice : ObjectId := 7%nat.

(** Alice orders the Standard plan at [t0] ... *)
Definition ordered : DB :=
  fst (createOrder runtime t0 catalog (Some alice)
         (mkCreateOrderBody (Some 2%nat) None None)).

Definition verify1 : VerifyBody := verifyBodyFor ordered 1%nat "pay_1".

(** ... and her client verifies the payment a second later. *)
Definition paid : DB := fst (verifyPayment runtime (t0 + 1000) ordered verify1).

(** The payment as stored after that verification. *)
Definition payment1 : Payment.t :=
  Payment.mk 1%nat alice 2%nat (Some 1%nat) Payment.purchase None 49900
    (Some "order_RCPT_1") (Some "pay_1") (Some "key:order_RCPT_1|pay_1")
    Payment.completed (Some "RCPT_1") (Some "INV-1") None (Some (t0 + 1000))
    (Some (mkGatewayResponse (Some verify1) [])) false None
    (Some (t0 + 1000)) None t0.

(** A signed webhook delivery: event [payment.ev] for gateway order
    [order], with entity status [st]. *)
Definition delivery (order ev st : string) : WebhookRequest :=
  let body :=
    ("payment." ++ ev ++ " " ++ order ++ " pay_w " ++ st)%string in
  mkWebhookRequest (tag "hook" body) body.

Definition order (db : DB) (a : string) (planId : ObjectId)
    (sub : option ObjectId) (now : Date) : DB :=
  fst (createOrder runtime now db (Some alice)
         (mkCreateOrderBody (Some planId) (Some a) sub)).

Definition verify (db : DB) (i : ObjectId) (pay : string) (now : Date)
    : DB * Response :=
  verifyPayment runtime now db (verifyBodyFor db i pay).

(** *** Three renewals in one month, on a plan whose cap is 2

    Alice holds subscription 1 on Standard ([renewLimit] 2).  She places
    three renew orders (payments 2, 3 and 4) and pays them one after the
    other, all within March 2024. *)
Definition renewOrders : DB :=
  order (order (order paid "renew" 2%nat (Some 1%nat) (t0 + 2000))
           "renew" 2%nat (Some 1%nat) (t0 + 3000))
    "renew" 2%nat (Some 1%nat) (t0 + 4000).

Definition firstRenewal : DB * Response :=
  verify renewOrders 2%nat "pay_2" (t0 + 5000).

Definition secondRenewal : DB * Response :=
  verify (fst firstRenewal) 3%nat "pay_3" (t0 + 6000).

Definition thirdRenewal : DB * Response :=
  verify (fst secondRenewal) 4%nat "pay_4" (t0 + 7000).

(** The payments billed on subscription [i], in billing-history order. *)
Definition billedPayments (db : DB) (i : ObjectId) : list ObjectId :=
  match findById Subscription._id (subscriptions db) i with
  | Some s => map Subscription.b_paymentId (Subscription.billingHistory s)
  | None => []
  end.

Definition succeeded (r : Response) : bool :=
  match r with Json _ _ _ _ _ => true | ApiError _ _ => false end.

(** *** Two active subscriptions on one plan

    The subscriptions of [user] on [plan] that are active at [now]. *)
Definition activeOn (db : DB) (user plan : ObjectId) (now : Date)
    : list Subscription.t :=
  filter (fun s => activeQuery user now s
                   && Nat.eqb (Subscription.plan s) plan)
         (subscriptions db).

(** Alice places two purchase orders for Standard before paying either
    (payments 1 and 2); her client verifies the first; the gateway's
    webhook reports the second as captured; her client then calls
    activate for it. *)
Definition twoOrders : DB :=
  order (order catalog "purchase" 2%nat None t0) "purchase" 2%nat None
    (t0 + 1000).

Definition firstPaid : DB := fst (verify twoOrders 1%nat "pay_1" (t0 + 2000)).

Definition secondCaptured : DB :=
  fst (razorpayWebhook runtime (t0 + 3000) firstPaid
         (delivery "order_RCPT_2" "captured" "captured")).

Definition secondActivated : DB * Response :=
  activate runtime (t0 + 4000) secondCaptured alice
    (mkActivateBody (Some 2%nat) (Some 2%nat)).

(** Alice buys Basic, then Standard, then Standard once more, paying each
    order through verify. *)
Definition basicThenStandard : DB :=
  let d1 := order catalog "purchase" 1%nat None t0 in
  let d2 := fst (verify d1 1%nat "pay_1" (t0 + 1000)) in
  let d3 := order d2 "purchase" 2%nat None (t0 + 2000) in
  fst (verify d3 2%nat "pay_2" (t0 + 3000)).

Definition standardAgain : DB * Response :=
  let d := order basicThenStandard "purchase" 2%nat None (t0 + 4000) in
  verify d 3%nat "pay_3" (t0 + 5000).

End Scenario.

(** ** Vocabulary of the statements *)

(** The request names the stored payment [p], carries its order id and a
    signature the verifier accepts: [verifyPayment] goes on to reconcile. *)
Definition accepted (rt : Runtime) (db : DB) (body : VerifyBody)
    (p : Payment.t) : Prop :=
  vb_paymentId body = Some (Payment._id p)
  /\ findById Payment._id (payments db) (Payment._id p) = Some p
  /\ missingFields body = false
  /\ orderIdMismatch p body = false
  /\ verifyRazorpaySignature rt (razorpay_order_id body)
       (razorpay_payment_id body) (razorpay_signature body) = Some true.

(** The payment has been completed and linked to a subscription. *)
Definition linked (p : Payment.t) (sid : ObjectId) : Prop :=
  Payment.status p = Payment.completed /\ Payment.subscription p = Some sid.

(** Not (completed and linked): [reconcile] takes the completing path. *)
Definition unreconciled (p : Payment.t) : Prop :=
  Payment.status p <> Payment.completed \/ Payment.subscription p = None.

(** The fields of a payment that no ledger method writes. *)
Definition same_core (p q : Payment.t) : Prop :=
  Payment._id p = Payment._id q
  /\ Payment.user p = Payment.user q
  /\ Payment.plan p = Payment.plan q
  /\ Payment.subscription p = Payment.subscription q
  /\ Payment.action p = Payment.action q
  /\ Payment.targetSubscription p = Payment.targetSubscription q
  /\ Payment.amount p = Payment.amount q
  /\ Payment.razorpayOrderId p = Payment.razorpayOrderId q
  /\ Payment.createdAt p = Payment.createdAt q.

(** The first renew payment, as stored when it is verified. *)
Definition renewPayment : Payment.t :=
  Payment.mk 2%nat Scenario.alice 2%nat None Payment.renew (Some 1%nat) 49900
    (Some "order_RCPT_2") None None Payment.pending (Some "RCPT_2") None None
    None None false None None None (Sample.t0 + 2000).

(** Alice, subscribed to Standard, places an upgrade order for Premium. *)
Definition upgradeOrdered : DB :=
  Scenario.order Scenario.paid "upgrade" 3%nat (Some 1%nat)
    (Sample.t0 + 2000).

(** The upgrade payment, as stored when it is verified. *)
Definition upgradePayment : Payment.t :=
  Payment.mk 2%nat Scenario.alice 3%nat None Payment.upgrade (Some 1%nat)
    99900 (Some "order_RCPT_2") None None Payment.pending (Some "RCPT_2")
    None None None None false None None None (Sample.t0 + 2000).

(** *** Forgetting [allowDowngrade]

    Two states are identical except for the [allowDowngrade] value of
    their plans when they are equal once that field is overwritten with
    one fixed value in every plan. *)
Definition forgetPlan (pl : Plan.t) : Plan.t :=
  Plan.set_allowDowngrade false pl.

Definition forgetDowngrade (db : DB) : DB :=
  set_plans (map forgetPlan (plans db)) db.

(** A response echoes a plan document after [populate('plan')]; the echo
    is compared up to the field as well. *)
Definition forgetResponse (r : Response) : Response :=
  match r with
  | Json c m pay s pl => Json c m pay s (option_map forgetPlan pl)
  | ApiError m c => ApiError m c
  end.

(** The refuse-or-succeed decision of a response: status code and message,
    and whether it is an error. *)
Definition decision (r : Response) : bool * nat * option string :=
  match r with
  | Json c m _ _ _ => (true, c, m)
  | ApiError m c => (false, c, Some m)
  end.

(** A state with the [allowDowngrade] flag of every plan inverted. *)
Definition flipDowngrade (db : DB) : DB :=
  set_plans
    (map (fun pl => Plan.set_allowDowngrade (negb (Plan.allowDowngrade pl)) pl)
         (plans db))
    db.

(** ** models/Subscription.js: instance methods and virtuals *)

(** [this.status === 'active' && new Date() <= new Date(this.endDate)] *)
Definition isCurrentlyActive (now : Date) (s : Subscription.t) : bool :=
  Subscription.status_eqb (Subscription.status s) Subscription.active
  && (now <=? Subscription.endDate s).

(** The virtual [isExpired]: [new Date() > new Date(this.endDate)]. *)
Definition isExpired (now : Date) (s : Subscription.t) : bool :=
  Subscription.endDate s <? now.

(** [find({ status: 'active', endDate: { $gte: now, $lte: future } })] with
    [future = now + days * 24 * 60 * 60 * 1000]. *)
Definition findExpiringSoon (days : Z) (now : Date) (db : DB)
    : list Subscription.t :=
  filter (fun s =>
            Subscription.status_eqb (Subscription.status s)
              Subscription.active
            && (now <=? Subscription.endDate s)
            && (Subscription.endDate s <=? now + days_ms days))
         (subscriptions db).

(** ** controllers/subscriptionController.js: getMySubscription,
       cancelSubscription *)

(** The authenticated user the [protect] middleware attaches. *)
Record ReqUser := mkReqUser {
  ru_id : ObjectId;
  ru_role : string
}.

Definition getMySubscription (now : Date) (db : DB) (reqUser : ReqUser)
    : Response :=
  let sub := findActiveByUser db (ru_id reqUser) now in
  Json 200 None None sub (populatePlan db sub).

Definition cancelSubscription (now : Date) (db : DB) (reqUser : ReqUser)
    (id : ObjectId) : DB * Response :=
  match findById Subscription._id (subscriptions db) id with
  | None => (db, ApiError "Subscription not found" 404)
  | Some sub =>
      if negb (Nat.eqb (Subscription.user sub) (ru_id reqUser))
         && negb (String.eqb (ru_role reqUser) "admin")
      then (db, ApiError "Not authorized to cancel this subscription" 403)
      else if Subscription.status_eqb (Subscription.status sub)
                Subscription.cancelled
      then (db, Json 200 (Some "Subscription already cancelled") None None
                  None)
      else
        let '(db1, _) :=
          Subscription_save now db
            (Subscription.set_status Subscription.cancelled sub) in
        (db1, Json 200 (Some "Subscription cancelled") None None None)
  end.

(** ** controllers/authController.js: the subscription part of getMe

    [await Subscription.expireOldSubscriptions()] followed by
    [Subscription.findActiveByUser(user._id)]. *)
Definition getMe_activeSubscription (now : Date) (db : DB) (user : ObjectId)
    : DB * option Subscription.t :=
  let db1 := expireOldSubscriptions now db in
  (db1, findActiveByUser db1 user now).

(** The payment document [createOrder] has stored when it calls the
    gateway: [Payment.create] with the schema defaults and the receipt the
    pre-save hook draws. *)
Definition pendingPayment (rt : Runtime) (now : Date) (db : DB)
    (user : ObjectId) (plan : Plan.t) (action : Payment.action_t)
    (target : option ObjectId) : Payment.t :=
  Payment.mk (freshId Payment._id (payments db)) user (Plan._id plan) None
    action target (Plan.amount plan) None None None Payment.pending
    (Some (receipt_token rt now (freshId Payment._id (payments db))))
    None None None None false None None None now.

(** The action a [createOrder] body asks for: [action = 'purchase'] when
    the key is absent. *)
Definition requestedAction (body : CreateOrderBody) : option Payment.action_t :=
  parseAction (match co_action body with Some a => a | None => "purchase" end).

(** The target [createOrder] admits for an action, or the reason it stops:
    the checks on [subscriptionId] for renew and upgrade, and the
    existing-subscription check for purchase. *)
Definition admitTarget (now : Date) (db : DB) (uid : ObjectId)
    (plan : Plan.t) (action : Payment.action_t) (body : CreateOrderBody)
    : OrderResponse + option ObjectId :=
  match action with
  | Payment.purchase =>
      match findActiveByUser db uid now with
      | Some ex =>
          if Nat.eqb (Subscription.plan ex) (Plan._id plan)
          then inl (OrderError
                      "You already have an active subscription for this plan. Use renew or upgrade."
                      400)
          else inr None
      | None => inr None
      end
  | _ =>
      match co_subscriptionId body with
      | None =>
          inl (OrderError "subscriptionId is required for renew/upgrade" 400)
      | Some sid =>
          match findById Subscription._id (subscriptions db) sid with
          | None => inl (OrderError "Target subscription not found" 404)
          | Some target =>
              if negb (Nat.eqb (Subscription.user target) uid)
              then inl (OrderError "Target subscription not owned by user"
                          403)
              else if Payment.action_eqb action Payment.upgrade
                      && Nat.eqb (Subscription.plan target) (Plan._id plan)
              then inl (OrderError "Cannot upgrade to the same plan" 400)
              else inr (Some (Subscription._id target))
          end
      end
  end.

(** Alice's purchase payment, as stored by [createOrder] in
    [Scenario.ordered]. *)
Definition pendingPayment_ordered : Payment.t :=
  Payment.set_razorpayOrderId (Some "order_RCPT_1")
    (pendingPayment Sample.runtime Sample.t0 Sample.catalog Scenario.alice
       Sample.Standard Payment.purchase None).

(** Alice's second purchase payment, as stored after the webhook reported
    it captured ([Scenario.secondCaptured]). *)
Definition secondCapturedPayment : Payment.t :=
  Payment.mk 2%nat Scenario.alice 2%nat None Payment.purchase None 49900
    (Some "order_RCPT_2") (Some "pay_w") None Payment.completed
    (Some "RCPT_2") (Some "INV-2") None (Some (Sample.t0 + 3000))
    (Some (mkGatewayResponse None
             [("captured", mkEntity "order_RCPT_2" "pay_w" "captured")]))
    true
    (Some (mkWebhookPayload "payment.captured"
             (Some (mkEntity "order_RCPT_2" "pay_w" "captured"))))
    (Some (Sample.t0 + 3000)) None (Sample.t0 + 1000).

(** ** models/Plan.js: the pre-save hook

    The hook reads and writes the document it is called on; a field is
    [None] when the document holds [null] or nothing for it.  For a
    document built by [new Plan(obj)] or [Plan.create(obj)] that is only
    an explicit [null]: what [obj] omits has its schema default by the
    time the hook runs ([Plan_schema_defaults]). *)
Module PlanDoc.
(** What [this.features] may hold when the hook runs. *)
Inductive features_t :=
| array (items : list string)
| scalar (value : string)
| undefined.

Record t := mk {
  name : string;
  duration : option Z;
  features : features_t;
  priority : option Z;
  renewLimit : option Z;
  allowDowngrade : option bool;
  billingCycle : option string
}.
End PlanDoc.

(** The names the schema's [enum] admits; validation runs before the
    hook. *)
Definition ALLOWED_PLAN_NAMES : list string := ["Basic"; "Standard"; "Premium"].

(** [DEFAULT_DURATIONS[name]], [None] for a name that is no key of the
    table. *)
Definition DEFAULT_DURATIONS (name : string) : option Z :=
  if String.eqb name "Basic" then Some 30
  else if String.eqb name "Standard" then Some 90
  else if String.eqb name "Premium" then Some 365
  else None.

Record PlanMeta := mkPlanMeta {
  meta_priority : Z;
  meta_renewLimit : Z;
  meta_allowDowngrade : bool;
  meta_billingCycle : string
}.

(** [DEFAULT_PLAN_META[name]] *)
Definition DEFAULT_PLAN_META (name : string) : option PlanMeta :=
  if String.eqb name "Basic" then Some (mkPlanMeta 1 1 false "monthly")
  else if String.eqb name "Standard" then Some (mkPlanMeta 2 2 false "monthly")
  else if String.eqb name "Premium" then Some (mkPlanMeta 3 0 true "yearly")
  else None.

(** JavaScript falsiness of a number field that may be undefined. *)
Definition falsyNumber (o : option Z) : bool :=
  match o with Some z => z =? 0 | None => true end.

(** The document mongoose builds from what the caller gives, [None] being
    a field the caller omits: the schema defaults [duration: 30],
    [billingCycle: 'monthly'], [priority: 1], [renewLimit: 2],
    [allowDowngrade: false], and [features] cast to an array. *)
Definition Plan_schema_defaults (d : PlanDoc.t) : PlanDoc.t :=
  PlanDoc.mk (PlanDoc.name d)
    (match PlanDoc.duration d with Some n => Some n | None => Some 30 end)
    (match PlanDoc.features d with
     | PlanDoc.array items => PlanDoc.array items
     | PlanDoc.scalar v => PlanDoc.array [v]
     | PlanDoc.undefined => PlanDoc.array []
     end)
    (match PlanDoc.priority d with Some n => Some n | None => Some 1 end)
    (match PlanDoc.renewLimit d with Some n => Some n | None => Some 2 end)
    (match PlanDoc.allowDowngrade d with
     | Some b => Some b
     | None => Some false
     end)
    (match PlanDoc.billingCycle d with
     | Some c => Some c
     | None => Some "monthly"
     end).

(** [planSchema.pre('save')], with [isNew] the document's [isNew] flag. *)
Definition Plan_pre_save (isNew : bool) (d : PlanDoc.t) : PlanDoc.t :=
  let duration1 :=
    if truthy (PlanDoc.name d) && (falsyNumber (PlanDoc.duration d) || isNew)
    then match DEFAULT_DURATIONS (PlanDoc.name d) with
         | Some def => if def =? 0 then PlanDoc.duration d else Some def
         | None => PlanDoc.duration d
         end
    else PlanDoc.duration d in
  let features1 :=
    match PlanDoc.features d with
    | PlanDoc.array items => PlanDoc.array items
    | PlanDoc.scalar v =>
        if truthy v then PlanDoc.array [v] else PlanDoc.array []
    | PlanDoc.undefined => PlanDoc.array []
    end in
  if truthy (PlanDoc.name d) && isNew
  then
    match DEFAULT_PLAN_META (PlanDoc.name d) with
    | Some meta =>
        PlanDoc.mk (PlanDoc.name d) duration1 features1
          (if negb (meta_priority meta =? 0)
              && falsyNumber (PlanDoc.priority d)
           then Some (meta_priority meta) else PlanDoc.priority d)
          (if falsyNumber (PlanDoc.renewLimit d)
           then Some (meta_renewLimit meta) else PlanDoc.renewLimit d)
          (match PlanDoc.allowDowngrade d with
           | None => Some (meta_allowDowngrade meta)
           | Some b => Some b
           end)
          (if truthy (meta_billingCycle meta)
              && negb (truthy_opt (PlanDoc.billingCycle d))
           then Some (meta_billingCycle meta) else PlanDoc.billingCycle d)
    | None =>
        PlanDoc.mk (PlanDoc.name d) duration1 features1 (PlanDoc.priority d)
          (PlanDoc.renewLimit d) (PlanDoc.allowDowngrade d)
          (PlanDoc.billingCycle d)
    end
  else
    PlanDoc.mk (PlanDoc.name d) duration1 features1 (PlanDoc.priority d)
      (PlanDoc.renewLimit d) (PlanDoc.allowDowngrade d)
      (PlanDoc.billingCycle d).

(** ** models/User.js, as far as getInvoice reads it *)
Module User.
Record t := mk {
  _id : ObjectId;
  name : string;
  email : string;
  role : string
}.
End User.

(** ** controllers/paymentController.js: getInvoice *)

(** The [invoiceData] handed to the PDF generator; [date] stands for its
    ISO string. *)
Record InvoiceData := mkInvoiceData {
  inv_invoiceNumber : string;
  inv_date : Date;
  inv_userName : string;
  inv_userEmail : string;
  inv_planName : string;
  inv_amount : Z
}.

(** What getInvoice does not compute itself: the users collection that
    [populate('user')] reads, [String(payment._id)], the PDF generator
    ([None] when it throws or returns nothing usable as a Buffer) and
    whether the best-effort [payment.save()] resolves (a rejection is caught
    and logged). *)
Record InvoiceEnv := mkInvoiceEnv {
  users : list User.t;
  idString : ObjectId -> string;
  generateInvoicePdfBuffer : InvoiceData -> option (list nat);
  save_resolves : bool
}.

(** [next(new ApiError(message, statusCode))], or [res.send(pdfBuffer)] as
    an attachment with the given file name. *)
Inductive InvoiceResponse :=
| InvoiceError (message : string) (statusCode : nat)
| InvoicePdf (filename : string) (body : list nat).

(** [a || b] on strings that may be undefined. *)
Definition orElse (a : option string) (b : string) : string :=
  match a with
  | Some s => if truthy s then s else b
  | None => b
  end.

Definition invoiceDataOf (env : InvoiceEnv) (now : Date) (db : DB)
    (reqUser : User.t) (payment : Payment.t) : InvoiceData :=
  let user := findById User._id (users env) (Payment.user payment) in
  let plan := findById Plan._id (plans db) (Payment.plan payment) in
  mkInvoiceData
    (orElse (Payment.invoiceNumber payment)
       (orElse (Payment.receipt payment)
          ("INV-" ++ idString env (Payment._id payment))))
    (match Payment.completedAt payment with Some d => d | None => now end)
    (orElse (option_map User.name user) (orElse (Some (User.name reqUser)) ""))
    (orElse (option_map User.email user)
       (orElse (Some (User.email reqUser)) ""))
    (orElse (option_map Plan.name plan) "")
    (Payment.amount payment).

(** [paymentId] is [None] when the parameter is missing or no valid
    ObjectId. *)
Definition getInvoice (rt : Runtime) (env : InvoiceEnv) (now : Date)
    (db : DB) (reqUser : User.t) (paymentId : option ObjectId)
    : DB * InvoiceResponse :=
  match paymentId with
  | None => (db, InvoiceError "Invalid payment id" 400)
  | Some id =>
      match findById Payment._id (payments db) id with
      | None => (db, InvoiceError "Payment not found" 404)
      | Some payment =>
          let owner :=
            match findById User._id (users env) (Payment.user payment) with
            | Some u => Nat.eqb (User._id u) (User._id reqUser)
            | None => false
            end in
          if negb owner && negb (String.eqb (User.role reqUser) "admin")
          then (db, InvoiceError "Not authorized to access this invoice" 403)
          else if negb (Payment.status_eqb (Payment.status payment)
                          Payment.completed)
          then (db, InvoiceError
                      "Invoice available only for completed payments" 400)
          else
            let invoiceData := invoiceDataOf env now db reqUser payment in
            match generateInvoicePdfBuffer env invoiceData with
            | None => (db, InvoiceError "Failed to generate invoice" 500)
            | Some pdfBuffer =>
                let db1 :=
                  match Payment.invoiceGeneratedAt payment with
                  | None =>
                      if save_resolves env
                      then fst (Payment_save rt now db
                                  (Payment.set_invoiceGeneratedAt (Some now)
                                     payment))
                      else db
                  | Some _ => db
                  end in
                (db1, InvoicePdf (inv_invoiceNumber invoiceData ++ ".pdf")
                        pdfBuffer)
            end
      end
  end.

(** ** The range of a Date

    A JavaScript Date holds a time value of at most 8.64e15 milliseconds
    either side of the epoch; beyond it [new Date(t)] is an Invalid Date,
    which the schema's cast refuses, so that [Subscription.create] and
    [save] reject.  The outcomes of the handlers are stated for end dates
    inside the range. *)
Definition MAX_TIME : Z := 8640000000000000.

Definition validDate (t : Date) : Prop := - MAX_TIME <= t <= MAX_TIME.

(** ** Invoice stamps

    A payment that is completed, or has an invoice number, carries the time
    its invoice was generated; the ledger keeps that for every payment, under
    identifiers that are unique as MongoDB has them. *)
Definition stamped (p : Payment.t) : Prop :=
  Payment.status p = Payment.completed
  \/ truthy_opt (Payment.invoiceNumber p) = true ->
  Payment.invoiceGeneratedAt p <> None.

Definition ledger_stamped (db : DB) : Prop :=
  NoDup (map Payment._id (payments db))
  /\ forall p, In p (payments db) -> stamped p.

(** The document in hand has the invoice fields of the stored one. *)
Definition invoice_synced (db : DB) (p : Payment.t) : Prop :=
  forall o,
    findById Payment._id (payments db) (Payment._id p) = Some o ->
    Payment.invoiceNumber p = Payment.invoiceNumber o
    /\ Payment.invoiceGeneratedAt p = Payment.invoiceGeneratedAt o.

(** The sample runtime with a gateway that refuses every order with the
    message [err], and a message of 500 characters. *)
Definition gatewayDown (err : string) : Runtime :=
  mkRuntime (RAZORPAY_KEY_SECRET Sample.runtime)
    (RAZORPAY_WEBHOOK_SECRET Sample.runtime)
    (hmac_sha256_hex Sample.runtime) (buffer_from_hex Sample.runtime)
    (trim Sample.runtime) (JSON_parse Sample.runtime)
    (getFullYear Sample.runtime) (getMonth Sample.runtime)
    (first_of_month Sample.runtime) (fun _ _ => inl err)
    (receipt_token Sample.runtime) (invoice_token Sample.runtime).

Fixpoint repeatChar (n : nat) (c : ascii) : string :=
  match n with
  | O => EmptyString
  | S k => String c (repeatChar k c)
  end.

Definition longMessage : string := repeatChar 500 (Ascii.ascii_of_nat 120).

(** Alice as a user document, and an environment for [getInvoice]: the
    generator returns the character codes of the invoice number. *)
Definition aliceUser : User.t :=
  User.mk Scenario.alice "Alice" "alice@example.com" "user".

Definition invoiceEnv (saves : bool) : InvoiceEnv :=
  mkInvoiceEnv [aliceUser]
    (fun i => String (Ascii.ascii_of_nat (48 + i)%nat) "")
    (fun d => Some (Sample.codes (inv_invoiceNumber d))) saves.

(** [Scenario.paid] with the stamp of payment 1 removed, as a document
    written before the field existed would be. *)
Definition paidUnstamped : DB :=
  set_payments
    [Payment.set_invoiceGeneratedAt None Scenario.payment1] Scenario.paid.

(** *** A downgrade through activate

    Alice holds subscription 1 on Standard (priority 2).  She places an
    upgrade order for Basic (priority 1) against it (payment 2); the
    gateway's webhook reports the payment as captured; her client calls
    activate for payment 2 and the Basic plan. *)
Definition downgradeOrdered : DB :=
  Scenario.order Scenario.paid "upgrade" 1%nat (Some 1%nat)
    (Sample.t0 + 2000).

Definition downgradeCaptured : DB :=
  fst (razorpayWebhook Sample.runtime (Sample.t0 + 3000) downgradeOrdered
         (Scenario.delivery "order_RCPT_2" "captured" "captured")).

Definition downgradeActivated : DB * Response :=
  activate Sample.runtime (Sample.t0 + 4000) downgradeCaptured Scenario.alice
    (mkActivateBody (Some 2%nat) (Some 1%nat)).

(** * Properties *)

(** ** Collections *)
Section CollectionFacts.
Context {A : Type} (key : A -> ObjectId).

Lemma findById_key (l : list A) (i : ObjectId) (x : A) :
  findById key l i = Some x -> key x = i.
Proof.
  unfold findById. intros H. apply find_some in H.
  destruct H as [_ H]. now apply Nat.eqb_eq in H.
Qed.

Lemma findById_In (l : list A) (i : ObjectId) (x : A) :
  findById key l i = Some x -> In x l.
Proof.
  unfold findById. intros H. apply find_some in H. tauto.
Qed.

Lemma findById_of_In (l : list A) (x : A) :
  In x l -> exists y, findById key l (key x) = Some y.
Proof.
  unfold findById. intros H.
  destruct (find (fun y => Nat.eqb (key y) (key x)) l) as [y|] eqn:E.
  - now exists y.
  - exfalso. apply (find_none _ _ E) in H.
    now rewrite Nat.eqb_refl in H.
Qed.

Lemma findById_replaceById_hit (l : list A) (x y : A) :
  findById key l (key x) = Some y ->
  findById key (replaceById key x l) (key x) = Some x.
Proof.
  unfold findById, replaceById.
  induction l as [|a l IH]; simpl; [discriminate|].
  destruct (Nat.eqb (key a) (key x)) eqn:E.
  - intros _. now rewrite Nat.eqb_refl.
  - rewrite E. exact IH.
Qed.

Lemma findById_replaceById_miss (l : list A) (x : A) (i : ObjectId) :
  i <> key x ->
  findById key (replaceById key x l) i = findById key l i.
Proof.
  unfold findById, replaceById. intros Hne.
  induction l as [|a l IH]; simpl; [reflexivity|].
  destruct (Nat.eqb (key a) (key x)) eqn:E.
  - apply Nat.eqb_eq in E.
    destruct (Nat.eqb (key x) i) eqn:E1.
    + apply Nat.eqb_eq in E1. congruence.
    + rewrite E, E1. exact IH.
  - destruct (Nat.eqb (key a) i); [reflexivity | exact IH].
Qed.

Lemma findById_app_old (l l' : list A) (i : ObjectId) (x : A) :
  findById key l i = Some x -> findById key (l ++ l') i = Some x.
Proof.
  unfold findById. induction l as [|a l IH]; simpl; [discriminate|].
  destruct (Nat.eqb (key a) i); [trivial | exact IH].
Qed.

Lemma findById_app_none (l l' : list A) (i : ObjectId) :
  findById key l i = None -> findById key (l ++ l') i = findById key l' i.
Proof.
  unfold findById. induction l as [|a l IH]; simpl; [reflexivity|].
  destruct (Nat.eqb (key a) i); [discriminate | exact IH].
Qed.

Lemma freshId_above (l : list A) (x : A) :
  In x l -> (key x < freshId key l)%nat.
Proof.
  unfold freshId. induction l as [|a l IH]; simpl; [tauto|].
  intros [->|H]; [lia | specialize (IH H); lia].
Qed.

Lemma findById_fresh (l : list A) :
  findById key l (freshId key l) = None.
Proof.
  destruct (findById key l (freshId key l)) as [x|] eqn:E; [|reflexivity].
  pose proof (findById_key _ _ _ E) as Hk.
  pose proof (freshId_above _ _ (findById_In _ _ _ E)) as Hlt. lia.
Qed.

Lemma freshId_replaceById (l : list A) (x y : A) :
  findById key l (key x) = Some y ->
  freshId key (replaceById key x l) = freshId key l.
Proof.
  unfold freshId, replaceById, findById. intros H. f_equal.
  induction l as [|a l IH]; simpl in *; [reflexivity|].
  destruct (Nat.eqb (key a) (key x)) eqn:E.
  - apply Nat.eqb_eq in E. rewrite E. f_equal.
    clear H IH. induction l as [|b l IH]; simpl; [reflexivity|].
    destruct (Nat.eqb (key b) (key x)) eqn:E1.
    + apply Nat.eqb_eq in E1. now rewrite E1, IH.
    + now rewrite IH.
  - now rewrite IH.
Qed.

Lemma replaceById_length (l : list A) (x : A) :
  List.length (replaceById key x l) = List.length l.
Proof. unfold replaceById. apply length_map. Qed.

End CollectionFacts.

(** ** The payment ledger *)

Lemma Payment_pre_save_stored (rt : Runtime) (now : Date) (p : Payment.t) :
  Payment_pre_save rt now false false p = p.
Proof. reflexivity. Qed.

Lemma Payment_pre_save_status (rt : Runtime) (now : Date) (n m : bool)
    (p : Payment.t) :
  Payment.status (Payment_pre_save rt now n m p) = Payment.status p.
Proof.
  unfold Payment_pre_save.
  destruct (n && negb (truthy_opt (Payment.receipt p)));
    match goal with |- context [if ?c then _ else _] => destruct c end;
    reflexivity.
Qed.

Lemma Payment_pre_save_id (rt : Runtime) (now : Date) (n m : bool)
    (p : Payment.t) :
  Payment._id (Payment_pre_save rt now n m p) = Payment._id p.
Proof.
  unfold Payment_pre_save.
  destruct (n && negb (truthy_opt (Payment.receipt p)));
    match goal with |- context [if ?c then _ else _] => destruct c end;
    reflexivity.
Qed.


Lemma Payment_save_status (rt : Runtime) (now : Date) (db : DB)
    (p : Payment.t) :
  Payment.status (snd (Payment_save rt now db p)) = Payment.status p.
Proof. unfold Payment_save. simpl. apply Payment_pre_save_status. Qed.

Lemma Payment_save_id (rt : Runtime) (now : Date) (db : DB) (p : Payment.t) :
  Payment._id (snd (Payment_save rt now db p)) = Payment._id p.
Proof. unfold Payment_save. simpl. apply Payment_pre_save_id. Qed.

(** A saved document is what [findById] returns afterwards. *)
Lemma Payment_save_stored (rt : Runtime) (now : Date) (db : DB)
    (p o : Payment.t) :
  findById Payment._id (payments db) (Payment._id p) = Some o ->
  findById Payment._id (payments (fst (Payment_save rt now db p)))
    (Payment._id p) = Some (snd (Payment_save rt now db p)).
Proof.
  intros H. unfold Payment_save. simpl.
  set (q := Payment_pre_save rt now false _ p).
  assert (Hq : Payment._id q = Payment._id p) by apply Payment_pre_save_id.
  rewrite <- Hq. apply findById_replaceById_hit with (y := o).
  now rewrite Hq.
Qed.

Lemma Payment_save_others (rt : Runtime) (now : Date) (db : DB)
    (p : Payment.t) (i : ObjectId) :
  i <> Payment._id p ->
  findById Payment._id (payments (fst (Payment_save rt now db p))) i
  = findById Payment._id (payments db) i.
Proof.
  intros H. unfold Payment_save. simpl.
  apply findById_replaceById_miss. now rewrite Payment_pre_save_id.
Qed.

(** Saving a document whose status is the persisted one runs no hook. *)
Lemma Payment_save_same_status (rt : Runtime) (now : Date) (db : DB)
    (p o : Payment.t) :
  findById Payment._id (payments db) (Payment._id p) = Some o ->
  Payment.status o = Payment.status p ->
  snd (Payment_save rt now db p) = p.
Proof.
  intros H Hs. unfold Payment_save. rewrite H, Hs. simpl.
  destruct (Payment.status p); reflexivity.
Qed.

Lemma markCompleted_frame (rt : Runtime) (now : Date) (db : DB)
    (p : Payment.t) (a b : string) (g : option VerifyBody) :
  subscriptions (fst (markCompleted rt now db p a b g)) = subscriptions db
  /\ plans (fst (markCompleted rt now db p a b g)) = plans db.
Proof. split; reflexivity. Qed.

Lemma markFailed_frame (rt : Runtime) (now : Date) (db : DB)
    (p : Payment.t) (reason : string) :
  subscriptions (fst (markFailed rt now db p reason)) = subscriptions db
  /\ plans (fst (markFailed rt now db p reason)) = plans db.
Proof. split; reflexivity. Qed.

Lemma markCompleted_status (rt : Runtime) (now : Date) (db : DB)
    (p : Payment.t) (a b : string) (g : option VerifyBody) :
  Payment.status (snd (markCompleted rt now db p a b g)) = Payment.completed.
Proof.
  unfold markCompleted. rewrite Payment_save_status.
  destruct (truthy a), (truthy b), g; reflexivity.
Qed.

Lemma markFailed_status (rt : Runtime) (now : Date) (db : DB)
    (p : Payment.t) (reason : string) :
  Payment.status (snd (markFailed rt now db p reason)) = Payment.failed.
Proof. unfold markFailed. now rewrite Payment_save_status. Qed.

Lemma applyWebhook_id (now : Date) (payload : WebhookPayload)
    (pe : PaymentEntity) (p : Payment.t) :
  Payment._id (applyWebhook now payload pe p) = Payment._id p.
Proof.
  unfold applyWebhook.
  cbn [Payment.gatewayResponse Payment.set_webhookData
       Payment.set_webhookReceived].
  destruct (Payment.gatewayResponse p);
  repeat match goal with
         | |- context [if ?c then _ else _] => destruct c
         end; reflexivity.
Qed.

Lemma applyWebhook_status (now : Date) (payload : WebhookPayload)
    (pe : PaymentEntity) (p : Payment.t) :
  Payment.status (applyWebhook now payload pe p)
  = if String.eqb (entity_status pe) "captured"
       || String.eqb (entity_status pe) "authorized"
    then Payment.completed
    else if String.eqb (entity_status pe) "failed"
         then Payment.failed
         else Payment.status p.
Proof.
  unfold applyWebhook.
  cbn [Payment.gatewayResponse Payment.set_webhookData
       Payment.set_webhookReceived].
  destruct (Payment.gatewayResponse p);
  (destruct (String.eqb (entity_status pe) "captured"
             || String.eqb (entity_status pe) "authorized");
   [cbn [Payment.status Payment.set_gatewayResponse Payment.set_webhookData
         Payment.set_webhookReceived];
    destruct (Payment.status p) eqn:E; cbn; try reflexivity; exact E
   |destruct (String.eqb (entity_status pe) "failed"); reflexivity]).
Qed.

Lemma payment1_stored :
  findById Payment._id (payments Scenario.paid) 1%nat
  = Some Scenario.payment1.
Proof. vm_compute. reflexivity. Qed.

(** [markCompleted] on a payment that is stored with status completed:
    which fields stay and which are written. *)
Lemma markCompleted_again (rt : Runtime) (now : Date) (db : DB)
    (p : Payment.t) (rpid rsig : string) (g : option VerifyBody) :
  findById Payment._id (payments db) (Payment._id p) = Some p ->
  Payment.status p = Payment.completed ->
  let db' := fst (markCompleted rt now db p rpid rsig g) in
  let p' := snd (markCompleted rt now db p rpid rsig g) in
  Payment.status p' = Payment.completed
  /\ Payment.invoiceNumber p' = Payment.invoiceNumber p
  /\ Payment.invoiceGeneratedAt p' = Payment.invoiceGeneratedAt p
  /\ Payment.invoiceUrl p' = Payment.invoiceUrl p
  /\ Payment.completedAt p' = Some now
  /\ Payment.razorpayPaymentId p'
     = (if truthy rpid then Some rpid else Payment.razorpayPaymentId p)
  /\ Payment.razorpaySignature p'
     = (if truthy rsig then Some rsig else Payment.razorpaySignature p)
  /\ Payment.gatewayResponse p'
     = match g with
       | Some body => Some (mkGatewayResponse (Some body) [])
       | None => Payment.gatewayResponse p
       end
  /\ (Payment._id p' = Payment._id p
      /\ Payment.user p' = Payment.user p
      /\ Payment.plan p' = Payment.plan p
      /\ Payment.subscription p' = Payment.subscription p
      /\ Payment.action p' = Payment.action p
      /\ Payment.targetSubscription p' = Payment.targetSubscription p
      /\ Payment.amount p' = Payment.amount p
      /\ Payment.razorpayOrderId p' = Payment.razorpayOrderId p
      /\ Payment.receipt p' = Payment.receipt p
      /\ Payment.webhookReceived p' = Payment.webhookReceived p
      /\ Payment.webhookData p' = Payment.webhookData p
      /\ Payment.failureReason p' = Payment.failureReason p
      /\ Payment.createdAt p' = Payment.createdAt p)
  /\ findById Payment._id (payments db') (Payment._id p) = Some p'
  /\ subscriptions db' = subscriptions db.
Proof.
  intros Hst Hc db' p'.
  assert (Hsave : forall q, Payment._id q = Payment._id p ->
                    Payment.status q = Payment.completed ->
                    snd (Payment_save rt now db q) = q).
  { intros q Hid Hq. apply Payment_save_same_status with (o := p).
    - now rewrite Hid.
    - congruence. }
  assert (Hp' : p' = Payment.set_completedAt (Some now)
            (match g with
             | Some body =>
                 Payment.set_gatewayResponse
                   (Some (mkGatewayResponse (Some body) []))
             | None => fun q => q
             end
               ((if truthy rsig
                 then Payment.set_razorpaySignature (Some rsig)
                 else fun q => q)
                  ((if truthy rpid
                    then Payment.set_razorpayPaymentId (Some rpid)
                    else fun q => q)
                     (Payment.set_status Payment.completed p))))).
  { subst p'. unfold markCompleted.
    destruct (truthy rpid), (truthy rsig), g; apply Hsave; reflexivity. }
  assert (Hfind : findById Payment._id (payments db') (Payment._id p) = Some p').
  { subst db' p'. unfold markCompleted.
    match goal with
    | |- context [Payment_save rt now db ?q] =>
        replace (Payment._id p) with (Payment._id q)
    end.
    - apply Payment_save_stored with (o := p).
      destruct (truthy rpid), (truthy rsig), g; exact Hst.
    - destruct (truthy rpid), (truthy rsig), g; reflexivity. }
  rewrite Hfind. rewrite Hp'.
  destruct (truthy rpid), (truthy rsig), g; cbn; repeat split; reflexivity.
Qed.

(** The webhook's own completion is guarded by the current status. *)
Lemma applyWebhook_on_completed (now : Date) (payload : WebhookPayload)
    (pe : PaymentEntity) (p : Payment.t) :
  Payment.status p = Payment.completed ->
  String.eqb (entity_status pe) "failed" = false ->
  let q := applyWebhook now payload pe p in
  Payment.status q = Payment.completed
  /\ Payment.completedAt q = Payment.completedAt p
  /\ Payment.razorpayPaymentId q = Payment.razorpayPaymentId p
  /\ Payment.razorpaySignature q = Payment.razorpaySignature p
  /\ Payment.invoiceNumber q = Payment.invoiceNumber p
  /\ Payment.invoiceGeneratedAt q = Payment.invoiceGeneratedAt p
  /\ Payment.invoiceUrl q = Payment.invoiceUrl p.
Proof.
  intros Hc Hf. unfold applyWebhook. rewrite Hf.
  cbn [Payment.gatewayResponse Payment.set_webhookData
       Payment.set_webhookReceived].
  destruct (Payment.gatewayResponse p);
    destruct (String.eqb (entity_status pe) "captured"
              || String.eqb (entity_status pe) "authorized");
    cbn; rewrite ?Hc; cbn; repeat split; try reflexivity; exact Hc.
Qed.

(** C2 (as the code has it).  [markCompleted] on a payment that is stored
    with status completed is not a no-op: it keeps the status, the invoice
    metadata and every field it is not given, stamps [completedAt] with the
    instant of the call, and overwrites the gateway payment id, the
    signature and the gateway response with each value it is given.  The
    completion the webhook does in line is guarded: on a completed payment
    an event that does not report failure keeps the status, [completedAt],
    the gateway payment id, the signature and the invoice metadata. *)
Theorem completing_a_completed_payment (rt : Runtime) (now : Date)
    (db : DB) (p : Payment.t) :
  findById Payment._id (payments db) (Payment._id p) = Some p ->
  Payment.status p = Payment.completed ->
  (forall rpid rsig g,
      let p' := snd (markCompleted rt now db p rpid rsig g) in
      Payment.status p' = Payment.completed
      /\ Payment.invoiceNumber p' = Payment.invoiceNumber p
      /\ Payment.invoiceGeneratedAt p' = Payment.invoiceGeneratedAt p
      /\ Payment.invoiceUrl p' = Payment.invoiceUrl p
      /\ Payment.completedAt p' = Some now
      /\ Payment.razorpayPaymentId p'
         = (if truthy rpid then Some rpid else Payment.razorpayPaymentId p)
      /\ Payment.razorpaySignature p'
         = (if truthy rsig then Some rsig else Payment.razorpaySignature p)
      /\ Payment.gatewayResponse p'
         = match g with
           | Some body => Some (mkGatewayResponse (Some body) [])
           | None => Payment.gatewayResponse p
           end
      /\ same_core p' p
      /\ Payment.receipt p' = Payment.receipt p
      /\ Payment.webhookReceived p' = Payment.webhookReceived p
      /\ Payment.webhookData p' = Payment.webhookData p
      /\ Payment.failureReason p' = Payment.failureReason p
      /\ findById Payment._id
           (payments (fst (markCompleted rt now db p rpid rsig g)))
           (Payment._id p) = Some p'
      /\ subscriptions (fst (markCompleted rt now db p rpid rsig g))
         = subscriptions db)
  /\ (forall payload pe,
         String.eqb (entity_status pe) "failed" = false ->
         let q := snd (Payment_save rt now db
                         (applyWebhook now payload pe p)) in
         Payment.status q = Payment.completed
         /\ Payment.completedAt q = Payment.completedAt p
         /\ Payment.razorpayPaymentId q = Payment.razorpayPaymentId p
         /\ Payment.razorpaySignature q = Payment.razorpaySignature p
         /\ Payment.invoiceNumber q = Payment.invoiceNumber p
         /\ Payment.invoiceGeneratedAt q = Payment.invoiceGeneratedAt p
         /\ Payment.invoiceUrl q = Payment.invoiceUrl p).
Proof.
  intros Hst Hc. split.
  - intros rpid rsig g p'.
    pose proof (markCompleted_again rt now db p rpid rsig g Hst Hc) as H.
    cbv zeta in H. fold p' in H.
    destruct H as (H1 & H2 & H3 & H4 & H5 & H6 & H7 & H8 & H9 & H10 & H11).
    destruct H9 as (K1 & K2 & K3 & K4 & K5 & K6 & K7 & K8 & K9 & K10 & K11
                    & K12 & K13).
    unfold same_core. repeat split; assumption.
  - intros payload pe Hf q.
    destruct (applyWebhook_on_completed now payload pe p Hc Hf)
      as (Hs & Hrest).
    assert (Hq : q = applyWebhook now payload pe p).
    { subst q. apply Payment_save_same_status with (o := p).
      - now rewrite applyWebhook_id.
      - now rewrite Hs. }
    rewrite Hq. split; [exact Hs | exact Hrest].
Qed.

(** C2, counterexample: Alice's payment was completed at [t0 + 1000]; a
    second [markCompleted] a minute later with the same arguments returns a
    record with another [completedAt]. *)
Lemma markCompleted_not_idempotent :
  Payment.status Scenario.payment1 = Payment.completed
  /\ findById Payment._id (payments Scenario.paid) 1%nat
     = Some Scenario.payment1
  /\ Payment.completedAt Scenario.payment1 = Some (Sample.t0 + 1000)
  /\ Payment.completedAt
       (snd (markCompleted Sample.runtime (Sample.t0 + 61000) Scenario.paid
               Scenario.payment1 "pay_1" "key:order_RCPT_1|pay_1"
               (Some Scenario.verify1)))
     = Some (Sample.t0 + 61000)
  /\ snd (markCompleted Sample.runtime (Sample.t0 + 61000) Scenario.paid
            Scenario.payment1 "pay_1" "key:order_RCPT_1|pay_1"
            (Some Scenario.verify1))
     <> Scenario.payment1.
Proof.
  split; [reflexivity|]. split; [apply payment1_stored|].
  split; [reflexivity|]. split; [vm_compute; reflexivity|].
  intros H. apply (f_equal Payment.completedAt) in H.
  vm_compute in H. discriminate H.
Qed.

Lemma completing_a_completed_payment_witness :
  Payment.completedAt
    (snd (markCompleted Sample.runtime (Sample.t0 + 61000) Scenario.paid
            Scenario.payment1 "pay_2" "" None))
  = Some (Sample.t0 + 61000)
  /\ Payment.razorpayPaymentId
       (snd (markCompleted Sample.runtime (Sample.t0 + 61000) Scenario.paid
               Scenario.payment1 "pay_2" "" None))
     = Some "pay_2".
Proof.
  destruct (completing_a_completed_payment Sample.runtime
              (Sample.t0 + 61000) Scenario.paid Scenario.payment1
              ltac:(vm_compute; reflexivity) eq_refl) as [H _].
  destruct (H "pay_2" "" None) as (_ & _ & _ & _ & Hc & Hr & _).
  split; [exact Hc | exact Hr].
Defined.

(** ** The expiry sweep *)

(** C8.  [expireOldSubscriptions] leaves plans and payments alone and keeps
    the subscriptions in place, one for one.  A subscription that is active
    with an end date strictly before [now] gets status expired and keeps
    every other field; any other subscription is left as it is. *)
Theorem expireOldSubscriptions_frame (now : Date) (db : DB) :
  let db' := expireOldSubscriptions now db in
  plans db' = plans db
  /\ payments db' = payments db
  /\ List.length (subscriptions db') = List.length (subscriptions db)
  /\ forall (i : nat) (s : Subscription.t),
       nth_error (subscriptions db) i = Some s ->
       exists s',
         nth_error (subscriptions db') i = Some s'
         /\ (Subscription.status s = Subscription.active
             /\ Subscription.endDate s < now ->
             Subscription.status s' = Subscription.expired)
         /\ (~ (Subscription.status s = Subscription.active
                /\ Subscription.endDate s < now) -> s' = s)
         /\ Subscription._id s' = Subscription._id s
         /\ Subscription.user s' = Subscription.user s
         /\ Subscription.plan s' = Subscription.plan s
         /\ Subscription.startDate s' = Subscription.startDate s
         /\ Subscription.endDate s' = Subscription.endDate s
         /\ Subscription.paymentId s' = Subscription.paymentId s
         /\ Subscription.cancelledAt s' = Subscription.cancelledAt s
         /\ Subscription.cancellationReason s'
            = Subscription.cancellationReason s
         /\ Subscription.billingHistory s' = Subscription.billingHistory s
         /\ Subscription.createdAt s' = Subscription.createdAt s.
Proof.
  cbv zeta. unfold expireOldSubscriptions. cbn [plans payments subscriptions
    set_subscriptions].
  split; [reflexivity|]. split; [reflexivity|].
  split; [apply length_map|].
  intros i s Hi. rewrite nth_error_map, Hi. cbn [option_map].
  eexists. split; [reflexivity|].
  destruct (Subscription.status s) eqn:Es; cbn [Subscription.status_eqb andb];
    try (repeat split; intros; try reflexivity; try tauto;
         destruct H as [H _]; discriminate H).
  destruct (Subscription.endDate s <? now) eqn:El.
  - apply Z.ltb_lt in El. repeat split; intros; try reflexivity.
    exfalso. apply H. split; [reflexivity | exact El].
  - apply Z.ltb_ge in El. repeat split; intros; try reflexivity.
    destruct H as [_ H]. lia.
Qed.

Lemma expireOldSubscriptions_frame_witness :
  option_map Subscription.status
    (nth_error
       (subscriptions
          (expireOldSubscriptions (Sample.t0 + days_ms 365) Scenario.paid))
       0)
  = Some Subscription.expired.
Proof.
  destruct (expireOldSubscriptions_frame (Sample.t0 + days_ms 365)
              Scenario.paid) as (_ & _ & _ & H).
  destruct (H O _ ltac:(vm_compute; reflexivity)) as (s' & Hn & He & _).
  rewrite Hn. simpl. f_equal. apply He.
  split; [reflexivity | vm_compute; reflexivity].
Defined.

(** ** The renewal cap *)

(** C1, on the code.  With a cap of 2 and three renew payments paid within
    one month, the first renewal succeeds and the second is already
    refused, although one completed renew payment stood against the
    subscription when it was verified: [verifyPayment] marks the payment
    completed before it counts, so the payment under verification counts
    against its own cap (the count is 1 before the second payment is
    marked completed and 2 after).  One renewal entry is billed instead of
    two. *)
Theorem renewal_cap_counts_current_payment :
  Scenario.succeeded (snd Scenario.firstRenewal) = true
  /\ countRenewsThisMonth Sample.runtime (Sample.t0 + 6000)
       (fst Scenario.firstRenewal) 1%nat = 1
  /\ option_map
       (fun p =>
          countRenewsThisMonth Sample.runtime (Sample.t0 + 6000)
            (fst (markCompleted Sample.runtime (Sample.t0 + 6000)
                    (fst Scenario.firstRenewal) p "pay_3" "" None))
            1%nat)
       (findById Payment._id (payments (fst Scenario.firstRenewal)) 3%nat)
     = Some 2
  /\ snd Scenario.secondRenewal
     = ApiError "You have reached the maximum renewals for this period" 400
  /\ snd Scenario.thirdRenewal
     = ApiError "You have reached the maximum renewals for this period" 400
  /\ Scenario.billedPayments (fst Scenario.thirdRenewal) 1%nat
     = [1%nat; 2%nat]
  /\ map Payment.status (payments (fst Scenario.thirdRenewal))
     = [Payment.completed; Payment.completed; Payment.failed;
        Payment.failed].
Proof. repeat split; vm_compute; reflexivity. Qed.

(** ** One active subscription per user and plan *)

(** C7, on the code.  [activate] creates an active subscription without
    looking for one the user already holds on the plan, and the purchase
    guard of [createOrder] and [verifyPayment] compares the plan of the
    first active subscription [findOne] returns only.  Either way Alice
    ends with two active subscriptions on Standard. *)
Theorem second_active_subscription_created :
  List.length (Scenario.activeOn Scenario.secondCaptured Scenario.alice 2%nat
                 (Sample.t0 + 4000)) = 1%nat
  /\ Scenario.succeeded (snd Scenario.secondActivated) = true
  /\ List.length (Scenario.activeOn (fst Scenario.secondActivated)
                    Scenario.alice 2%nat (Sample.t0 + 4000)) = 2%nat
  /\ List.length (Scenario.activeOn Scenario.basicThenStandard
                    Scenario.alice 2%nat (Sample.t0 + 5000)) = 1%nat
  /\ Scenario.succeeded (snd Scenario.standardAgain) = true
  /\ List.length (Scenario.activeOn (fst Scenario.standardAgain)
                    Scenario.alice 2%nat (Sample.t0 + 5000)) = 2%nat.
Proof. repeat split; vm_compute; reflexivity. Qed.

(** ** Reconciliation: shared facts *)

Lemma Payment_pre_save_core (rt : Runtime) (now : Date) (n m : bool)
    (p : Payment.t) :
  same_core (Payment_pre_save rt now n m p) p.
Proof.
  unfold Payment_pre_save, same_core.
  destruct (n && negb (truthy_opt (Payment.receipt p)));
    match goal with |- context [if ?c then _ else _] => destruct c end;
    repeat split; reflexivity.
Qed.

Lemma Payment_save_core (rt : Runtime) (now : Date) (db : DB)
    (p : Payment.t) :
  same_core (snd (Payment_save rt now db p)) p.
Proof. unfold Payment_save. simpl. apply Payment_pre_save_core. Qed.

Lemma same_core_trans (p q r : Payment.t) :
  same_core p q -> same_core q r -> same_core p r.
Proof. unfold same_core. intuition congruence. Qed.

Lemma markCompleted_core (rt : Runtime) (now : Date) (db : DB)
    (p : Payment.t) (a b : string) (g : option VerifyBody) :
  same_core (snd (markCompleted rt now db p a b g)) p.
Proof.
  unfold markCompleted.
  eapply same_core_trans; [apply Payment_save_core|].
  destruct (truthy a), (truthy b), g; repeat split; reflexivity.
Qed.

Lemma markCompleted_stored (rt : Runtime) (now : Date) (db : DB)
    (p o : Payment.t) (a b : string) (g : option VerifyBody) :
  findById Payment._id (payments db) (Payment._id p) = Some o ->
  findById Payment._id (payments (fst (markCompleted rt now db p a b g)))
    (Payment._id p) = Some (snd (markCompleted rt now db p a b g)).
Proof.
  intros H. unfold markCompleted.
  match goal with
  | |- context [Payment_save rt now db ?q] =>
      replace (Payment._id p) with (Payment._id q)
  end.
  - apply Payment_save_stored with (o := o).
    destruct (truthy a), (truthy b), g; exact H.
  - destruct (truthy a), (truthy b), g; reflexivity.
Qed.

(** Linking a stored payment to a subscription writes exactly that. *)
Lemma link_saved (rt : Runtime) (now : Date) (db : DB) (p : Payment.t)
    (sid : ObjectId) :
  findById Payment._id (payments db) (Payment._id p) = Some p ->
  let r := Payment_save rt now db (Payment.set_subscription (Some sid) p) in
  snd r = Payment.set_subscription (Some sid) p
  /\ findById Payment._id (payments (fst r)) (Payment._id p)
     = Some (Payment.set_subscription (Some sid) p)
  /\ subscriptions (fst r) = subscriptions db
  /\ plans (fst r) = plans db.
Proof.
  intros H r.
  assert (Hs : snd r = Payment.set_subscription (Some sid) p).
  { subst r. apply Payment_save_same_status with (o := p);
      [exact H | reflexivity]. }
  split; [exact Hs|]. split; [|split; reflexivity].
  rewrite <- Hs. subst r.
  apply (Payment_save_stored rt now db
           (Payment.set_subscription (Some sid) p) p). exact H.
Qed.

Lemma verifyPayment_accepted (rt : Runtime) (now : Date) (db : DB)
    (body : VerifyBody) (p : Payment.t) :
  accepted rt db body p ->
  verifyPayment rt now db body = reconcile rt now db p body.
Proof.
  intros (Hid & Hf & Hm & Ho & Hs).
  unfold verifyPayment. now rewrite Hid, Hm, Hf, Ho, Hs.
Qed.

Lemma reconcile_replay (rt : Runtime) (now : Date) (db : DB)
    (p : Payment.t) (body : VerifyBody) (sid : ObjectId) :
  linked p sid ->
  reconcile rt now db p body
  = (db, Json 200 (Some "Payment already processed") (Some p)
           (findById Subscription._id (subscriptions db) sid)
           (populatePlan db
              (findById Subscription._id (subscriptions db) sid))).
Proof. intros [Hc Hl]. unfold reconcile. now rewrite Hc, Hl. Qed.

(** The completing path of [reconcile]. *)
Lemma reconcile_completing (rt : Runtime) (now : Date) (db : DB)
    (p : Payment.t) (body : VerifyBody) :
  unreconciled p ->
  reconcile rt now db p body
  = let db1 := fst (markCompleted rt now db p (razorpay_payment_id body)
                      (razorpay_signature body) (Some body)) in
    let p1 := snd (markCompleted rt now db p (razorpay_payment_id body)
                     (razorpay_signature body) (Some body)) in
    match findById Plan._id (plans db1) (Payment.plan p1) with
    | None =>
        (fst (markFailed rt now db1 p1 "Associated plan not found"),
         ApiError "Associated plan not found" 500)
    | Some plan =>
        match Payment.action p1 with
        | Payment.renew => handleRenew rt now db1 p1 plan
        | Payment.upgrade => handleUpgrade rt now db1 p1 plan
        | Payment.purchase =>
            handlePurchase rt now db1 p1 plan
              (findActiveByUser db1 (Payment.user p1) now)
        end
    end.
Proof.
  intros Hu. unfold reconcile.
  destruct (markCompleted rt now db p (razorpay_payment_id body)
              (razorpay_signature body) (Some body)) as [db1 p1] eqn:E.
  cbn [fst snd].
  assert (Hgo : forall X Y : DB * Response,
             X = Y ->
             match Payment.status p, Payment.subscription p with
             | Payment.completed, Some sid =>
                 (db, Json 200 (Some "Payment already processed") (Some p)
                          (findById Subscription._id (subscriptions db) sid)
                          (populatePlan db
                             (findById Subscription._id (subscriptions db)
                                sid)))
             | _, _ => X
             end = Y).
  { intros X Y ->. destruct Hu as [Hu|Hu].
    - destruct (Payment.status p); try reflexivity. congruence.
    - rewrite Hu. destruct (Payment.status p); reflexivity. }
  apply Hgo.
  destruct (findById Plan._id (plans db1) (Payment.plan p1)); [reflexivity|].
  destruct (markFailed rt now db1 p1 "Associated plan not found").
  reflexivity.
Qed.

Lemma currentEnd_max (now e : Date) :
  (if now <? e then e else now) = Z.max e now.
Proof. destruct (now <? e) eqn:E; [apply Z.ltb_lt in E | apply Z.ltb_ge in E]; lia. Qed.

Lemma Subscription_save_active (now : Date) (db : DB) (s : Subscription.t) :
  Subscription.status s <> Subscription.cancelled ->
  Subscription_save now db s
  = (set_subscriptions (replaceById Subscription._id s (subscriptions db)) db,
     s).
Proof.
  intros H. unfold Subscription_save.
  destruct (Subscription.status s) eqn:E; try congruence;
    cbn [Subscription.status_eqb]; rewrite ?andb_false_r; reflexivity.
Qed.

(** What a renewal that answers with success has done. *)
Lemma handleRenew_success (rt : Runtime) (now : Date) (db db' : DB)
    (payment : Payment.t) (plan : Plan.t) (c : nat) (m : option string)
    (pay : option Payment.t) (os : option Subscription.t)
    (pl : option Plan.t) :
  findById Payment._id (payments db) (Payment._id payment) = Some payment ->
  handleRenew rt now db payment plan = (db', Json c m pay os pl) ->
  exists sub sub',
    findByRef Subscription._id (subscriptions db)
      (match Payment.targetSubscription payment with
       | Some t => Some t
       | None => Payment.subscription payment
       end) = Some sub
    /\ os = Some sub'
    /\ sub' = Subscription.mk (Subscription._id sub) (Subscription.user sub)
                (Subscription.plan sub) Subscription.active
                (Subscription.startDate sub)
                (Z.max (Subscription.endDate sub) now
                 + days_ms (durationDays plan))
                (Subscription.paymentId sub) (Subscription.cancelledAt sub)
                (Subscription.cancellationReason sub)
                (Subscription.billingHistory sub
                   ++ [billingEntry now payment])
                (Subscription.createdAt sub)
    /\ subscriptions db'
       = replaceById Subscription._id sub' (subscriptions db)
    /\ findById Payment._id (payments db') (Payment._id payment)
       = Some (Payment.set_subscription (Some (Subscription._id sub)) payment)
    /\ plans db' = plans db.
Proof.
  intros Hst. unfold handleRenew.
  destruct (findByRef Subscription._id (subscriptions db) _) as [sub|] eqn:Es.
  2:{ destruct (markFailed rt now db payment _). discriminate. }
  destruct (findById Plan._id (plans db) (Subscription.plan sub)); [|discriminate].
  match goal with |- context [if ?c then _ else _] => destruct c end.
  { destruct (markFailed rt now db payment _). discriminate. }
  rewrite currentEnd_max.
  rewrite Subscription_save_active by (cbn; discriminate).
  match goal with
  | |- context [Payment_save rt now ?d (Payment.set_subscription (Some ?i) _)] =>
      pose proof (link_saved rt now d payment i Hst) as Hl;
      destruct (Payment_save rt now d
                  (Payment.set_subscription (Some i) payment)) as [db2 p2]
  end.
  cbv zeta in Hl. cbn [fst snd] in Hl.
  destruct Hl as (_ & Hf & Hsub & Hpl).
  intros H. injection H as <- _ _ _ <- _.
  eexists sub, _. split; [reflexivity|]. split; [reflexivity|].
  split; [reflexivity|]. split; [exact Hsub|]. split; [exact Hf | exact Hpl].
Qed.

(** What an upgrade that answers with success has done. *)
Lemma handleUpgrade_success (rt : Runtime) (now : Date) (db db' : DB)
    (payment : Payment.t) (plan : Plan.t) (c : nat) (m : option string)
    (pay : option Payment.t) (os : option Subscription.t)
    (pl : option Plan.t) :
  findById Payment._id (payments db) (Payment._id payment) = Some payment ->
  handleUpgrade rt now db payment plan = (db', Json c m pay os pl) ->
  exists target oldSub oldPlan newSub,
    Payment.targetSubscription payment = Some target
    /\ findById Subscription._id (subscriptions db) target = Some oldSub
    /\ findById Plan._id (plans db) (Subscription.plan oldSub) = Some oldPlan
    /\ Plan.priority oldPlan < Plan.priority plan
    /\ os = Some newSub
    /\ newSub = Subscription.mk
                  (freshId Subscription._id (subscriptions db))
                  (Payment.user payment) (Payment.plan payment)
                  Subscription.active now
                  (now + days_ms (durationDays plan))
                  (Some (Payment._id payment)) None None
                  [billingEntry now payment] now
    /\ subscriptions db'
       = (replaceById Subscription._id
            (Subscription.set_status Subscription.expired oldSub)
            (subscriptions db) ++ [newSub])%list
    /\ findById Payment._id (payments db') (Payment._id payment)
       = Some (Payment.set_subscription (Some (Subscription._id newSub))
                 payment)
    /\ plans db' = plans db.
Proof.
  intros Hst. unfold handleUpgrade.
  destruct (Payment.targetSubscription payment) as [target|] eqn:Et.
  2:{ destruct (markFailed rt now db payment _). discriminate. }
  destruct (findById Subscription._id (subscriptions db) target)
    as [oldSub|] eqn:Eo.
  2:{ destruct (markFailed rt now db payment _). discriminate. }
  destruct (findById Plan._id (plans db) (Subscription.plan oldSub))
    as [oldPlan|] eqn:Ep.
  2:{ destruct (markFailed rt now db payment _). discriminate. }
  destruct (Plan.priority plan <=? Plan.priority oldPlan) eqn:Ele.
  { destruct (markFailed rt now db payment _). discriminate. }
  apply Z.leb_gt in Ele.
  rewrite Subscription_save_active by (cbn; discriminate).
  unfold Subscription_create.
  cbn [subscriptions set_subscriptions plans payments].
  rewrite (freshId_replaceById Subscription._id (subscriptions db)
             (Subscription.set_status Subscription.expired oldSub) oldSub)
    by (cbn; rewrite (findById_key _ _ _ _ Eo); exact Eo).
  match goal with
  | |- context [Payment_save rt now ?d (Payment.set_subscription (Some ?i) _)] =>
      pose proof (link_saved rt now d payment i Hst) as Hl;
      destruct (Payment_save rt now d
                  (Payment.set_subscription (Some i) payment)) as [db2 p2]
  end.
  cbv zeta in Hl. cbn [fst snd] in Hl.
  destruct Hl as (_ & Hf & Hsub & Hpl).
  intros H. injection H as <- _ _ _ <- _.
  exists target, oldSub, oldPlan. eexists.
  split; [reflexivity|]. split; [exact Eo|]. split; [exact Ep|].
  split; [exact Ele|]. split; [reflexivity|]. split; [reflexivity|].
  split; [exact Hsub|]. split; [exact Hf | exact Hpl].
Qed.


Lemma linked_or_unreconciled (p : Payment.t) :
  (exists sid, linked p sid) \/ unreconciled p.
Proof.
  unfold linked, unreconciled.
  destruct (Payment.status p) eqn:Es, (Payment.subscription p) as [sid|] eqn:El;
    try (right; left; discriminate); try (right; right; reflexivity).
  left. exists sid. split; reflexivity.
Qed.

(** The payment a completing [reconcile] hands to the action handlers. *)
Lemma completing_payment (rt : Runtime) (now : Date) (db : DB)
    (p : Payment.t) (body : VerifyBody) :
  findById Payment._id (payments db) (Payment._id p) = Some p ->
  let db1 := fst (markCompleted rt now db p (razorpay_payment_id body)
                    (razorpay_signature body) (Some body)) in
  let p1 := snd (markCompleted rt now db p (razorpay_payment_id body)
                   (razorpay_signature body) (Some body)) in
  findById Payment._id (payments db1) (Payment._id p1) = Some p1
  /\ same_core p1 p
  /\ Payment.status p1 = Payment.completed
  /\ subscriptions db1 = subscriptions db
  /\ plans db1 = plans db.
Proof.
  intros Hst db1 p1.
  pose proof (markCompleted_core rt now db p (razorpay_payment_id body)
                (razorpay_signature body) (Some body)) as Hc.
  fold p1 in Hc. split; [|split; [exact Hc|split; [|split; reflexivity]]].
  - destruct Hc as (Hid & _). rewrite Hid.
    apply markCompleted_stored with (o := p). exact Hst.
  - apply markCompleted_status.
Qed.


(** ** Status transitions of a completed payment *)

Lemma webhook_save_status (rt : Runtime) (now : Date) (db : DB)
    (payload : WebhookPayload) (pe : PaymentEntity) (p : Payment.t) :
  Payment.status p = Payment.completed ->
  Payment.status (snd (Payment_save rt now db (applyWebhook now payload pe p)))
  = if String.eqb (entity_status pe) "failed"
    then Payment.failed else Payment.completed.
Proof.
  intros Hc. rewrite Payment_save_status, applyWebhook_status, Hc.
  destruct (String.eqb (entity_status pe) "captured") eqn:E1.
  - apply String.eqb_eq in E1. rewrite E1. reflexivity.
  - destruct (String.eqb (entity_status pe) "authorized") eqn:E2.
    + apply String.eqb_eq in E2. rewrite E2. reflexivity.
    + simpl. destruct (String.eqb (entity_status pe) "failed"); reflexivity.
Qed.

Lemma findByRazorpayOrderId_stored (db : DB) (o : string) (p : Payment.t) :
  findByRazorpayOrderId db o = Some p ->
  exists q, findById Payment._id (payments db) (Payment._id p) = Some q.
Proof.
  unfold findByRazorpayOrderId. intros H. apply find_some in H.
  apply findById_of_In. tauto.
Qed.

(** A direct verify whose signature is not accepted marks the payment
    failed, whatever its status. *)
Lemma verifyPayment_rejected (rt : Runtime) (now : Date) (db : DB)
    (body : VerifyBody) (p : Payment.t) :
  findById Payment._id (payments db) (Payment._id p) = Some p ->
  vb_paymentId body = Some (Payment._id p) ->
  missingFields body = false ->
  orderIdMismatch p body = false ->
  verifyRazorpaySignature rt (razorpay_order_id body)
    (razorpay_payment_id body) (razorpay_signature body) <> Some true ->
  snd (verifyPayment rt now db body)
  = ApiError "Payment verification failed" 400
  /\ option_map Payment.status
       (findById Payment._id (payments (fst (verifyPayment rt now db body)))
          (Payment._id p))
     = Some Payment.failed.
Proof.
  intros Hst Hid Hm Ho Hs. unfold verifyPayment. rewrite Hid, Hm, Hst, Ho.
  assert (Hgen : forall reason,
             option_map Payment.status
               (findById Payment._id
                  (payments (fst (markFailed rt now db p reason)))
                  (Payment._id p)) = Some Payment.failed).
  { intros reason.
    pose proof (Payment_save_stored rt now db
                  (Payment.set_failureReason
                     (Some (if truthy reason then reason
                            else "Payment failed"))
                     (Payment.set_status Payment.failed p)) p Hst) as Hf.
    change (Payment_save rt now db _) with (markFailed rt now db p reason)
      in Hf.
    cbn [Payment._id Payment.set_failureReason Payment.set_status] in Hf.
    rewrite Hf. cbn [option_map]. now rewrite markFailed_status. }
  destruct (verifyRazorpaySignature rt _ _ _) as [[|]|]; [congruence| |].
  - specialize (Hgen "Signature verification failed").
    destruct (markFailed rt now db p _). split; [reflexivity|exact Hgen].
  - specialize (Hgen "Signature verification error").
    destruct (markFailed rt now db p _). split; [reflexivity|exact Hgen].
Qed.

(** C4 (as the code has it).  A completed payment stays completed under
    [markCompleted], under every webhook event whose entity status is not
    [failed], and under a direct verify that is accepted once the payment
    is linked; [markFailed], a webhook event whose entity status is
    [failed] and a direct verify whose signature is not accepted set the
    status to failed whatever it was, so a late failure signal overrides a
    completion. *)
Theorem completed_payment_transitions (rt : Runtime) (now : Date) (db : DB)
    (p : Payment.t) :
  Payment.status p = Payment.completed ->
  (forall a b g,
      Payment.status (snd (markCompleted rt now db p a b g))
      = Payment.completed)
  /\ (forall reason,
         Payment.status (snd (markFailed rt now db p reason))
         = Payment.failed)
  /\ (forall body sid,
         accepted rt db body p ->
         Payment.subscription p = Some sid ->
         fst (verifyPayment rt now db body) = db)
  /\ (forall body,
         findById Payment._id (payments db) (Payment._id p) = Some p ->
         vb_paymentId body = Some (Payment._id p) ->
         missingFields body = false ->
         orderIdMismatch p body = false ->
         verifyRazorpaySignature rt (razorpay_order_id body)
           (razorpay_payment_id body) (razorpay_signature body)
         <> Some true ->
         option_map Payment.status
           (findById Payment._id
              (payments (fst (verifyPayment rt now db body))) (Payment._id p))
         = Some Payment.failed)
  /\ (forall req payload pe,
         verifyRazorpayWebhookSignature rt (rawBody req)
           (x_razorpay_signature req) = Some true ->
         JSON_parse rt (rawBody req) = Some payload ->
         eventOfInterest (event payload) = true ->
         entity payload = Some pe ->
         findByRazorpayOrderId db (order_id pe) = Some p ->
         exists p',
           findById Payment._id
             (payments (fst (razorpayWebhook rt now db req))) (Payment._id p)
           = Some p'
           /\ Payment.status p'
              = if String.eqb (entity_status pe) "failed"
                then Payment.failed else Payment.completed).
Proof.
  intros Hc. split; [|split; [|split; [|split]]].
  - intros a b g. apply markCompleted_status.
  - intros reason. apply markFailed_status.
  - intros body sid Ha Hl.
    rewrite (verifyPayment_accepted rt now db body p Ha).
    now rewrite (reconcile_replay rt now db p body sid (conj Hc Hl)).
  - intros body Hst Hid Hm Ho Hs.
    apply (verifyPayment_rejected rt now db body p Hst Hid Hm Ho Hs).
  - intros req payload pe Hsig Hparse Hev Hent Hfind.
    unfold razorpayWebhook. rewrite Hsig, Hparse, Hev, Hent, Hfind.
    destruct (findByRazorpayOrderId_stored _ _ _ Hfind) as [q Hq].
    destruct (Payment_save rt now db (applyWebhook now payload pe p))
      as [db1 p1] eqn:E.
    exists p1. simpl. split.
    + pose proof (Payment_save_stored rt now db
                    (applyWebhook now payload pe p) q) as Hs.
      rewrite applyWebhook_id in Hs. specialize (Hs Hq).
      now rewrite E in Hs.
    + pose proof (webhook_save_status rt now db payload pe p Hc) as Hs.
      now rewrite E in Hs.
Qed.

(** C4, counterexample: Alice's completed payment becomes failed when
    [markFailed] is called on it, and when the gateway delivers a
    payment.failed event for its order. *)
Lemma completed_payment_can_fail :
  Payment.status Scenario.payment1 = Payment.completed
  /\ Payment.status
       (snd (markFailed Sample.runtime (Sample.t0 + 61000) Scenario.paid
               Scenario.payment1 "late failure"))
     = Payment.failed
  /\ option_map Payment.status
       (findById Payment._id
          (payments
             (fst (razorpayWebhook Sample.runtime (Sample.t0 + 61000)
                     Scenario.paid
                     (Scenario.delivery "order_RCPT_1" "failed" "failed"))))
          1%nat)
     = Some Payment.failed.
Proof. repeat split; vm_compute; reflexivity. Qed.

Lemma completed_payment_transitions_witness :
  Payment.status Scenario.payment1 = Payment.completed
  /\ Payment.status
       (snd (markFailed Sample.runtime (Sample.t0 + 61000) Scenario.paid
               Scenario.payment1 ""))
     = Payment.failed
  /\ Payment.status
       (snd (markCompleted Sample.runtime (Sample.t0 + 61000) Scenario.paid
               Scenario.payment1 "" "" None))
     = Payment.completed.
Proof.
  destruct (completed_payment_transitions Sample.runtime (Sample.t0 + 61000)
              Scenario.paid Scenario.payment1 eq_refl) as (Hm & Hf & _ & _ & _).
  split; [reflexivity|]. split; [apply Hf | apply Hm].
Defined.

(** ** Idempotent replay *)








(** ** Renewal *)

(** C5.  A renew payment whose verification answers with success has
    moved the end date of its target subscription to the later of the old
    end date and [now], plus the duration (in days) of the plan the payment
    was made for; has appended one billing-history entry carrying the
    payment's amount; and has set the status to active.  Nothing else of
    the subscription changes, no other subscription changes and none is
    added. *)
Theorem renewal_extends_subscription (rt : Runtime) (now : Date)
    (db db' : DB) (body : VerifyBody) (p : Payment.t) (c : nat)
    (m : option string) (pay : option Payment.t)
    (os : option Subscription.t) (pl : option Plan.t) :
  accepted rt db body p ->
  unreconciled p ->
  Payment.action p = Payment.renew ->
  verifyPayment rt now db body = (db', Json c m pay os pl) ->
  exists plan sub sub',
    findById Plan._id (plans db) (Payment.plan p) = Some plan
    /\ findByRef Subscription._id (subscriptions db)
         (match Payment.targetSubscription p with
          | Some t => Some t
          | None => Payment.subscription p
          end) = Some sub
    /\ findById Subscription._id (subscriptions db') (Subscription._id sub)
       = Some sub'
    /\ os = Some sub'
    /\ Subscription.endDate sub'
       = Z.max (Subscription.endDate sub) now + days_ms (durationDays plan)
    /\ Subscription.billingHistory sub'
       = (Subscription.billingHistory sub
            ++ [Subscription.mkBilling now (Payment.amount p)
                  (Payment._id p) Subscription.success])%list
    /\ Subscription.status sub' = Subscription.active
    /\ (Subscription._id sub' = Subscription._id sub
        /\ Subscription.user sub' = Subscription.user sub
        /\ Subscription.plan sub' = Subscription.plan sub
        /\ Subscription.startDate sub' = Subscription.startDate sub
        /\ Subscription.paymentId sub' = Subscription.paymentId sub
        /\ Subscription.createdAt sub' = Subscription.createdAt sub)
    /\ (forall i, i <> Subscription._id sub ->
          findById Subscription._id (subscriptions db') i
          = findById Subscription._id (subscriptions db) i)
    /\ List.length (subscriptions db') = List.length (subscriptions db)
    /\ (Plan.duration plan = Some 30 ->
        Subscription.endDate sub = now + days_ms 5 ->
        Subscription.endDate sub' = now + days_ms 35)
    /\ (Plan.duration plan = Some 30 ->
        Subscription.endDate sub = now - days_ms 10 ->
        Subscription.endDate sub' = now + days_ms 30).
Proof.
  intros Ha Hu Hact H.
  rewrite (verifyPayment_accepted rt now db body p Ha) in H.
  destruct Ha as (_ & Hst & _).
  rewrite (reconcile_completing rt now db p body Hu) in H. cbv zeta in H.
  destruct (completing_payment rt now db p body Hst)
    as (Hst1 & Hcore & _ & Hsub & Hpl).
  destruct Hcore as (Hid & _ & Hplan & Hlink & Ha1 & Htgt & Ham & _).
  rewrite Hpl, Hplan in H.
  destruct (findById Plan._id (plans db) (Payment.plan p)) as [plan|] eqn:Ep;
    [|discriminate].
  rewrite Ha1, Hact in H.
  destruct (handleRenew_success _ _ _ _ _ _ _ _ _ _ _ Hst1 H)
    as (sub & sub' & Hfind & Hos & Hs' & Hsubs & _).
  rewrite Htgt, Hlink, Hsub in Hfind. rewrite Hsub in Hsubs.
  assert (Hin : findById Subscription._id (subscriptions db)
                  (Subscription._id sub) = Some sub).
  { unfold findByRef in Hfind.
    destruct (match Payment.targetSubscription p with
              | Some t => Some t
              | None => Payment.subscription p
              end) as [i|]; [|discriminate].
    now rewrite (findById_key _ _ _ _ Hfind). }
  assert (Hk : Subscription._id sub' = Subscription._id sub)
    by (rewrite Hs'; reflexivity).
  assert (He : Subscription.endDate sub'
               = Z.max (Subscription.endDate sub) now
                 + days_ms (durationDays plan))
    by (rewrite Hs'; reflexivity).
  exists plan, sub, sub'.
  split; [reflexivity|]. split; [exact Hfind|]. split.
  { rewrite Hsubs, <- Hk.
    apply findById_replaceById_hit with (y := sub). now rewrite Hk. }
  split; [exact Hos|]. split; [exact He|]. split.
  { rewrite Hs'. cbn [Subscription.billingHistory]. unfold billingEntry.
    now rewrite Hid, Ham. }
  split; [rewrite Hs'; reflexivity|].
  split; [rewrite Hs'; repeat split; reflexivity|]. split.
  { intros i Hi. rewrite Hsubs. apply findById_replaceById_miss.
    now rewrite Hk. }
  split; [rewrite Hsubs; apply replaceById_length|].
  unfold durationDays in He. unfold days_ms in *.
  split; intros Hd Hend; rewrite He, Hd, Hend; lia.
Qed.

Lemma renewal_extends_subscription_witness :
  exists sub',
    findById Subscription._id (subscriptions (fst Scenario.firstRenewal))
      1%nat = Some sub'
    /\ Subscription.endDate sub'
       = Sample.t0 + 1000 + days_ms 90 + days_ms 90
    /\ Subscription.status sub' = Subscription.active.
Proof.
  edestruct (renewal_extends_subscription Sample.runtime (Sample.t0 + 5000)
               Scenario.renewOrders (fst Scenario.firstRenewal)
               (Sample.verifyBodyFor Scenario.renewOrders 2%nat "pay_2")
               renewPayment)
    as (plan & sub & sub' & Hp & Hs & Hf & _ & He & _ & Ha & _).
  - repeat split; vm_compute; reflexivity.
  - right. reflexivity.
  - reflexivity.
  - vm_compute. reflexivity.
  - vm_compute in Hp. injection Hp as <-.
    vm_compute in Hs. injection Hs as <-.
    exists sub'. split; [exact Hf|]. split; [|exact Ha].
    rewrite He. vm_compute. reflexivity.
Defined.

(** ** Upgrade *)

Lemma createOrder_upgrade_same_plan (rt : Runtime) (now : Date) (db : DB)
    (user : option ObjectId) (body : CreateOrderBody) (sid : ObjectId)
    (target : Subscription.t) :
  co_action body = Some "upgrade" ->
  co_subscriptionId body = Some sid ->
  findById Subscription._id (subscriptions db) sid = Some target ->
  co_planId body = Some (Subscription.plan target) ->
  exists message code,
    createOrder rt now db user body = (db, OrderError message code).
Proof.
  intros Ha Hs Ht Hp. unfold createOrder.
  destruct user as [uid|]; [|eauto].
  rewrite Ha, Hp. cbn [parseAction String.eqb Ascii.eqb Bool.eqb].
  destruct (findById Plan._id (plans db) (Subscription.plan target))
    as [plan|] eqn:Epl; [|eauto].
  destruct (negb (0 <? Plan.amount plan)); [eauto|].
  rewrite Hs, Ht.
  destruct (negb (Nat.eqb (Subscription.user target) uid)); [eauto|].
  rewrite (findById_key _ _ _ _ Epl), Nat.eqb_refl.
  cbn [Payment.action_eqb andb]. eauto.
Qed.

(** The length of a plan's period in milliseconds, written out. *)
Lemma days_ms_durationDays (plan : Plan.t) :
  days_ms (durationDays plan)
  = match Plan.duration plan with Some d => d | None => 30 end * 86400000.
Proof. unfold days_ms, durationDays. destruct (Plan.duration plan); lia. Qed.

(** The priority test of [verifyPayment].  For an upgrade payment that
    [verifyPayment] takes to the completing path: an answer of success
    means the old plan's priority is strictly below the new plan's, the
    old subscription is now expired and otherwise as it was, and one
    subscription was added, on the payment's plan, active, starting [now],
    ending the plan's duration in days of 86400000 ms later (30 days for a
    plan without duration), created by and linked to the payment; when the
    old plan's priority is greater than or equal to the new plan's the
    answer is the refusal, no subscription changes and the payment is
    marked failed.  [createOrder] refuses an upgrade order for the plan
    the target subscription is on. *)
Lemma verifyPayment_upgrade_checked (rt : Runtime) (now : Date)
    (db : DB) :
  (forall body p,
      accepted rt db body p ->
      unreconciled p ->
      Payment.action p = Payment.upgrade ->
      (forall db' c m pay os pl,
          verifyPayment rt now db body = (db', Json c m pay os pl) ->
          exists plan target oldSub oldPlan newSub,
            findById Plan._id (plans db) (Payment.plan p) = Some plan
            /\ Payment.targetSubscription p = Some target
            /\ findById Subscription._id (subscriptions db) target
               = Some oldSub
            /\ findById Plan._id (plans db) (Subscription.plan oldSub)
               = Some oldPlan
            /\ Plan.priority oldPlan < Plan.priority plan
            /\ findById Subscription._id (subscriptions db') target
               = Some (Subscription.set_status Subscription.expired oldSub)
            /\ os = Some newSub
            /\ findById Subscription._id (subscriptions db')
                 (Subscription._id newSub) = Some newSub
            /\ List.length (subscriptions db')
               = S (List.length (subscriptions db))
            /\ Subscription.status newSub = Subscription.active
            /\ Subscription.plan newSub = Payment.plan p
            /\ Subscription.user newSub = Payment.user p
            /\ Subscription.startDate newSub = now
            /\ Subscription.endDate newSub
               = now
                 + match Plan.duration plan with Some d => d | None => 30 end
                   * 86400000
            /\ Subscription.paymentId newSub = Some (Payment._id p)
            /\ (exists p',
                  findById Payment._id (payments db') (Payment._id p)
                  = Some p'
                  /\ Payment.subscription p'
                     = Some (Subscription._id newSub)))
      /\ (forall plan target oldSub oldPlan,
             findById Plan._id (plans db) (Payment.plan p) = Some plan ->
             Payment.targetSubscription p = Some target ->
             findById Subscription._id (subscriptions db) target
             = Some oldSub ->
             findById Plan._id (plans db) (Subscription.plan oldSub)
             = Some oldPlan ->
             Plan.priority oldPlan >= Plan.priority plan ->
             snd (verifyPayment rt now db body)
             = ApiError
                 "Cannot downgrade or choose same level plan. Upgrade only to higher plans."
                 400
             /\ subscriptions (fst (verifyPayment rt now db body))
                = subscriptions db
             /\ option_map Payment.status
                  (findById Payment._id
                     (payments (fst (verifyPayment rt now db body)))
                     (Payment._id p))
                = Some Payment.failed))
  /\ (forall user body sid target,
         co_action body = Some "upgrade" ->
         co_subscriptionId body = Some sid ->
         findById Subscription._id (subscriptions db) sid = Some target ->
         co_planId body = Some (Subscription.plan target) ->
         exists message code,
           createOrder rt now db user body = (db, OrderError message code)).
Proof.
  split; [|intros; eapply createOrder_upgrade_same_plan; eassumption].
  intros body p Ha Hu Hact.
  assert (Hv := verifyPayment_accepted rt now db body p Ha).
  destruct Ha as (_ & Hst & _).
  rewrite (reconcile_completing rt now db p body Hu) in Hv. cbv zeta in Hv.
  destruct (completing_payment rt now db p body Hst)
    as (Hst1 & Hcore & _ & Hsub & Hpl).
  destruct Hcore as (Hid & Huser & Hplan & _ & Ha1 & Htgt & _).
  rewrite Hpl, Hplan, Ha1, Hact in Hv.
  set (db1 := fst (markCompleted rt now db p (razorpay_payment_id body)
                     (razorpay_signature body) (Some body))) in *.
  set (p1 := snd (markCompleted rt now db p (razorpay_payment_id body)
                    (razorpay_signature body) (Some body))) in *.
  split.
  - intros db' c m pay os pl H. rewrite Hv in H.
    destruct (findById Plan._id (plans db) (Payment.plan p)) as [plan|];
      [|discriminate].
    destruct (handleUpgrade_success _ _ _ _ _ _ _ _ _ _ _ Hst1 H)
      as (target & oldSub & oldPlan & newSub & Ht & Ho & Hop & Hlt & Hos
          & Hn & Hsubs & Hf & _).
    rewrite Htgt in Ht. rewrite Hsub in Ho, Hsubs, Hn. rewrite Hpl in Hop.
    pose proof (findById_key _ _ _ _ Ho) as Hko.
    exists plan, target, oldSub, oldPlan, newSub.
    split; [reflexivity|]. split; [exact Ht|]. split; [exact Ho|].
    split; [exact Hop|]. split; [exact Hlt|]. split.
    { rewrite Hsubs. apply findById_app_old.
      replace target with
        (Subscription._id
           (Subscription.set_status Subscription.expired oldSub))
        by exact Hko.
      apply findById_replaceById_hit with (y := oldSub).
      cbn [Subscription._id Subscription.set_status]. now rewrite Hko. }
    split; [exact Hos|]. split.
    { rewrite Hsubs, findById_app_none.
      - rewrite Hn. unfold findById. cbn [find Subscription._id].
        now rewrite Nat.eqb_refl.
      - rewrite findById_replaceById_miss.
        + rewrite Hn. cbn [Subscription._id]. apply findById_fresh.
        + rewrite Hn. cbn [Subscription._id Subscription.set_status].
          pose proof (freshId_above Subscription._id _ _
                        (findById_In _ _ _ _ Ho)). lia. }
    split.
    { rewrite Hsubs, length_app, replaceById_length. cbn. lia. }
    rewrite Hn. cbn [Subscription.status Subscription.plan Subscription.user
      Subscription.startDate Subscription.endDate Subscription.paymentId].
    rewrite Hplan, Huser, Hid, <- (days_ms_durationDays plan).
    repeat (split; [reflexivity|]).
    eexists. rewrite <- Hid. split; [exact Hf|]. rewrite Hn. reflexivity.
  - intros plan target oldSub oldPlan Hp Ht Ho Hop Hge.
    rewrite Hv, Hp. unfold handleUpgrade.
    rewrite Htgt, Ht, Hsub, Ho, Hpl, Hop.
    assert (Hle : (Plan.priority plan <=? Plan.priority oldPlan) = true)
      by (apply Z.leb_le; lia).
    rewrite Hle.
    pose proof (markFailed_status rt now db1 p1
                  "Downgrade / same-level upgrade attempted") as Hfs.
    pose proof (Payment_save_stored rt now db1
                  (Payment.set_failureReason
                     (Some "Downgrade / same-level upgrade attempted")
                     (Payment.set_status Payment.failed p1)) p1 Hst1) as Hfst.
    change (Payment_save rt now db1 _)
      with (markFailed rt now db1 p1
              "Downgrade / same-level upgrade attempted") in Hfst.
    destruct (markFailed rt now db1 p1
                "Downgrade / same-level upgrade attempted") as [db2 p2] eqn:E.
    cbn [fst snd] in *. split; [reflexivity|]. split.
    + pose proof (markFailed_frame rt now db1 p1
                    "Downgrade / same-level upgrade attempted") as Hf.
      rewrite E in Hf. cbn [fst] in Hf. rewrite (proj1 Hf). exact Hsub.
    + cbn [Payment._id Payment.set_failureReason Payment.set_status] in Hfst.
      rewrite <- Hid, Hfst. cbn [option_map]. now rewrite Hfs.
Qed.

Lemma verifyPayment_upgrade_checked_example :
  option_map Subscription.status
    (findById Subscription._id
       (subscriptions
          (fst (Scenario.verify upgradeOrdered 2%nat "pay_2"
                  (Sample.t0 + 3000))))
       1%nat)
  = Some Subscription.expired.
Proof.
  destruct (verifyPayment_upgrade_checked Sample.runtime
              (Sample.t0 + 3000) upgradeOrdered) as [H _].
  destruct (H (Sample.verifyBodyFor upgradeOrdered 2%nat "pay_2")
              upgradePayment
              ltac:(repeat split; vm_compute; reflexivity)
              ltac:(right; reflexivity) eq_refl) as [Hs _].
  edestruct Hs as (plan & target & oldSub & oldPlan & newSub & _ & Ht & _
                   & _ & _ & Hf & _).
  - vm_compute. reflexivity.
  - injection Ht as <-.
    apply (f_equal (option_map Subscription.status)) in Hf.
    cbn [option_map Subscription.status Subscription.set_status] in Hf.
    rewrite <- Hf. vm_compute. reflexivity.
Defined.

(** C6.  Not every upgrade payment meets the priority test.  Alice holds
    an active Standard subscription (priority 2) and places an upgrade
    order for Basic (priority 1) against it, which [createOrder] admits.
    [verifyPayment] refuses that payment as a downgrade.  But once the
    webhook has marked the payment completed, [activate] answers 201 for
    it: a new Basic subscription, active for 30 days of 86400000 ms, is
    created by and linked to the upgrade payment, and the Standard
    subscription stays active instead of expired. *)
Theorem downgrade_activated_unchecked :
  Plan.priority Sample.Basic < Plan.priority Sample.Standard
  /\ snd (createOrder Sample.runtime (Sample.t0 + 2000) Scenario.paid
            (Some Scenario.alice)
            (mkCreateOrderBody (Some 1%nat) (Some "upgrade") (Some 1%nat)))
     = OrderCreated "order_RCPT_2" 19900 "INR" 2%nat
  /\ snd (Scenario.verify downgradeOrdered 2%nat "pay_2" (Sample.t0 + 3000))
     = ApiError
         "Cannot downgrade or choose same level plan. Upgrade only to higher plans."
         400
  /\ option_map
       (fun p => (Payment.action p, Payment.status p, Payment.subscription p))
       (findById Payment._id (payments downgradeCaptured) 2%nat)
     = Some (Payment.upgrade, Payment.completed, None)
  /\ snd downgradeActivated
     = Json 201 None None
         (Some (Subscription.mk 2%nat 7%nat 1%nat Subscription.active
                  1710460804000 1713052804000 (Some 2%nat) None None []
                  1710460804000))
         None
  /\ subscriptions (fst downgradeActivated)
     = [Subscription.mk 1%nat 7%nat 2%nat Subscription.active
          1710460801000 1718236801000 (Some 1%nat) None None
          [Subscription.mkBilling 1710460801000 49900 1%nat
             Subscription.success] 1710460801000;
        Subscription.mk 2%nat 7%nat 1%nat Subscription.active
          1710460804000 1713052804000 (Some 2%nat) None None []
          1710460804000]
  /\ option_map
       (fun p => (Payment.action p, Payment.status p, Payment.subscription p,
                  Payment.plan p, Payment.targetSubscription p))
       (findById Payment._id (payments (fst downgradeActivated)) 2%nat)
     = Some (Payment.upgrade, Payment.completed, Some 2%nat, 1%nat,
             Some 1%nat).
Proof. repeat split; vm_compute; reflexivity. Qed.

(** ** The allowDowngrade flag *)

Lemma findById_forgetPlan (l : list Plan.t) (i : ObjectId) :
  findById Plan._id (map forgetPlan l) i
  = option_map forgetPlan (findById Plan._id l i).
Proof.
  unfold findById. induction l as [|a l IH]; [reflexivity|].
  cbn [map find forgetPlan Plan.set_allowDowngrade Plan._id].
  destruct (Nat.eqb (Plan._id a) i); [reflexivity | exact IH].
Qed.

Lemma Payment_save_forget (rt : Runtime) (now : Date) (db : DB)
    (p : Payment.t) :
  Payment_save rt now (forgetDowngrade db) p
  = (forgetDowngrade (fst (Payment_save rt now db p)),
     snd (Payment_save rt now db p)).
Proof. reflexivity. Qed.

Lemma markFailed_forget (rt : Runtime) (now : Date) (db : DB)
    (p : Payment.t) (reason : string) :
  markFailed rt now (forgetDowngrade db) p reason
  = (forgetDowngrade (fst (markFailed rt now db p reason)),
     snd (markFailed rt now db p reason)).
Proof. reflexivity. Qed.

Lemma markCompleted_forget (rt : Runtime) (now : Date) (db : DB)
    (p : Payment.t) (a b : string) (g : option VerifyBody) :
  markCompleted rt now (forgetDowngrade db) p a b g
  = (forgetDowngrade (fst (markCompleted rt now db p a b g)),
     snd (markCompleted rt now db p a b g)).
Proof. reflexivity. Qed.

Lemma Subscription_save_forget (now : Date) (db : DB) (s : Subscription.t) :
  Subscription_save now (forgetDowngrade db) s
  = (forgetDowngrade (fst (Subscription_save now db s)),
     snd (Subscription_save now db s)).
Proof. reflexivity. Qed.

Lemma Subscription_create_forget (now : Date) (db : DB)
    (user plan paymentId : ObjectId) (status : Subscription.status_t)
    (startDate : Date) (endDate : option Date)
    (history : list Subscription.billing) :
  Subscription_create now (forgetDowngrade db) user plan paymentId status
    startDate endDate history
  = (forgetDowngrade
       (fst (Subscription_create now db user plan paymentId status startDate
               endDate history)),
     snd (Subscription_create now db user plan paymentId status startDate
            endDate history)).
Proof.
  unfold Subscription_create.
  cbn [forgetDowngrade set_plans plans subscriptions fst snd].
  rewrite findById_forgetPlan.
  destruct endDate; [reflexivity|].
  destruct (findById Plan._id (plans db) plan); reflexivity.
Qed.

(** Rewrites an operation on a forgetful state into the forgetful image
    of the operation, then names the result of the operation. *)
Ltac forget_ops :=
  repeat first
    [ rewrite markFailed_forget
    | rewrite markCompleted_forget
    | rewrite Payment_save_forget
    | rewrite Subscription_save_forget
    | rewrite Subscription_create_forget
    | progress cbv beta iota
    | progress cbn [fst snd]
    | match goal with
      | |- context [markFailed ?r ?n ?d ?p ?m] =>
          destruct (markFailed r n d p m) as [? ?]
      | |- context [markCompleted ?r ?n ?d ?p ?a ?b ?g] =>
          destruct (markCompleted r n d p a b g) as [? ?]
      | |- context [Subscription_save ?n ?d ?s] =>
          destruct (Subscription_save n d s) as [? ?]
      | |- context [Subscription_create ?n ?d ?u ?pl ?i ?st ?sd ?e ?h] =>
          destruct (Subscription_create n d u pl i st sd e h) as [? ?]
      | |- context [Payment_save ?r ?n ?d ?p] =>
          destruct (Payment_save r n d p) as [? ?]
      end ].

Lemma handleRenew_forget (rt : Runtime) (now : Date) (db : DB)
    (payment : Payment.t) (plan : Plan.t) :
  handleRenew rt now (forgetDowngrade db) payment (forgetPlan plan)
  = (forgetDowngrade (fst (handleRenew rt now db payment plan)),
     forgetResponse (snd (handleRenew rt now db payment plan))).
Proof.
  unfold handleRenew.
  change (subscriptions (forgetDowngrade db)) with (subscriptions db).
  change (plans (forgetDowngrade db)) with (map forgetPlan (plans db)).
  change (countRenewsThisMonth rt now (forgetDowngrade db))
    with (countRenewsThisMonth rt now db).
  change (durationDays (forgetPlan plan)) with (durationDays plan).
  destruct (findByRef Subscription._id (subscriptions db) _) as [sub|].
  2:{ forget_ops. reflexivity. }
  rewrite findById_forgetPlan.
  destruct (findById Plan._id (plans db) (Subscription.plan sub))
    as [planForSub|]; cbn [option_map]; [|reflexivity].
  change (Plan.renewLimit (forgetPlan planForSub))
    with (Plan.renewLimit planForSub).
  match goal with |- context [if ?c then _ else _] => destruct c end.
  - forget_ops. reflexivity.
  - forget_ops. reflexivity.
Qed.

Lemma handleUpgrade_forget (rt : Runtime) (now : Date) (db : DB)
    (payment : Payment.t) (plan : Plan.t) :
  handleUpgrade rt now (forgetDowngrade db) payment (forgetPlan plan)
  = (forgetDowngrade (fst (handleUpgrade rt now db payment plan)),
     forgetResponse (snd (handleUpgrade rt now db payment plan))).
Proof.
  unfold handleUpgrade.
  change (subscriptions (forgetDowngrade db)) with (subscriptions db).
  change (plans (forgetDowngrade db)) with (map forgetPlan (plans db)).
  change (durationDays (forgetPlan plan)) with (durationDays plan).
  change (Plan.priority (forgetPlan plan)) with (Plan.priority plan).
  destruct (Payment.targetSubscription payment) as [target|].
  2:{ forget_ops. reflexivity. }
  destruct (findById Subscription._id (subscriptions db) target)
    as [oldSub|].
  2:{ forget_ops. reflexivity. }
  rewrite findById_forgetPlan.
  destruct (findById Plan._id (plans db) (Subscription.plan oldSub))
    as [oldPlan|]; cbn [option_map].
  2:{ forget_ops. reflexivity. }
  change (Plan.priority (forgetPlan oldPlan)) with (Plan.priority oldPlan).
  destruct (Plan.priority plan <=? Plan.priority oldPlan);
    forget_ops; reflexivity.
Qed.

Lemma handlePurchase_forget (rt : Runtime) (now : Date) (db : DB)
    (payment : Payment.t) (plan : Plan.t) (ex : option Subscription.t) :
  handlePurchase rt now (forgetDowngrade db) payment (forgetPlan plan) ex
  = (forgetDowngrade (fst (handlePurchase rt now db payment plan ex)),
     forgetResponse (snd (handlePurchase rt now db payment plan ex))).
Proof.
  unfold handlePurchase.
  change (durationDays (forgetPlan plan)) with (durationDays plan).
  change (Plan._id (forgetPlan plan)) with (Plan._id plan).
  match goal with |- context [if ?c then _ else _] => destruct c end;
    forget_ops; reflexivity.
Qed.

Lemma populatePlan_forget (db : DB) (s : option Subscription.t) :
  populatePlan (forgetDowngrade db) s
  = option_map forgetPlan (populatePlan db s).
Proof.
  destruct s as [sub|]; [|reflexivity]. unfold populatePlan.
  change (plans (forgetDowngrade db)) with (map forgetPlan (plans db)).
  apply findById_forgetPlan.
Qed.

Lemma reconcile_forget (rt : Runtime) (now : Date) (db : DB)
    (p : Payment.t) (body : VerifyBody) :
  reconcile rt now (forgetDowngrade db) p body
  = (forgetDowngrade (fst (reconcile rt now db p body)),
     forgetResponse (snd (reconcile rt now db p body))).
Proof.
  destruct (linked_or_unreconciled p) as [[sid Hl]|Hu].
  - rewrite !(reconcile_replay _ _ _ _ _ sid Hl).
    cbn [fst snd forgetResponse]. now rewrite populatePlan_forget.
  - rewrite !(reconcile_completing _ _ _ _ _ Hu). cbv zeta.
    rewrite markCompleted_forget. cbn [fst snd].
    destruct (markCompleted rt now db p _ _ _) as [db1 p1]. cbn [fst snd].
    change (plans (forgetDowngrade db1)) with (map forgetPlan (plans db1)).
    rewrite findById_forgetPlan.
    destruct (findById Plan._id (plans db1) (Payment.plan p1)) as [plan|];
      cbn [option_map]; [|reflexivity].
    destruct (Payment.action p1).
    + apply handlePurchase_forget.
    + apply handleRenew_forget.
    + apply handleUpgrade_forget.
Qed.

Lemma verifyPayment_forget (rt : Runtime) (now : Date) (db : DB)
    (body : VerifyBody) :
  verifyPayment rt now (forgetDowngrade db) body
  = (forgetDowngrade (fst (verifyPayment rt now db body)),
     forgetResponse (snd (verifyPayment rt now db body))).
Proof.
  unfold verifyPayment.
  change (payments (forgetDowngrade db)) with (payments db).
  destruct (vb_paymentId body) as [pid|]; [|reflexivity].
  destruct (missingFields body); [reflexivity|].
  destruct (findById Payment._id (payments db) pid) as [p|]; [|reflexivity].
  destruct (orderIdMismatch p body); [reflexivity|].
  destruct (verifyRazorpaySignature rt _ _ _) as [[|]|].
  - apply reconcile_forget.
  - forget_ops. reflexivity.
  - forget_ops. reflexivity.
Qed.

Lemma placeOrder_forget (rt : Runtime) (now : Date) (db : DB)
    (user : ObjectId) (plan : Plan.t) (action : Payment.action_t)
    (target : option ObjectId) :
  placeOrder rt now (forgetDowngrade db) user (forgetPlan plan) action target
  = (forgetDowngrade (fst (placeOrder rt now db user plan action target)),
     snd (placeOrder rt now db user plan action target)).
Proof.
  unfold placeOrder, Payment_create.
  change (payments (forgetDowngrade db)) with (payments db).
  change (Plan._id (forgetPlan plan)) with (Plan._id plan).
  change (Plan.amount (forgetPlan plan)) with (Plan.amount plan).
  cbv beta iota zeta.
  match goal with
  | |- context [set_payments ?l (forgetDowngrade db)] =>
      change (set_payments l (forgetDowngrade db))
        with (forgetDowngrade (set_payments l db))
  end.
  destruct (orders_create rt _ _) as [err|order];
    [destruct (fitsFailureReason _)|]; forget_ops; reflexivity.
Qed.

Lemma createOrder_forget (rt : Runtime) (now : Date) (db : DB)
    (user : option ObjectId) (body : CreateOrderBody) :
  createOrder rt now (forgetDowngrade db) user body
  = (forgetDowngrade (fst (createOrder rt now db user body)),
     snd (createOrder rt now db user body)).
Proof.
  unfold createOrder.
  change (subscriptions (forgetDowngrade db)) with (subscriptions db).
  change (plans (forgetDowngrade db)) with (map forgetPlan (plans db)).
  change (findActiveByUser (forgetDowngrade db)) with (findActiveByUser db).
  destruct user as [uid|]; [|reflexivity].
  destruct (parseAction _) as [action|]; [|reflexivity].
  destruct (co_planId body) as [planId|]; [|reflexivity].
  rewrite findById_forgetPlan.
  destruct (findById Plan._id (plans db) planId) as [plan|];
    cbn [option_map]; [|reflexivity].
  change (Plan._id (forgetPlan plan)) with (Plan._id plan).
  change (Plan.amount (forgetPlan plan)) with (Plan.amount plan).
  destruct (negb (0 <? Plan.amount plan)); [reflexivity|].
  destruct action.
  - match goal with |- context [if ?c then _ else _] => destruct c end;
      [reflexivity | apply placeOrder_forget].
  - destruct (co_subscriptionId body) as [sid|]; [|reflexivity].
    destruct (findById Subscription._id (subscriptions db) sid) as [t|];
      [|reflexivity].
    destruct (negb (Nat.eqb (Subscription.user t) uid)); [reflexivity|].
    match goal with |- context [if ?c then _ else _] => destruct c end;
      [reflexivity | apply placeOrder_forget].
  - destruct (co_subscriptionId body) as [sid|]; [|reflexivity].
    destruct (findById Subscription._id (subscriptions db) sid) as [t|];
      [|reflexivity].
    destruct (negb (Nat.eqb (Subscription.user t) uid)); [reflexivity|].
    match goal with |- context [if ?c then _ else _] => destruct c end;
      [reflexivity | apply placeOrder_forget].
Qed.

Lemma activate_forget (rt : Runtime) (now : Date) (db : DB)
    (user : ObjectId) (body : ActivateBody) :
  activate rt now (forgetDowngrade db) user body
  = (forgetDowngrade (fst (activate rt now db user body)),
     forgetResponse (snd (activate rt now db user body))).
Proof.
  unfold activate.
  change (payments (forgetDowngrade db)) with (payments db).
  change (subscriptions (forgetDowngrade db)) with (subscriptions db).
  change (plans (forgetDowngrade db)) with (map forgetPlan (plans db)).
  destruct (ab_paymentId body) as [pid|]; [|reflexivity].
  destruct (ab_planId body) as [planId|]; [|reflexivity].
  destruct (findById Payment._id (payments db) pid) as [p|]; [|reflexivity].
  match goal with |- context [if ?c then _ else _] => destruct c end;
    [reflexivity|].
  rewrite findById_forgetPlan.
  destruct (findById Plan._id (plans db) planId) as [plan|];
    cbn [option_map]; [|reflexivity].
  change (Plan._id (forgetPlan plan)) with (Plan._id plan).
  match goal with |- context [if ?c then _ else _] => destruct c end;
    [reflexivity|].
  destruct (Payment.subscription p) as [sid|].
  - cbn [fst snd forgetResponse]. now rewrite populatePlan_forget.
  - forget_ops. reflexivity.
Qed.

Lemma razorpayWebhook_forget (rt : Runtime) (now : Date) (db : DB)
    (req : WebhookRequest) :
  razorpayWebhook rt now (forgetDowngrade db) req
  = (forgetDowngrade (fst (razorpayWebhook rt now db req)),
     snd (razorpayWebhook rt now db req)).
Proof.
  unfold razorpayWebhook.
  change (findByRazorpayOrderId (forgetDowngrade db))
    with (findByRazorpayOrderId db).
  destruct (verifyRazorpayWebhookSignature rt _ _) as [[|]|];
    try reflexivity.
  destruct (JSON_parse rt (rawBody req)) as [payload|];
    [|destruct (parsesToNull (rawBody req)); reflexivity].
  destruct (eventOfInterest (event payload)); [|reflexivity].
  destruct (entity payload) as [pe|]; [|reflexivity].
  destruct (findByRazorpayOrderId db (order_id pe)) as [p|]; reflexivity.
Qed.

Lemma expireOldSubscriptions_forget (now : Date) (db : DB) :
  expireOldSubscriptions now (forgetDowngrade db)
  = forgetDowngrade (expireOldSubscriptions now db).
Proof. reflexivity. Qed.

Lemma decision_forgetResponse (r : Response) :
  decision (forgetResponse r) = decision r.
Proof. destruct r; reflexivity. Qed.

(** Two runs of one operation that commutes with forgetting the flag. *)
Lemma two_runs {R : Type} (f : DB -> DB * R) (g : R -> R) (db1 db2 : DB) :
  (forall db, f (forgetDowngrade db)
              = (forgetDowngrade (fst (f db)), g (snd (f db)))) ->
  forgetDowngrade db1 = forgetDowngrade db2 ->
  forgetDowngrade (fst (f db1)) = forgetDowngrade (fst (f db2))
  /\ g (snd (f db1)) = g (snd (f db2))
  /\ payments (fst (f db1)) = payments (fst (f db2))
  /\ subscriptions (fst (f db1)) = subscriptions (fst (f db2)).
Proof.
  intros Hc He.
  pose proof (Hc db1) as H1. pose proof (Hc db2) as H2.
  rewrite He, H2 in H1.
  assert (Hd : forgetDowngrade (fst (f db1)) = forgetDowngrade (fst (f db2)))
    by (apply (f_equal fst) in H1; symmetry; exact H1).
  assert (Hr : g (snd (f db1)) = g (snd (f db2)))
    by (apply (f_equal snd) in H1; symmetry; exact H1).
  split; [exact Hd|]. split; [exact Hr|].
  split.
  - change (payments (forgetDowngrade (fst (f db1)))
            = payments (forgetDowngrade (fst (f db2)))). now rewrite Hd.
  - change (subscriptions (forgetDowngrade (fst (f db1)))
            = subscriptions (forgetDowngrade (fst (f db2)))). now rewrite Hd.
Qed.

(** C10.  Run any operation on two states that are identical except for
    the [allowDowngrade] values of their plans: the resulting states are
    again identical except for those values (payments and subscriptions
    are equal outright), and the responses are equal, a plan document
    echoed by [populate('plan')] being compared up to the flag; the
    refuse-or-succeed decision (error or not, status code, message) is
    the same. *)
Theorem allowDowngrade_noninterference (rt : Runtime) (now : Date)
    (db1 db2 : DB) :
  forgetDowngrade db1 = forgetDowngrade db2 ->
  (forall body,
      let r1 := verifyPayment rt now db1 body in
      let r2 := verifyPayment rt now db2 body in
      forgetDowngrade (fst r1) = forgetDowngrade (fst r2)
      /\ forgetResponse (snd r1) = forgetResponse (snd r2)
      /\ decision (snd r1) = decision (snd r2)
      /\ payments (fst r1) = payments (fst r2)
      /\ subscriptions (fst r1) = subscriptions (fst r2))
  /\ (forall user body,
         let r1 := createOrder rt now db1 user body in
         let r2 := createOrder rt now db2 user body in
         forgetDowngrade (fst r1) = forgetDowngrade (fst r2)
         /\ snd r1 = snd r2
         /\ payments (fst r1) = payments (fst r2)
         /\ subscriptions (fst r1) = subscriptions (fst r2))
  /\ (forall user body,
         let r1 := activate rt now db1 user body in
         let r2 := activate rt now db2 user body in
         forgetDowngrade (fst r1) = forgetDowngrade (fst r2)
         /\ forgetResponse (snd r1) = forgetResponse (snd r2)
         /\ decision (snd r1) = decision (snd r2)
         /\ payments (fst r1) = payments (fst r2)
         /\ subscriptions (fst r1) = subscriptions (fst r2))
  /\ (forall req,
         let r1 := razorpayWebhook rt now db1 req in
         let r2 := razorpayWebhook rt now db2 req in
         forgetDowngrade (fst r1) = forgetDowngrade (fst r2)
         /\ snd r1 = snd r2
         /\ payments (fst r1) = payments (fst r2)
         /\ subscriptions (fst r1) = subscriptions (fst r2))
  /\ forgetDowngrade (expireOldSubscriptions now db1)
     = forgetDowngrade (expireOldSubscriptions now db2)
  /\ subscriptions (expireOldSubscriptions now db1)
     = subscriptions (expireOldSubscriptions now db2).
Proof.
  intros He. split; [|split; [|split; [|split; [|split]]]].
  - intros body r1 r2. subst r1 r2.
    destruct (two_runs (fun db => verifyPayment rt now db body)
                forgetResponse db1 db2
                (fun db => verifyPayment_forget rt now db body) He)
      as (Hd & Hr & Hp & Hs).
    repeat split; try assumption.
    rewrite <- (decision_forgetResponse (snd (verifyPayment rt now db1 body))).
    rewrite <- (decision_forgetResponse (snd (verifyPayment rt now db2 body))).
    now f_equal.
  - intros user body r1 r2. subst r1 r2.
    apply (two_runs (fun db => createOrder rt now db user body)
             (fun r => r) db1 db2
             (fun db => createOrder_forget rt now db user body) He).
  - intros user body r1 r2. subst r1 r2.
    destruct (two_runs (fun db => activate rt now db user body)
                forgetResponse db1 db2
                (fun db => activate_forget rt now db user body) He)
      as (Hd & Hr & Hp & Hs).
    repeat split; try assumption.
    rewrite <- (decision_forgetResponse (snd (activate rt now db1 user body))).
    rewrite <- (decision_forgetResponse (snd (activate rt now db2 user body))).
    now f_equal.
  - intros req r1 r2. subst r1 r2.
    apply (two_runs (fun db => razorpayWebhook rt now db req)
             (fun r => r) db1 db2
             (fun db => razorpayWebhook_forget rt now db req) He).
  - rewrite <- !expireOldSubscriptions_forget. now rewrite He.
  - change (subscriptions (expireOldSubscriptions now (forgetDowngrade db1))
            = subscriptions (expireOldSubscriptions now (forgetDowngrade db2))).
    now rewrite He.
Qed.

Lemma allowDowngrade_noninterference_witness :
  plans upgradeOrdered <> plans (flipDowngrade upgradeOrdered)
  /\ decision (snd (verifyPayment Sample.runtime (Sample.t0 + 3000)
                      upgradeOrdered
                      (Sample.verifyBodyFor upgradeOrdered 2%nat "pay_2")))
     = decision (snd (verifyPayment Sample.runtime (Sample.t0 + 3000)
                        (flipDowngrade upgradeOrdered)
                        (Sample.verifyBodyFor upgradeOrdered 2%nat "pay_2"))).
Proof.
  split; [vm_compute; discriminate|].
  destruct (allowDowngrade_noninterference Sample.runtime
              (Sample.t0 + 3000) upgradeOrdered (flipDowngrade upgradeOrdered)
              ltac:(vm_compute; reflexivity)) as [H _].
  apply (H (Sample.verifyBodyFor upgradeOrdered 2%nat "pay_2")).
Defined.

(** * Further properties of the code *)

(** ** Signature verification *)

Lemma timingSafeEqual_eq (a b : list nat) :
  List.length a = List.length b ->
  timingSafeEqual a b = true <-> a = b.
Proof.
  unfold timingSafeEqual. revert b.
  induction a as [|x a IH]; intros [|y b] Hl; simpl in Hl; try discriminate.
  - simpl. split; reflexivity.
  - injection Hl as Hl. cbn [combine forallb fst snd].
    rewrite andb_true_iff, Nat.eqb_eq, (IH b Hl).
    split; [intros [-> ->]; reflexivity | intros H; injection H; auto].
Qed.

Lemma compareHex_true (rt : Runtime) (expected given : string) :
  compareHex rt expected given = true
  <-> buffer_from_hex rt expected = buffer_from_hex rt (trim rt given).
Proof.
  unfold compareHex.
  destruct (Nat.eqb (List.length (buffer_from_hex rt expected))
              (List.length (buffer_from_hex rt (trim rt given)))) eqn:E;
    cbn [negb].
  - apply Nat.eqb_eq in E. now apply timingSafeEqual_eq.
  - apply Nat.eqb_neq in E. split; [discriminate|].
    intros H. rewrite H in E. now elim E.
Qed.

(** X1.  [verifyRazorpaySignature] answers true exactly when the three
    inputs are non-empty, the key secret is set and non-empty, and the
    bytes decoded from the trimmed signature are the bytes decoded from
    the HMAC of [orderId|paymentId] under that secret. *)
Theorem verifyRazorpaySignature_true_iff (rt : Runtime)
    (orderId paymentId signature : string) :
  verifyRazorpaySignature rt orderId paymentId signature = Some true
  <-> truthy orderId = true /\ truthy paymentId = true
      /\ truthy signature = true
      /\ exists secret,
           RAZORPAY_KEY_SECRET rt = Some secret
           /\ truthy secret = true
           /\ buffer_from_hex rt
                (hmac_sha256_hex rt secret
                   (orderId ++ "|" ++ paymentId)%string)
              = buffer_from_hex rt (trim rt signature).
Proof.
  unfold verifyRazorpaySignature, computeRazorpaySignature.
  destruct (truthy orderId), (truthy paymentId), (truthy signature);
    cbn [negb orb];
    try (split; [discriminate | intros (A & B & C & _); discriminate]).
  destruct (RAZORPAY_KEY_SECRET rt) as [secret|].
  - destruct (truthy secret) eqn:Es; cbn [negb].
    + split.
      * intros H. injection H as H. apply compareHex_true in H.
        repeat split. exists secret. auto.
      * intros (_ & _ & _ & s' & Hs & _ & Hb). injection Hs as <-.
        f_equal. now apply compareHex_true.
    + split; [discriminate|].
      intros (_ & _ & _ & s' & Hs & Ht & _). injection Hs as <-. congruence.
  - split; [discriminate|]. intros (_ & _ & _ & s' & Hs & _). discriminate.
Qed.

(** X2.  The two verifiers disagree on which check comes first.
    [verifyRazorpaySignature] throws exactly when its three inputs are
    non-empty and the key secret is missing or empty: an empty input is
    answered with false even when no secret is configured.
    [verifyRazorpayWebhookSignature] throws exactly when the webhook
    secret is missing or empty, whatever the body and the header. *)
Theorem verifiers_throw_iff (rt : Runtime) :
  (forall orderId paymentId signature,
      verifyRazorpaySignature rt orderId paymentId signature = None
      <-> truthy orderId = true /\ truthy paymentId = true
          /\ truthy signature = true
          /\ truthy_opt (RAZORPAY_KEY_SECRET rt) = false)
  /\ (forall body header,
         verifyRazorpayWebhookSignature rt body header = None
         <-> truthy_opt (RAZORPAY_WEBHOOK_SECRET rt) = false).
Proof.
  split.
  - intros o p s. unfold verifyRazorpaySignature, computeRazorpaySignature.
    destruct (truthy o), (truthy p), (truthy s); cbn [negb orb];
      try (split; [discriminate | intros (A & B & C & _); discriminate]).
    destruct (RAZORPAY_KEY_SECRET rt) as [secret|]; cbn [truthy_opt].
    + destruct (truthy secret); cbn [negb];
        [split; [discriminate | intros (_ & _ & _ & H); discriminate]
        | split; auto].
    + split; auto.
  - intros body header. unfold verifyRazorpayWebhookSignature.
    destruct (RAZORPAY_WEBHOOK_SECRET rt) as [secret|]; cbn [truthy_opt];
      [|split; auto].
    destruct (truthy secret); cbn [negb]; [|split; auto].
    destruct (negb (truthy header)); split; discriminate.
Qed.

(** ** The expiry sweep, composed *)

Lemma find_map_fixed {A : Type} (q : A -> bool) (f : A -> A) (l : list A) :
  (forall x, q (f x) = q x) ->
  (forall x, q x = true -> f x = x) ->
  find q (map f l) = find q l.
Proof.
  intros Hq Hf. induction l as [|a l IH]; [reflexivity|].
  cbn [map find]. rewrite Hq.
  destruct (q a) eqn:E; [now rewrite (Hf a E) | exact IH].
Qed.

Lemma status_eqb_active (s : Subscription.t) :
  Subscription.status_eqb (Subscription.status s) Subscription.active = true
  <-> Subscription.status s = Subscription.active.
Proof. destruct (Subscription.status s); cbn; split; congruence. Qed.

(** X3.  After the sweep run at [now], every subscription whose status is
    active ends at [now] or later: what the sweep leaves active is
    currently active in the sense of [isCurrentlyActive]. *)
Theorem sweep_leaves_only_current (now : Date) (db : DB)
    (s : Subscription.t) :
  In s (subscriptions (expireOldSubscriptions now db)) ->
  Subscription.status s = Subscription.active ->
  now <= Subscription.endDate s /\ isCurrentlyActive now s = true.
Proof.
  unfold expireOldSubscriptions. cbn [subscriptions set_subscriptions].
  intros Hin Hs. apply in_map_iff in Hin. destruct Hin as (s0 & He & _).
  assert (Hle : now <= Subscription.endDate s).
  { destruct (Subscription.status_eqb (Subscription.status s0)
                Subscription.active) eqn:Ea; cbn [andb] in He.
    - destruct (Subscription.endDate s0 <? now) eqn:El.
      + subst s. discriminate Hs.
      + subst s. apply Z.ltb_ge in El. exact El.
    - subst s. apply status_eqb_active in Hs. congruence. }
  split; [exact Hle|]. unfold isCurrentlyActive.
  apply andb_true_iff. split; [now apply status_eqb_active|].
  now apply Z.leb_le.
Qed.

Lemma sweep_leaves_only_current_witness :
  Forall (fun s => Subscription.status s = Subscription.active ->
                   Sample.t0 + 2000 <= Subscription.endDate s)
         (subscriptions
            (expireOldSubscriptions (Sample.t0 + 2000) Scenario.paid))
  /\ List.length
       (subscriptions
          (expireOldSubscriptions (Sample.t0 + 2000) Scenario.paid)) = 1%nat.
Proof.
  split; [|reflexivity]. apply Forall_forall. intros s Hin Hs.
  apply (sweep_leaves_only_current (Sample.t0 + 2000) Scenario.paid s Hin Hs).
Defined.

(** X4.  Sweeps compose: a sweep at [t2] after a sweep at [t1] is the
    sweep at the later of the two times, in either order; a sweep run
    twice at one time is the sweep run once. *)
Theorem sweeps_compose (t1 t2 : Date) (db : DB) :
  expireOldSubscriptions t2 (expireOldSubscriptions t1 db)
  = expireOldSubscriptions (Z.max t1 t2) db.
Proof.
  unfold expireOldSubscriptions.
  cbn [subscriptions set_subscriptions plans payments].
  unfold set_subscriptions. cbn [plans payments]. f_equal.
  rewrite map_map. apply map_ext. intros s.
  destruct (Subscription.status s) eqn:Es;
    cbn [Subscription.status_eqb andb Subscription.status
         Subscription.set_status]; rewrite ?Es;
    cbn [Subscription.status_eqb andb]; try reflexivity.
  destruct (Subscription.endDate s <? t1) eqn:E1;
    destruct (Subscription.endDate s <? t2) eqn:E2;
    destruct (Subscription.endDate s <? Z.max t1 t2) eqn:E3;
    cbn [Subscription.status Subscription.set_status Subscription.endDate
         Subscription.status_eqb andb];
    rewrite ?Es; cbn [Subscription.status_eqb andb]; rewrite ?E2;
    try reflexivity;
    rewrite ?Z.ltb_lt, ?Z.ltb_ge in *; lia.
Qed.

(** X5.  The sweep that login and getMe run before they read the active
    subscription does not change the answer: for a sweep at [t <= now],
    [findActiveByUser] at [now] finds the same subscription after the
    sweep as before it. *)
Theorem sweep_keeps_active_lookup (t now : Date) (db : DB)
    (user : ObjectId) :
  t <= now ->
  findActiveByUser (expireOldSubscriptions t db) user now
  = findActiveByUser db user now.
Proof.
  intros Ht. unfold findActiveByUser, expireOldSubscriptions.
  cbn [subscriptions set_subscriptions].
  apply find_map_fixed.
  - intros s.
    destruct (Subscription.status_eqb (Subscription.status s)
                Subscription.active) eqn:Ea; cbn [andb]; [|reflexivity].
    destruct (Subscription.endDate s <? t) eqn:El; [|reflexivity].
    apply Z.ltb_lt in El. unfold activeQuery.
    cbn [Subscription.user Subscription.status Subscription.endDate
         Subscription.set_status Subscription.status_eqb].
    assert (Hn : (now <? Subscription.endDate s) = false)
      by (apply Z.ltb_ge; lia).
    now rewrite Hn, !andb_false_r.
  - intros s. unfold activeQuery. rewrite !andb_true_iff.
    intros [[_ Ha] Hn]. rewrite Ha. cbn [andb].
    apply Z.ltb_lt in Hn.
    assert (Hl : (Subscription.endDate s <? t) = false)
      by (apply Z.ltb_ge; lia).
    now rewrite Hl.
Qed.

Lemma sweep_keeps_active_lookup_witness :
  snd (getMe_activeSubscription (Sample.t0 + 2000) Scenario.paid
         Scenario.alice)
  = findActiveByUser Scenario.paid Scenario.alice (Sample.t0 + 2000).
Proof.
  unfold getMe_activeSubscription. cbn [snd].
  apply (sweep_keeps_active_lookup (Sample.t0 + 2000) (Sample.t0 + 2000)
           Scenario.paid Scenario.alice).
  apply Z.le_refl.
Defined.

(** ** Order creation *)

Lemma replaceById_app_fresh {A : Type} (key : A -> ObjectId) (l : list A)
    (x z : A) :
  key x = freshId key l -> key z = freshId key l ->
  replaceById key x (l ++ [z]) = (l ++ [x])%list.
Proof.
  intros Hx Hz. unfold replaceById. rewrite map_app. cbn [map].
  rewrite Hz, Hx, Nat.eqb_refl. f_equal.
  rewrite <- (map_id l) at 2. apply map_ext_in. intros a Ha.
  pose proof (freshId_above key l a Ha) as Hlt.
  destruct (Nat.eqb (key a) (freshId key l)) eqn:E; [|reflexivity].
  apply Nat.eqb_eq in E. lia.
Qed.

Lemma Payment_pre_save_not_completed (rt : Runtime) (now : Date) (m : bool)
    (q : Payment.t) :
  Payment.status q <> Payment.completed ->
  Payment_pre_save rt now false m q = q.
Proof.
  intros H. unfold Payment_pre_save. cbn [andb].
  destruct (Payment.status q); try congruence;
    cbn [Payment.status_eqb andb]; rewrite ?andb_false_r; reflexivity.
Qed.

Lemma Payment_create_eq (rt : Runtime) (now : Date) (db : DB)
    (user : ObjectId) (plan : Plan.t) (action : Payment.action_t)
    (target : option ObjectId) :
  Payment_create rt now db user (Plan._id plan) (Plan.amount plan) action
    target
  = (set_payments
       (payments db ++ [pendingPayment rt now db user plan action target])
       db,
     pendingPayment rt now db user plan action target).
Proof. reflexivity. Qed.

(** Saving the document that was just appended under a fresh id. *)
Lemma Payment_save_appended (rt : Runtime) (now : Date) (db : DB)
    (p q : Payment.t) :
  Payment._id p = freshId Payment._id (payments db) ->
  Payment._id q = Payment._id p ->
  Payment.status q <> Payment.completed ->
  Payment_save rt now (set_payments (payments db ++ [p]) db) q
  = (set_payments (payments db ++ [q]) db, q).
Proof.
  intros Hp Hq Hs. unfold Payment_save.
  rewrite (Payment_pre_save_not_completed rt now _ q Hs).
  cbn [payments set_payments].
  rewrite replaceById_app_fresh by congruence. reflexivity.
Qed.

(** The two outcomes of the tail of [createOrder]. *)
Lemma placeOrder_cases (rt : Runtime) (now : Date) (db : DB)
    (user : ObjectId) (plan : Plan.t) (action : Payment.action_t)
    (target : option ObjectId) :
  let p := pendingPayment rt now db user plan action target in
  placeOrder rt now db user plan action target
  = match orders_create rt (Plan.amount plan)
            (receipt_token rt now (Payment._id p)) with
    | inl err =>
        (set_payments
           (payments db
              ++ [if fitsFailureReason
                       ("Razorpay order creation failed: " ++ err)
                  then
                    Payment.set_failureReason
                      (Some ("Razorpay order creation failed: " ++ err)%string)
                      (Payment.set_status Payment.failed p)
                  else p]) db,
         OrderError "Failed to create Razorpay order" 502)
    | inr order =>
        (set_payments
           (payments db
              ++ [Payment.set_razorpayOrderId (Some (order_ident order)) p])
           db,
         OrderCreated (order_ident order) (order_amount order)
           (order_currency order) (Payment._id p))
    end.
Proof.
  cbv zeta. unfold placeOrder. rewrite Payment_create_eq.
  set (p := pendingPayment rt now db user plan action target).
  change (Payment.receipt p)
    with (Some (receipt_token rt now (Payment._id p))).
  cbv beta iota.
  destruct (orders_create rt (Plan.amount plan) _) as [err|order].
  - cbv zeta. destruct (fitsFailureReason _); [|reflexivity].
    unfold markFailed.
    rewrite Payment_save_appended; [|reflexivity|reflexivity|discriminate].
    assert (Ht : truthy ("Razorpay order creation failed: " ++ err)%string
                 = true) by reflexivity.
    rewrite Ht. reflexivity.
  - rewrite Payment_save_appended; [|reflexivity|reflexivity|discriminate].
    reflexivity.
Qed.

(** [createOrder] is its validation followed by [placeOrder]. *)
Lemma createOrder_unfold (rt : Runtime) (now : Date) (db : DB)
    (reqUser : option ObjectId) (body : CreateOrderBody) :
  createOrder rt now db reqUser body
  = match reqUser with
    | None => (db, OrderError "Not authenticated" 401)
    | Some uid =>
        match requestedAction body with
        | None => (db, OrderError "Invalid action" 400)
        | Some action =>
            match co_planId body with
            | None => (db, OrderError "planId is required" 400)
            | Some planId =>
                match findById Plan._id (plans db) planId with
                | None => (db, OrderError "Invalid planId" 400)
                | Some plan =>
                    if negb (0 <? Plan.amount plan)
                    then (db, OrderError
                                "Server misconfiguration: plan amount invalid"
                                500)
                    else
                      match admitTarget now db uid plan action body with
                      | inl e => (db, e)
                      | inr target =>
                          placeOrder rt now db uid plan action target
                      end
                end
            end
        end
    end.
Proof.
  unfold createOrder, requestedAction, admitTarget.
  destruct reqUser as [uid|]; [|reflexivity].
  destruct (parseAction _) as [action|]; [|reflexivity].
  destruct (co_planId body) as [planId|]; [|reflexivity].
  destruct (findById Plan._id (plans db) planId) as [plan|]; [|reflexivity].
  destruct (negb (0 <? Plan.amount plan)); [reflexivity|].
  destruct action.
  - destruct (findActiveByUser db uid now) as [ex|]; [|reflexivity].
    destruct (Nat.eqb (Subscription.plan ex) (Plan._id plan)); reflexivity.
  - destruct (co_subscriptionId body) as [sid|]; [|reflexivity].
    destruct (findById Subscription._id (subscriptions db) sid) as [t|];
      [|reflexivity].
    destruct (negb (Nat.eqb (Subscription.user t) uid)); [reflexivity|].
    reflexivity.
  - destruct (co_subscriptionId body) as [sid|]; [|reflexivity].
    destruct (findById Subscription._id (subscriptions db) sid) as [t|];
      [|reflexivity].
    destruct (negb (Nat.eqb (Subscription.user t) uid)); [reflexivity|].
    destruct (Payment.action_eqb Payment.upgrade Payment.upgrade
              && Nat.eqb (Subscription.plan t) (Plan._id plan));
      reflexivity.
Qed.

Lemma admitTarget_error_code (now : Date) (db : DB) (uid : ObjectId)
    (plan : Plan.t) (action : Payment.action_t) (body : CreateOrderBody)
    (e : OrderResponse) :
  admitTarget now db uid plan action body = inl e ->
  exists m c, e = OrderError m c /\ c <> 502%nat.
Proof.
  unfold admitTarget. intros H.
  destruct action;
    repeat match type of H with
           | match ?x with _ => _ end = _ => destruct x
           | (if ?c then _ else _) = _ => destruct c
           end;
    try discriminate; injection H as <-; eexists _, _;
    (split; [reflexivity | discriminate]).
Qed.

(** What a created order has stored. *)
Lemma createOrder_created_inv (rt : Runtime) (now : Date) (db db' : DB)
    (reqUser : option ObjectId) (body : CreateOrderBody) (oid : string)
    (amt : Z) (cur : string) (pid : ObjectId) :
  createOrder rt now db reqUser body = (db', OrderCreated oid amt cur pid) ->
  exists uid action planId plan target order,
    reqUser = Some uid
    /\ requestedAction body = Some action
    /\ co_planId body = Some planId
    /\ findById Plan._id (plans db) planId = Some plan
    /\ 0 < Plan.amount plan
    /\ admitTarget now db uid plan action body = inr target
    /\ orders_create rt (Plan.amount plan) (receipt_token rt now pid)
       = inr order
    /\ oid = order_ident order /\ amt = order_amount order
    /\ cur = order_currency order
    /\ pid = freshId Payment._id (payments db)
    /\ db' = set_payments
               (payments db
                  ++ [Payment.set_razorpayOrderId (Some oid)
                        (pendingPayment rt now db uid plan action target)])
               db.
Proof.
  rewrite createOrder_unfold. intros H.
  destruct reqUser as [uid|]; [|discriminate].
  destruct (requestedAction body) as [action|]; [|discriminate].
  destruct (co_planId body) as [planId|]; [|discriminate].
  destruct (findById Plan._id (plans db) planId) as [plan|] eqn:Ep;
    [|discriminate].
  destruct (0 <? Plan.amount plan) eqn:Ea; cbn [negb] in H; [|discriminate].
  apply Z.ltb_lt in Ea.
  destruct (admitTarget now db uid plan action body) as [e|target] eqn:Et.
  { destruct (admitTarget_error_code _ _ _ _ _ _ _ Et) as (m & c & -> & _).
    discriminate. }
  rewrite placeOrder_cases in H. cbv zeta in H.
  cbn [Payment._id pendingPayment] in H.
  destruct (orders_create rt (Plan.amount plan) _) as [err|order] eqn:Eo;
    [discriminate|].
  injection H as <- <- <- <- <-.
  exists uid, action, planId, plan, target, order.
  repeat (split; [first [reflexivity | assumption]|]). reflexivity.
Qed.

(** X6.  An order that is created stores exactly one new payment: owned
    by the caller, for the requested plan and action, pending, unlinked,
    carrying the gateway's order id, and charged the plan's own amount,
    which is positive; the caller supplies no amount.  Subscriptions and
    plans are not touched. *)
Theorem createOrder_stores_plan_amount (rt : Runtime) (now : Date)
    (db db' : DB) (reqUser : option ObjectId) (body : CreateOrderBody)
    (oid : string) (amt : Z) (cur : string) (pid : ObjectId) :
  createOrder rt now db reqUser body = (db', OrderCreated oid amt cur pid) ->
  exists uid planId plan p,
    reqUser = Some uid
    /\ co_planId body = Some planId
    /\ findById Plan._id (plans db) planId = Some plan
    /\ payments db' = (payments db ++ [p])%list
    /\ findById Payment._id (payments db) pid = None
    /\ Payment._id p = pid
    /\ Payment.user p = uid
    /\ Payment.plan p = planId
    /\ Payment.amount p = Plan.amount plan
    /\ 0 < Payment.amount p
    /\ requestedAction body = Some (Payment.action p)
    /\ Payment.status p = Payment.pending
    /\ Payment.subscription p = None
    /\ Payment.razorpayOrderId p = Some oid
    /\ Payment.createdAt p = now
    /\ subscriptions db' = subscriptions db
    /\ plans db' = plans db.
Proof.
  intros H.
  destruct (createOrder_created_inv _ _ _ _ _ _ _ _ _ _ H)
    as (uid & action & planId & plan & target & order & Hu & Ha & Hp & Hf
        & Hpos & _ & _ & _ & _ & _ & Hpid & Hdb).
  exists uid, planId, plan,
    (Payment.set_razorpayOrderId (Some oid)
       (pendingPayment rt now db uid plan action target)).
  rewrite Hdb, Hpid. cbn.
  rewrite (findById_key _ _ _ _ Hf).
  repeat (split; [first [reflexivity | assumption
                        | apply findById_fresh]|]).
  reflexivity.
Qed.

Lemma createOrder_stores_plan_amount_witness :
  option_map Payment.amount
    (findById Payment._id (payments Scenario.ordered) 1%nat)
  = Some 49900.
Proof.
  destruct (createOrder_stores_plan_amount Sample.runtime Sample.t0
              Sample.catalog Scenario.ordered (Some Scenario.alice)
              (mkCreateOrderBody (Some 2%nat) None None)
              "order_RCPT_1" 49900 "INR" 1%nat
              ltac:(vm_compute; reflexivity))
    as (uid & planId & plan & p & _ & Hb & Hf & Hp & _ & Hid & _ & _ & Ha
        & _).
  injection Hb as <-. vm_compute in Hf. injection Hf as <-.
  rewrite Hp. cbn [payments Sample.catalog app].
  unfold findById. cbn [find]. rewrite Hid. cbn [Nat.eqb option_map].
  now rewrite Ha.
Defined.

(** X7.  A renew or upgrade order is only created against an existing
    subscription that belongs to the caller, and the new payment targets
    that subscription; an upgrade order is never created for the plan
    the target is already on.  A purchase order has no target, and is
    only created when the first active subscription of the caller, if
    there is one, is on another plan. *)
Theorem createOrder_target_owned (rt : Runtime) (now : Date)
    (db db' : DB) (reqUser : option ObjectId) (body : CreateOrderBody)
    (oid : string) (amt : Z) (cur : string) (pid : ObjectId) :
  createOrder rt now db reqUser body = (db', OrderCreated oid amt cur pid) ->
  exists uid p,
    reqUser = Some uid
    /\ findById Payment._id (payments db') pid = Some p
    /\ match Payment.action p with
       | Payment.purchase =>
           Payment.targetSubscription p = None
           /\ forall ex,
                findActiveByUser db uid now = Some ex ->
                Subscription.plan ex <> Payment.plan p
       | _ =>
           exists sid target,
             co_subscriptionId body = Some sid
             /\ findById Subscription._id (subscriptions db) sid
                = Some target
             /\ Subscription.user target = uid
             /\ Payment.targetSubscription p = Some sid
             /\ (Payment.action p = Payment.upgrade ->
                 Subscription.plan target <> Payment.plan p)
       end.
Proof.
  intros H.
  destruct (createOrder_created_inv _ _ _ _ _ _ _ _ _ _ H)
    as (uid & action & planId & plan & target & order & Hu & _ & _ & _
        & _ & Ht & _ & _ & _ & _ & Hpid & Hdb).
  exists uid,
    (Payment.set_razorpayOrderId (Some oid)
       (pendingPayment rt now db uid plan action target)).
  split; [exact Hu|]. split.
  { rewrite Hdb, Hpid. cbn [payments set_payments].
    rewrite findById_app_none by apply findById_fresh.
    unfold findById. cbn [find Payment._id Payment.set_razorpayOrderId
      pendingPayment]. now rewrite Nat.eqb_refl. }
  cbn [Payment.action Payment.targetSubscription Payment.plan
       Payment.set_razorpayOrderId pendingPayment].
  unfold admitTarget in Ht. destruct action.
  - destruct (findActiveByUser db uid now) as [ex|].
    + destruct (Nat.eqb (Subscription.plan ex) (Plan._id plan)) eqn:E;
        [discriminate|]. injection Ht as <-. split; [reflexivity|].
      intros ex' Hex. injection Hex as <-. now apply Nat.eqb_neq.
    + injection Ht as <-. split; [reflexivity | discriminate].
  - destruct (co_subscriptionId body) as [sid|]; [|discriminate].
    destruct (findById Subscription._id (subscriptions db) sid)
      as [t|] eqn:Ef; [|discriminate].
    destruct (Nat.eqb (Subscription.user t) uid) eqn:Eu; cbn [negb] in Ht;
      [|discriminate].
    cbn [Payment.action_eqb andb] in Ht. injection Ht as <-.
    exists sid, t. apply Nat.eqb_eq in Eu.
    rewrite (findById_key _ _ _ _ Ef).
    repeat (split; [first [reflexivity | assumption]|]). discriminate.
  - destruct (co_subscriptionId body) as [sid|]; [|discriminate].
    destruct (findById Subscription._id (subscriptions db) sid)
      as [t|] eqn:Ef; [|discriminate].
    destruct (Nat.eqb (Subscription.user t) uid) eqn:Eu; cbn [negb] in Ht;
      [|discriminate].
    cbn [Payment.action_eqb andb] in Ht.
    destruct (Nat.eqb (Subscription.plan t) (Plan._id plan)) eqn:Epl;
      [discriminate|]. injection Ht as <-.
    exists sid, t. apply Nat.eqb_eq in Eu. apply Nat.eqb_neq in Epl.
    rewrite (findById_key _ _ _ _ Ef).
    repeat (split; [first [reflexivity | assumption]|]). intros _. exact Epl.
Qed.

Lemma createOrder_target_owned_witness :
  option_map Payment.targetSubscription
    (findById Payment._id (payments upgradeOrdered) 2%nat)
  = Some (Some 1%nat).
Proof.
  destruct (createOrder_target_owned Sample.runtime (Sample.t0 + 2000)
              Scenario.paid upgradeOrdered (Some Scenario.alice)
              (mkCreateOrderBody (Some 3%nat) (Some "upgrade") (Some 1%nat))
              "order_RCPT_2" 99900 "INR" 2%nat
              ltac:(vm_compute; reflexivity))
    as (uid & p & _ & Hf & Hm).
  rewrite Hf. cbn [option_map]. vm_compute in Hf. injection Hf as <-.
  reflexivity.
Defined.

(** X8.  When [createOrder] answers with an error, nothing was written
    unless the error is the 502 of a failed gateway call; in that case
    exactly one payment was added, without order id or subscription, and
    the gateway has thrown a message.  The payment is marked failed with
    that message in its failure reason when
    that reason is at most 500 characters long; with a longer reason the
    payment stays as it was created, pending and without a reason.  In no
    case is a subscription or a plan touched. *)
Theorem createOrder_error_writes (rt : Runtime) (now : Date) (db db' : DB)
    (reqUser : option ObjectId) (body : CreateOrderBody) (m : string)
    (c : nat) :
  createOrder rt now db reqUser body = (db', OrderError m c) ->
  subscriptions db' = subscriptions db
  /\ plans db' = plans db
  /\ (c <> 502%nat -> db' = db)
  /\ (c = 502%nat ->
      exists p err,
        payments db' = (payments db ++ [p])%list
        /\ (exists amount receipt,
               orders_create rt amount receipt = inl err)
        /\ Payment.razorpayOrderId p = None
        /\ Payment.subscription p = None
        /\ ((String.length ("Razorpay order creation failed: " ++ err)
             <= 500)%nat ->
            Payment.status p = Payment.failed
            /\ Payment.failureReason p
               = Some ("Razorpay order creation failed: " ++ err)%string)
        /\ ((500 < String.length ("Razorpay order creation failed: " ++ err))
              %nat ->
            Payment.status p = Payment.pending
            /\ Payment.failureReason p = None)).
Proof.
  rewrite createOrder_unfold. intros H.
  assert (Hsame : forall m' c',
            (db, OrderError m' c') = (db', OrderError m c) ->
            c' <> 502%nat ->
            subscriptions db' = subscriptions db
            /\ plans db' = plans db
            /\ (c <> 502%nat -> db' = db)
            /\ (c = 502%nat ->
                exists p err,
                  payments db' = (payments db ++ [p])%list
                  /\ (exists amount receipt,
                         orders_create rt amount receipt = inl err)
                  /\ Payment.razorpayOrderId p = None
                  /\ Payment.subscription p = None
                  /\ ((String.length
                         ("Razorpay order creation failed: " ++ err)
                       <= 500)%nat ->
                      Payment.status p = Payment.failed
                      /\ Payment.failureReason p
                         = Some ("Razorpay order creation failed: " ++ err)
                             %string)
                  /\ ((500 < String.length
                               ("Razorpay order creation failed: " ++ err))
                        %nat ->
                      Payment.status p = Payment.pending
                      /\ Payment.failureReason p = None))).
  { intros m' c' He Hc. injection He as <- _ <-.
    repeat split; try reflexivity. intros Hc'. contradiction. }
  destruct reqUser as [uid|]; [|apply (Hsame _ _ H); discriminate].
  destruct (requestedAction body) as [action|];
    [|apply (Hsame _ _ H); discriminate].
  destruct (co_planId body) as [planId|];
    [|apply (Hsame _ _ H); discriminate].
  destruct (findById Plan._id (plans db) planId) as [plan|];
    [|apply (Hsame _ _ H); discriminate].
  destruct (negb (0 <? Plan.amount plan));
    [apply (Hsame _ _ H); discriminate|].
  destruct (admitTarget now db uid plan action body) as [e|target] eqn:Et.
  { destruct (admitTarget_error_code _ _ _ _ _ _ _ Et) as (m' & c' & -> & Hc).
    apply (Hsame _ _ H Hc). }
  clear Hsame. rewrite placeOrder_cases in H. cbv zeta in H.
  destruct (orders_create rt (Plan.amount plan) _) as [err|order] eqn:Eo;
    [|discriminate].
  remember ("Razorpay order creation failed: " ++ err)%string as reason
    eqn:Er.
  injection H as <- _ <-.
  split; [reflexivity|]. split; [reflexivity|].
  split; [intros Hc; now elim Hc|]. intros _.
  eexists _, err. rewrite <- Er. cbn [payments set_payments].
  split; [reflexivity|]. split; [eexists _, _; exact Eo|].
  unfold fitsFailureReason.
  destruct (Nat.leb (String.length reason) 500) eqn:El.
  - apply Nat.leb_le in El.
    cbn [Payment.razorpayOrderId Payment.subscription Payment.status
         Payment.failureReason Payment.set_failureReason Payment.set_status
         pendingPayment].
    split; [reflexivity|]. split; [reflexivity|].
    split; intros Hl; [split; reflexivity | lia].
  - apply Nat.leb_gt in El.
    cbn [Payment.razorpayOrderId Payment.subscription Payment.status
         Payment.failureReason pendingPayment].
    split; [reflexivity|]. split; [reflexivity|].
    split; intros Hl; [lia | split; reflexivity].
Qed.

Lemma createOrder_error_writes_witness :
  exists p,
    payments
      (fst (createOrder (gatewayDown longMessage) Sample.t0 Sample.catalog
              (Some Scenario.alice)
              (mkCreateOrderBody (Some 2%nat) None None)))
    = [p]
    /\ Payment.status p = Payment.pending
    /\ Payment.failureReason p = None.
Proof.
  edestruct (createOrder_error_writes (gatewayDown longMessage) Sample.t0
               Sample.catalog
               (fst (createOrder (gatewayDown longMessage) Sample.t0
                       Sample.catalog (Some Scenario.alice)
                       (mkCreateOrderBody (Some 2%nat) None None)))
               (Some Scenario.alice)
               (mkCreateOrderBody (Some 2%nat) None None))
    as (_ & _ & _ & H).
  - vm_compute. reflexivity.
  - destruct (H eq_refl) as (p & err & Hp & (a & r & He) & _ & _ & _ & Hl).
    injection He as <-. exists p. split; [exact Hp|].
    apply Hl. vm_compute. 
    repeat constructor.
Defined.

Lemma find_app_none {A : Type} (q : A -> bool) (l l' : list A) :
  find q l = None -> find q (l ++ l') = find q l'.
Proof.
  induction l as [|a l IH]; cbn [app find]; [reflexivity|].
  destruct (q a); [discriminate | exact IH].
Qed.

(** X9.  The identifiers [createOrder] answers with lead back to the
    payment it stored: [findById] on the returned payment id finds it,
    and so does [findByRazorpayOrderId] on the returned order id, which
    the webhook uses, provided no earlier payment carries that order
    id. *)
Theorem created_order_is_found (rt : Runtime) (now : Date)
    (db db' : DB) (reqUser : option ObjectId) (body : CreateOrderBody)
    (oid : string) (amt : Z) (cur : string) (pid : ObjectId) :
  createOrder rt now db reqUser body = (db', OrderCreated oid amt cur pid) ->
  exists p,
    findById Payment._id (payments db') pid = Some p
    /\ Payment._id p = pid
    /\ Payment.razorpayOrderId p = Some oid
    /\ (findByRazorpayOrderId db oid = None ->
        findByRazorpayOrderId db' oid = Some p).
Proof.
  intros H.
  destruct (createOrder_created_inv _ _ _ _ _ _ _ _ _ _ H)
    as (uid & action & planId & plan & target & order & _ & _ & _ & _
        & _ & _ & _ & _ & _ & _ & Hpid & Hdb).
  eexists. rewrite Hdb, Hpid. cbn [payments set_payments].
  split.
  { rewrite findById_app_none by apply findById_fresh.
    unfold findById. cbn [find Payment._id Payment.set_razorpayOrderId
      pendingPayment]. now rewrite Nat.eqb_refl. }
  split; [reflexivity|]. split; [reflexivity|].
  unfold findByRazorpayOrderId. cbn [payments set_payments]. intros Hn.
  rewrite (find_app_none _ _ _ Hn). cbn [find Payment.razorpayOrderId
    Payment.set_razorpayOrderId]. now rewrite String.eqb_refl.
Qed.

Lemma created_order_is_found_witness :
  option_map Payment._id
    (findByRazorpayOrderId Scenario.ordered "order_RCPT_1") = Some 1%nat.
Proof.
  destruct (created_order_is_found Sample.runtime Sample.t0
              Sample.catalog Scenario.ordered (Some Scenario.alice)
              (mkCreateOrderBody (Some 2%nat) None None)
              "order_RCPT_1" 49900 "INR" 1%nat
              ltac:(vm_compute; reflexivity))
    as (p & _ & Hid & _ & Hf).
  rewrite (Hf eq_refl). cbn [option_map]. now rewrite Hid.
Defined.

(** ** Verification: what it writes *)

(** Closes a branch that ends in [markFailed] and an error. *)
Ltac failed_branch H :=
  match type of H with
  | context [markFailed ?rt ?now ?db ?p ?r] =>
      let Hf := fresh "Hf" in
      let Ho := fresh "Ho" in
      pose proof (markFailed_frame rt now db p r) as Hf;
      pose proof (fun i (Hi : i <> Payment._id p) =>
                    Payment_save_others rt now db
                      (Payment.set_failureReason
                         (Some (if truthy r then r else "Payment failed"))
                         (Payment.set_status Payment.failed p)) i Hi) as Ho;
      change (Payment_save rt now db _) with (markFailed rt now db p r) in Ho;
      destruct (markFailed rt now db p r) as [? ?];
      cbn [fst snd] in Hf, Ho
  end.

Lemma handleRenew_error_frame (rt : Runtime) (now : Date) (db db' : DB)
    (payment : Payment.t) (plan : Plan.t) (m : string) (c : nat) :
  handleRenew rt now db payment plan = (db', ApiError m c) ->
  subscriptions db' = subscriptions db.
Proof.
  unfold handleRenew. intros H.
  destruct (findByRef Subscription._id (subscriptions db) _) as [sub|].
  2:{ failed_branch H. injection H as <- _ _. apply Hf. }
  destruct (findById Plan._id (plans db) (Subscription.plan sub)).
  2:{ now injection H as <- _ _. }
  match type of H with context [if ?c then _ else _] => destruct c end.
  - failed_branch H. injection H as <- _ _. apply Hf.
  - destruct (Subscription_save now db _) as [d1 s1].
    destruct (Payment_save rt now d1 _) as [d2 p2]. discriminate.
Qed.

Lemma handleUpgrade_error_frame (rt : Runtime) (now : Date) (db db' : DB)
    (payment : Payment.t) (plan : Plan.t) (m : string) (c : nat) :
  handleUpgrade rt now db payment plan = (db', ApiError m c) ->
  subscriptions db' = subscriptions db.
Proof.
  unfold handleUpgrade. intros H.
  destruct (Payment.targetSubscription payment) as [target|].
  2:{ failed_branch H. injection H as <- _ _. apply Hf. }
  destruct (findById Subscription._id (subscriptions db) target) as [o|].
  2:{ failed_branch H. injection H as <- _ _. apply Hf. }
  destruct (findById Plan._id (plans db) (Subscription.plan o)) as [op|].
  2:{ failed_branch H. injection H as <- _ _. apply Hf. }
  destruct (Plan.priority plan <=? Plan.priority op).
  - failed_branch H. injection H as <- _ _. apply Hf.
  - destruct (Subscription_save now db _) as [d1 s1].
    destruct (Subscription_create now d1 _ _ _ _ _ _ _) as [d2 s2].
    destruct (Payment_save rt now d2 _) as [d3 p3]. discriminate.
Qed.

Lemma handlePurchase_error_frame (rt : Runtime) (now : Date) (db db' : DB)
    (payment : Payment.t) (plan : Plan.t) (ex : option Subscription.t)
    (m : string) (c : nat) :
  handlePurchase rt now db payment plan ex = (db', ApiError m c) ->
  subscriptions db' = subscriptions db.
Proof.
  unfold handlePurchase. intros H.
  match type of H with context [if ?c then _ else _] => destruct c end.
  - failed_branch H. injection H as <- _ _. apply Hf.
  - destruct (Subscription_create now db _ _ _ _ _ _ _) as [d1 s1].
    destruct (Payment_save rt now d1 _) as [d2 p2]. discriminate.
Qed.

Lemma reconcile_error_frame (rt : Runtime) (now : Date) (db db' : DB)
    (p : Payment.t) (body : VerifyBody) (m : string) (c : nat) :
  reconcile rt now db p body = (db', ApiError m c) ->
  subscriptions db' = subscriptions db.
Proof.
  intros H.
  destruct (linked_or_unreconciled p) as [[sid Hl]|Hu].
  - rewrite (reconcile_replay _ _ _ _ _ sid Hl) in H. discriminate.
  - rewrite (reconcile_completing _ _ _ _ _ Hu) in H. cbv zeta in H.
    pose proof (markCompleted_frame rt now db p (razorpay_payment_id body)
                  (razorpay_signature body) (Some body)) as [Hs _].
    destruct (markCompleted rt now db p _ _ _) as [db1 p1].
    cbn [fst snd] in *. rewrite <- Hs.
    destruct (findById Plan._id (plans db1) (Payment.plan p1)) as [plan|].
    + destruct (Payment.action p1).
      * eapply handlePurchase_error_frame, H.
      * eapply handleRenew_error_frame, H.
      * eapply handleUpgrade_error_frame, H.
    + pose proof (markFailed_frame rt now db1 p1 "Associated plan not found")
        as [Hf _].
      injection H as <- _ _. exact Hf.
Qed.

(** X10.  Where every plan's period from [now] ends inside the range of
    a Date, a verification that answers with an error has created no
    subscription and changed none: the subscription state moves only when
    the answer is a success. *)
Theorem verifyPayment_error_keeps_subscriptions (rt : Runtime) (now : Date)
    (db db' : DB) (body : VerifyBody) (m : string) (c : nat) :
  (forall plan,
      In plan (plans db) ->
      validDate
        (now
         + match Plan.duration plan with Some d => d | None => 30 end
           * 86400000)) ->
  verifyPayment rt now db body = (db', ApiError m c) ->
  subscriptions db' = subscriptions db.
Proof.
  unfold verifyPayment. intros _ H.
  destruct (vb_paymentId body) as [pid|]; [|now injection H as <- _ _].
  destruct (missingFields body); [now injection H as <- _ _|].
  destruct (findById Payment._id (payments db) pid) as [p|];
    [|now injection H as <- _ _].
  destruct (orderIdMismatch p body); [now injection H as <- _ _|].
  destruct (verifyRazorpaySignature rt _ _ _) as [[|]|].
  - eapply reconcile_error_frame, H.
  - failed_branch H. injection H as <- _ _. apply Hf.
  - failed_branch H. injection H as <- _ _. apply Hf.
Qed.

Lemma verifyPayment_error_keeps_subscriptions_witness :
  subscriptions (fst Scenario.secondRenewal)
  = subscriptions (fst Scenario.firstRenewal).
Proof.
  apply (verifyPayment_error_keeps_subscriptions Sample.runtime
           (Sample.t0 + 6000) (fst Scenario.firstRenewal)
           (fst Scenario.secondRenewal)
           (Sample.verifyBodyFor (fst Scenario.firstRenewal) 3%nat "pay_3")
           "You have reached the maximum renewals for this period" 400).
  - assert (Hp : plans (fst Scenario.firstRenewal)
                 = [Sample.Basic; Sample.Standard; Sample.Premium])
      by (vm_compute; reflexivity).
    rewrite Hp. intros plan [<-|[<-|[<-|[]]]]; split; vm_compute;
      discriminate.
  - vm_compute. reflexivity.
Defined.

Lemma Subscription_save_payments (now : Date) (db : DB) (s : Subscription.t) :
  payments (fst (Subscription_save now db s)) = payments db.
Proof. reflexivity. Qed.

Lemma Subscription_create_payments (now : Date) (db : DB)
    (user plan paymentId : ObjectId) (status : Subscription.status_t)
    (startDate : Date) (endDate : option Date)
    (history : list Subscription.billing) :
  payments (fst (Subscription_create now db user plan paymentId status
                   startDate endDate history)) = payments db.
Proof. reflexivity. Qed.

Lemma handleRenew_payments (rt : Runtime) (now : Date) (db db' : DB)
    (payment : Payment.t) (plan : Plan.t) (r : Response) (i : ObjectId) :
  handleRenew rt now db payment plan = (db', r) ->
  i <> Payment._id payment ->
  findById Payment._id (payments db') i = findById Payment._id (payments db) i.
Proof.
  unfold handleRenew. intros H Hi.
  destruct (findByRef Subscription._id (subscriptions db) _) as [sub|].
  2:{ failed_branch H. injection H as <- _. now apply Ho. }
  destruct (findById Plan._id (plans db) (Subscription.plan sub)).
  2:{ now injection H as <- _. }
  match type of H with context [if ?c then _ else _] => destruct c end.
  - failed_branch H. injection H as <- _. now apply Ho.
  - match type of H with
    | context [Subscription_save now db ?s] =>
        pose proof (Subscription_save_payments now db s) as Hp;
        destruct (Subscription_save now db s) as [d1 s1]
    end.
    cbn [fst] in Hp.
    match type of H with
    | context [Payment_save rt now d1 ?q] =>
        pose proof (Payment_save_others rt now d1 q i Hi) as Ho;
        destruct (Payment_save rt now d1 q) as [d2 p2]
    end.
    cbn [fst] in Ho. injection H as <- _. now rewrite Ho, Hp.
Qed.

Lemma handleUpgrade_payments (rt : Runtime) (now : Date) (db db' : DB)
    (payment : Payment.t) (plan : Plan.t) (r : Response) (i : ObjectId) :
  handleUpgrade rt now db payment plan = (db', r) ->
  i <> Payment._id payment ->
  findById Payment._id (payments db') i = findById Payment._id (payments db) i.
Proof.
  unfold handleUpgrade. intros H Hi.
  destruct (Payment.targetSubscription payment) as [target|].
  2:{ failed_branch H. injection H as <- _. now apply Ho. }
  destruct (findById Subscription._id (subscriptions db) target) as [o|].
  2:{ failed_branch H. injection H as <- _. now apply Ho. }
  destruct (findById Plan._id (plans db) (Subscription.plan o)) as [op|].
  2:{ failed_branch H. injection H as <- _. now apply Ho. }
  destruct (Plan.priority plan <=? Plan.priority op).
  - failed_branch H. injection H as <- _. now apply Ho.
  - match type of H with
    | context [Subscription_save now db ?s] =>
        pose proof (Subscription_save_payments now db s) as Hp;
        destruct (Subscription_save now db s) as [d1 s1]
    end.
    cbn [fst] in Hp.
    match type of H with
    | context [Subscription_create now d1 ?a ?b ?c ?d ?e ?f ?g] =>
        pose proof (Subscription_create_payments now d1 a b c d e f g) as Hq;
        destruct (Subscription_create now d1 a b c d e f g) as [d2 s2]
    end.
    cbn [fst] in Hq.
    match type of H with
    | context [Payment_save rt now d2 ?q] =>
        pose proof (Payment_save_others rt now d2 q i Hi) as Ho;
        destruct (Payment_save rt now d2 q) as [d3 p3]
    end.
    cbn [fst] in Ho. injection H as <- _. now rewrite Ho, Hq, Hp.
Qed.

Lemma handlePurchase_payments (rt : Runtime) (now : Date) (db db' : DB)
    (payment : Payment.t) (plan : Plan.t) (ex : option Subscription.t)
    (r : Response) (i : ObjectId) :
  handlePurchase rt now db payment plan ex = (db', r) ->
  i <> Payment._id payment ->
  findById Payment._id (payments db') i = findById Payment._id (payments db) i.
Proof.
  unfold handlePurchase. intros H Hi.
  match type of H with context [if ?c then _ else _] => destruct c end.
  - failed_branch H. injection H as <- _. now apply Ho.
  - match type of H with
    | context [Subscription_create now db ?a ?b ?c ?d ?e ?f ?g] =>
        pose proof (Subscription_create_payments now db a b c d e f g) as Hq;
        destruct (Subscription_create now db a b c d e f g) as [d2 s2]
    end.
    cbn [fst] in Hq.
    match type of H with
    | context [Payment_save rt now d2 ?q] =>
        pose proof (Payment_save_others rt now d2 q i Hi) as Ho;
        destruct (Payment_save rt now d2 q) as [d3 p3]
    end.
    cbn [fst] in Ho. injection H as <- _. now rewrite Ho, Hq.
Qed.

Lemma markCompleted_others (rt : Runtime) (now : Date) (db : DB)
    (p : Payment.t) (a b : string) (g : option VerifyBody) (i : ObjectId) :
  i <> Payment._id p ->
  findById Payment._id (payments (fst (markCompleted rt now db p a b g))) i
  = findById Payment._id (payments db) i.
Proof.
  intros Hi. unfold markCompleted. apply Payment_save_others.
  destruct (truthy a), (truthy b), g; exact Hi.
Qed.

Lemma reconcile_payments (rt : Runtime) (now : Date) (db db' : DB)
    (p : Payment.t) (body : VerifyBody) (r : Response) (i : ObjectId) :
  reconcile rt now db p body = (db', r) ->
  i <> Payment._id p ->
  findById Payment._id (payments db') i = findById Payment._id (payments db) i.
Proof.
  intros H Hi.
  destruct (linked_or_unreconciled p) as [[sid Hl]|Hu].
  - rewrite (reconcile_replay _ _ _ _ _ sid Hl) in H. now injection H as <- _.
  - rewrite (reconcile_completing _ _ _ _ _ Hu) in H. cbv zeta in H.
    pose proof (markCompleted_others rt now db p (razorpay_payment_id body)
                  (razorpay_signature body) (Some body) i Hi) as Hm.
    pose proof (markCompleted_core rt now db p (razorpay_payment_id body)
                  (razorpay_signature body) (Some body)) as (Hid & _).
    destruct (markCompleted rt now db p _ _ _) as [db1 p1].
    cbn [fst snd] in *. rewrite <- Hm. rewrite <- Hid in Hi.
    destruct (findById Plan._id (plans db1) (Payment.plan p1)) as [plan|].
    + destruct (Payment.action p1).
      * eapply handlePurchase_payments; eassumption.
      * eapply handleRenew_payments; eassumption.
      * eapply handleUpgrade_payments; eassumption.
    + failed_branch H. injection H as <- _. now apply Ho.
Qed.

(** Case analysis on the options and booleans a handler branches on. *)
Ltac branches :=
  repeat match goal with
         | |- context [match ?x with Some _ => _ | None => _ end] =>
             destruct x
         | |- context [if ?c then _ else _] => destruct c
         end.

Lemma handleRenew_plans (rt : Runtime) (now : Date) (db : DB)
    (payment : Payment.t) (plan : Plan.t) :
  plans (fst (handleRenew rt now db payment plan)) = plans db.
Proof. unfold handleRenew. branches; reflexivity. Qed.

Lemma handleUpgrade_plans (rt : Runtime) (now : Date) (db : DB)
    (payment : Payment.t) (plan : Plan.t) :
  plans (fst (handleUpgrade rt now db payment plan)) = plans db.
Proof. unfold handleUpgrade. branches; reflexivity. Qed.

Lemma handlePurchase_plans (rt : Runtime) (now : Date) (db : DB)
    (payment : Payment.t) (plan : Plan.t) (ex : option Subscription.t) :
  plans (fst (handlePurchase rt now db payment plan ex)) = plans db.
Proof. unfold handlePurchase. branches; reflexivity. Qed.

Lemma reconcile_plans (rt : Runtime) (now : Date) (db : DB) (p : Payment.t)
    (body : VerifyBody) :
  plans (fst (reconcile rt now db p body)) = plans db.
Proof.
  destruct (linked_or_unreconciled p) as [[sid Hl]|Hu].
  - now rewrite (reconcile_replay _ _ _ _ _ sid Hl).
  - rewrite (reconcile_completing _ _ _ _ _ Hu). cbv zeta.
    destruct (markCompleted rt now db p _ _ _) as [db1 p1] eqn:E.
    assert (Hp : plans db1 = plans db).
    { pose proof (markCompleted_frame rt now db p (razorpay_payment_id body)
                    (razorpay_signature body) (Some body)) as [_ Hp].
      now rewrite E in Hp. }
    cbn [fst snd]. rewrite <- Hp.
    destruct (findById Plan._id (plans db1) (Payment.plan p1)) as [plan|];
      [|reflexivity].
    destruct (Payment.action p1).
    + apply handlePurchase_plans.
    + apply handleRenew_plans.
    + apply handleUpgrade_plans.
Qed.

Lemma verifyPayment_plans (rt : Runtime) (now : Date) (db : DB)
    (body : VerifyBody) :
  plans (fst (verifyPayment rt now db body)) = plans db.
Proof.
  unfold verifyPayment.
  destruct (vb_paymentId body) as [pid|]; [|reflexivity].
  destruct (missingFields body); [reflexivity|].
  destruct (findById Payment._id (payments db) pid) as [p|]; [|reflexivity].
  destruct (orderIdMismatch p body); [reflexivity|].
  destruct (verifyRazorpaySignature rt _ _ _) as [[|]|]; try reflexivity.
  apply reconcile_plans.
Qed.

(** X11.  [verifyPayment] writes to no payment but the one its body names
    and never writes a plan: every other payment reads back as before,
    whatever the outcome, and a body without a payment id writes
    nothing. *)
Theorem verifyPayment_touches_one_payment (rt : Runtime) (now : Date)
    (db : DB) (body : VerifyBody) :
  plans (fst (verifyPayment rt now db body)) = plans db
  /\ (vb_paymentId body = None -> fst (verifyPayment rt now db body) = db)
  /\ forall i,
       vb_paymentId body <> Some i ->
       findById Payment._id (payments (fst (verifyPayment rt now db body))) i
       = findById Payment._id (payments db) i.
Proof.
  split; [|split].
  - apply verifyPayment_plans.
  - intros Hn. unfold verifyPayment. now rewrite Hn.
  - intros i Hi. unfold verifyPayment.
    destruct (vb_paymentId body) as [pid|]; [|reflexivity].
    destruct (missingFields body); [reflexivity|].
    destruct (findById Payment._id (payments db) pid) as [p|] eqn:Ep;
      [|reflexivity].
    assert (Hne : i <> Payment._id p).
    { rewrite (findById_key _ _ _ _ Ep). congruence. }
    destruct (orderIdMismatch p body); [reflexivity|].
    destruct (verifyRazorpaySignature rt _ _ _) as [[|]|].
    + destruct (reconcile rt now db p body) as [db' r] eqn:E.
      apply (reconcile_payments _ _ _ _ _ _ _ _ E Hne).
    + destruct (markFailed rt now db p _) as [d q] eqn:E.
      pose proof (Payment_save_others rt now db
                    (Payment.set_failureReason
                       (Some "Signature verification failed")
                       (Payment.set_status Payment.failed p)) i Hne) as Ho.
      change (Payment_save rt now db _)
        with (markFailed rt now db p "Signature verification failed") in Ho.
      now rewrite E in Ho.
    + destruct (markFailed rt now db p _) as [d q] eqn:E.
      pose proof (Payment_save_others rt now db
                    (Payment.set_failureReason
                       (Some "Signature verification error")
                       (Payment.set_status Payment.failed p)) i Hne) as Ho.
      change (Payment_save rt now db _)
        with (markFailed rt now db p "Signature verification error") in Ho.
      now rewrite E in Ho.
Qed.

(** ** Invoice numbers *)

Lemma Payment_pre_save_invoiced (rt : Runtime) (now : Date) (m : bool)
    (q : Payment.t) :
  truthy_opt (Payment.invoiceNumber q) = true ->
  Payment_pre_save rt now false m q = q.
Proof.
  intros H. unfold Payment_pre_save. cbn [andb]. rewrite H.
  cbn [negb]. now rewrite andb_false_r.
Qed.

Lemma Payment_save_invoiced (rt : Runtime) (now : Date) (db : DB)
    (q : Payment.t) :
  truthy_opt (Payment.invoiceNumber q) = true ->
  snd (Payment_save rt now db q) = q.
Proof. intros H. unfold Payment_save. cbn [snd]. now apply Payment_pre_save_invoiced. Qed.

Lemma status_eqb_completed (s : Payment.status_t) :
  Payment.status_eqb s Payment.completed = true <-> s = Payment.completed.
Proof. destruct s; cbn; split; congruence. Qed.

(** X12.  The invoice number is drawn once, at the save that first moves
    the payment into completed, together with [invoiceGeneratedAt] and
    [completedAt]; a payment that has an invoice number keeps it, and its
    [invoiceGeneratedAt], through every later [markCompleted],
    [markFailed] and webhook delivery. *)
Theorem invoice_number_assigned_once (rt : Runtime) (now : Date) (db : DB)
    (p : Payment.t) :
  findById Payment._id (payments db) (Payment._id p) = Some p ->
  (Payment.status p <> Payment.completed ->
   truthy_opt (Payment.invoiceNumber p) = false ->
   forall a b g,
     let p' := snd (markCompleted rt now db p a b g) in
     Payment.invoiceNumber p' = Some (invoice_token rt now (Payment._id p))
     /\ Payment.invoiceGeneratedAt p' = Some now
     /\ Payment.completedAt p' = Some now)
  /\ (truthy_opt (Payment.invoiceNumber p) = true ->
      (forall a b g,
          let p' := snd (markCompleted rt now db p a b g) in
          Payment.invoiceNumber p' = Payment.invoiceNumber p
          /\ Payment.invoiceGeneratedAt p' = Payment.invoiceGeneratedAt p)
      /\ (forall reason,
             let p' := snd (markFailed rt now db p reason) in
             Payment.invoiceNumber p' = Payment.invoiceNumber p
             /\ Payment.invoiceGeneratedAt p' = Payment.invoiceGeneratedAt p)
      /\ (forall payload pe,
             let p' := snd (Payment_save rt now db
                              (applyWebhook now payload pe p)) in
             Payment.invoiceNumber p' = Payment.invoiceNumber p
             /\ Payment.invoiceGeneratedAt p'
                = Payment.invoiceGeneratedAt p)).
Proof.
  intros Hst. split.
  - intros Hs Hi a b g p'. subst p'. unfold markCompleted, Payment_save.
    assert (Hm : Payment.status_eqb (Payment.status p) Payment.completed
                 = false).
    { destruct (Payment.status_eqb (Payment.status p) Payment.completed)
        eqn:E; [|reflexivity]. apply status_eqb_completed in E. congruence. }
    cbn [snd].
    destruct (truthy a), (truthy b), g;
      cbn [Payment._id Payment.status Payment.set_completedAt
           Payment.set_gatewayResponse Payment.set_razorpaySignature
           Payment.set_razorpayPaymentId Payment.set_status];
      rewrite Hst; unfold Payment_pre_save;
      cbn [andb Payment._id Payment.status Payment.invoiceNumber
           Payment.set_completedAt Payment.set_gatewayResponse
           Payment.set_razorpaySignature Payment.set_razorpayPaymentId
           Payment.set_status Payment.status_eqb];
      destruct (Payment.status p) eqn:Esp; try discriminate Hm;
      cbn [Payment.status_eqb negb andb]; rewrite Hi; cbn [negb];
      repeat split; reflexivity.
  - intros Hi. split; [|split].
    + intros a b g p'. subst p'. unfold markCompleted.
      rewrite Payment_save_invoiced
        by (destruct (truthy a), (truthy b), g; exact Hi).
      destruct (truthy a), (truthy b), g; split; reflexivity.
    + intros reason p'. subst p'. unfold markFailed.
      rewrite Payment_save_invoiced by exact Hi. split; reflexivity.
    + intros payload pe p'. subst p'.
      assert (Ha : Payment.invoiceNumber (applyWebhook now payload pe p)
                   = Payment.invoiceNumber p
                   /\ Payment.invoiceGeneratedAt
                        (applyWebhook now payload pe p)
                      = Payment.invoiceGeneratedAt p).
      { unfold applyWebhook.
        repeat match goal with
               | |- context [if ?c then _ else _] => destruct c
               end; split; reflexivity. }
      rewrite Payment_save_invoiced by (now rewrite (proj1 Ha)).
      exact Ha.
Qed.

Lemma invoice_number_assigned_once_witness :
  Payment.invoiceNumber
    (snd (markFailed Sample.runtime (Sample.t0 + 61000) Scenario.paid
            Scenario.payment1 "late failure"))
  = Some "INV-1".
Proof.
  destruct (invoice_number_assigned_once Sample.runtime (Sample.t0 + 61000)
              Scenario.paid Scenario.payment1
              ltac:(vm_compute; reflexivity)) as [_ H].
  destruct (H eq_refl) as (_ & Hf & _).
  apply (Hf "late failure").
Defined.

(** ** Verification: when it succeeds *)

(** An accepted verification of an unreconciled payment whose plan
    exists is the handler of its action, run on the completed payment. *)
Lemma verifyPayment_dispatch (rt : Runtime) (now : Date) (db : DB)
    (body : VerifyBody) (p : Payment.t) (plan : Plan.t) :
  accepted rt db body p ->
  unreconciled p ->
  findById Plan._id (plans db) (Payment.plan p) = Some plan ->
  let db1 := fst (markCompleted rt now db p (razorpay_payment_id body)
                    (razorpay_signature body) (Some body)) in
  let p1 := snd (markCompleted rt now db p (razorpay_payment_id body)
                   (razorpay_signature body) (Some body)) in
  verifyPayment rt now db body
  = match Payment.action p with
    | Payment.renew => handleRenew rt now db1 p1 plan
    | Payment.upgrade => handleUpgrade rt now db1 p1 plan
    | Payment.purchase =>
        handlePurchase rt now db1 p1 plan
          (findActiveByUser db (Payment.user p) now)
    end.
Proof.
  intros Ha Hu Hp db1 p1.
  rewrite (verifyPayment_accepted rt now db body p Ha).
  rewrite (reconcile_completing rt now db p body Hu). cbv zeta.
  fold db1 p1.
  destruct Ha as (_ & Hst & _).
  destruct (completing_payment rt now db p body Hst)
    as (_ & Hcore & _ & _ & Hpl).
  fold db1 p1 in Hcore, Hpl.
  destruct Hcore as (_ & Hus & Hplan & _ & Hact & _).
  rewrite Hpl, Hplan, Hp, Hact, Hus. reflexivity.
Qed.

(** X13.  An accepted verification of an unreconciled purchase payment
    whose plan exists, for an end date inside the range of a Date, has one
    of two outcomes, decided by the first active subscription of the
    payer: when that subscription is on the paid plan the answer is the
    400 refusal and nothing is created; otherwise the answer is success
    and exactly one subscription is added, on the paid plan, active from
    [now] until [now] plus the plan's duration in days of 86400000 ms (30
    days for a plan without duration), with one billing entry for the
    payment. *)
Theorem purchase_verification_outcome (rt : Runtime) (now : Date) (db : DB)
    (body : VerifyBody) (p : Payment.t) (plan : Plan.t) :
  accepted rt db body p ->
  unreconciled p ->
  Payment.action p = Payment.purchase ->
  findById Plan._id (plans db) (Payment.plan p) = Some plan ->
  let days := match Plan.duration plan with Some d => d | None => 30 end in
  validDate (now + days * 86400000) ->
  let blocked :=
    match findActiveByUser db (Payment.user p) now with
    | Some ex => Nat.eqb (Subscription.plan ex) (Payment.plan p)
    | None => false
    end in
  let s :=
    Subscription.mk (freshId Subscription._id (subscriptions db))
      (Payment.user p) (Payment.plan p) Subscription.active now
      (now + days * 86400000) (Some (Payment._id p)) None None
      [Subscription.mkBilling now (Payment.amount p) (Payment._id p)
         Subscription.success] now in
  (blocked = true ->
   snd (verifyPayment rt now db body)
   = ApiError "You already have an active subscription for this plan" 400
   /\ subscriptions (fst (verifyPayment rt now db body)) = subscriptions db)
  /\ (blocked = false ->
      snd (verifyPayment rt now db body)
      = Json 200 (Some "Payment verified and subscription activated") None
          (Some s) None
      /\ subscriptions (fst (verifyPayment rt now db body))
         = (subscriptions db ++ [s])%list).
Proof.
  intros Ha Hu Hact Hp days _ blocked s. subst s days.
  rewrite <- (days_ms_durationDays plan).
  rewrite (verifyPayment_dispatch rt now db body p plan Ha Hu Hp).
  cbv zeta. rewrite Hact.
  destruct Ha as (_ & Hst & _).
  destruct (completing_payment rt now db p body Hst)
    as (_ & Hcore & _ & Hsub & _).
  destruct Hcore as (Hid & Hus & Hplan & _ & _ & _ & Ham & _).
  set (db1 := fst (markCompleted rt now db p (razorpay_payment_id body)
                     (razorpay_signature body) (Some body))) in *.
  set (p1 := snd (markCompleted rt now db p (razorpay_payment_id body)
                    (razorpay_signature body) (Some body))) in *.
  unfold handlePurchase. rewrite (findById_key _ _ _ _ Hp).
  fold blocked. split; intros Hb; rewrite Hb.
  - destruct (markFailed rt now db1 p1 _) as [d q] eqn:E.
    cbn [fst snd]. split; [reflexivity|].
    pose proof (markFailed_frame rt now db1 p1
                  "User already has an active subscription for this plan")
      as [Hf _].
    rewrite E in Hf. cbn [fst] in Hf. now rewrite Hf.
  - unfold Subscription_create. unfold billingEntry.
    rewrite Hsub, Hid, Hus, Hplan, Ham.
    destruct (Payment_save rt now _ _) as [d q] eqn:E.
    cbn [fst snd]. split; [reflexivity|].
    pose proof (f_equal (fun x => subscriptions (fst x)) E) as Hs.
    cbn [fst] in Hs. rewrite <- Hs. reflexivity.
Qed.

Lemma purchase_verification_outcome_witness :
  subscriptions Scenario.paid
  = [Subscription.mk 1%nat 7%nat 2%nat Subscription.active
       1710460801000 1718236801000 (Some 1%nat) None None
       [Subscription.mkBilling 1710460801000 49900 1%nat
          Subscription.success] 1710460801000].
Proof.
  destruct (purchase_verification_outcome Sample.runtime (Sample.t0 + 1000)
              Scenario.ordered Scenario.verify1
              (pendingPayment_ordered) Sample.Standard
              ltac:(repeat split; vm_compute; reflexivity)
              ltac:(left; discriminate) eq_refl eq_refl
              ltac:(split; vm_compute; discriminate)) as [_ H].
  destruct (H eq_refl) as [_ Hs].
  change (subscriptions Scenario.paid)
    with (subscriptions
            (fst (verifyPayment Sample.runtime (Sample.t0 + 1000)
                    Scenario.ordered Scenario.verify1))).
  rewrite Hs. vm_compute. reflexivity.
Defined.

Lemma filter_has {A : Type} (q : A -> bool) (l : list A) (x : A) :
  In x l -> q x = true -> (1 <= List.length (filter q l))%nat.
Proof.
  intros Hin Hq.
  assert (Hf : In x (filter q l)) by (apply filter_In; auto).
  destruct (filter q l); [contradiction | cbn; lia].
Qed.

(** X14.  An accepted verification of an unreconciled renew payment whose
    plan, target subscription and target plan exist, for a new end date
    inside the range of a Date, has one of two outcomes, decided by the
    count taken after the payment was marked completed: the 400 refusal
    when the target plan's limit is positive and that count has reached
    it, success otherwise, with the target extended from the later of its
    end date and [now] by the duration of the payment's plan in days of
    86400000 ms (30 days for a plan without duration).  When the payment
    targets the subscription and was created in the month of [now] the
    count includes the payment itself, so it is at least 1. *)
Theorem renew_verification_outcome (rt : Runtime) (now : Date) (db : DB)
    (body : VerifyBody) (p : Payment.t) (plan planForSub : Plan.t)
    (sub : Subscription.t) :
  accepted rt db body p ->
  unreconciled p ->
  Payment.action p = Payment.renew ->
  findById Plan._id (plans db) (Payment.plan p) = Some plan ->
  findByRef Subscription._id (subscriptions db)
    (match Payment.targetSubscription p with
     | Some t => Some t
     | None => Payment.subscription p
     end) = Some sub ->
  findById Plan._id (plans db) (Subscription.plan sub) = Some planForSub ->
  let days := match Plan.duration plan with Some d => d | None => 30 end in
  validDate (Z.max (Subscription.endDate sub) now + days * 86400000) ->
  let count :=
    countRenewsThisMonth rt now
      (fst (markCompleted rt now db p (razorpay_payment_id body)
              (razorpay_signature body) (Some body)))
      (Subscription._id sub) in
  let limit :=
    match Plan.renewLimit planForSub with Some n => n | None => 0 end in
  let sub' :=
    Subscription.mk (Subscription._id sub) (Subscription.user sub)
      (Subscription.plan sub) Subscription.active
      (Subscription.startDate sub)
      (Z.max (Subscription.endDate sub) now + days * 86400000)
      (Subscription.paymentId sub) (Subscription.cancelledAt sub)
      (Subscription.cancellationReason sub)
      (Subscription.billingHistory sub
         ++ [Subscription.mkBilling now (Payment.amount p) (Payment._id p)
               Subscription.success])
      (Subscription.createdAt sub) in
  snd (verifyPayment rt now db body)
  = (if (0 <? limit) && (limit <=? count)
     then ApiError "You have reached the maximum renewals for this period"
            400
     else Json 200 (Some "Subscription renewed") None (Some sub') None)
  /\ (Payment.targetSubscription p = Some (Subscription._id sub) ->
      startOfMonth rt now <= Payment.createdAt p < startOfNextMonth rt now ->
      1 <= count).
Proof.
  intros Ha Hu Hact Hp Hsub Hpfs days _ count limit sub'. subst sub' days.
  rewrite <- (days_ms_durationDays plan).
  rewrite (verifyPayment_dispatch rt now db body p plan Ha Hu Hp).
  cbv zeta. rewrite Hact.
  destruct Ha as (_ & Hst & _).
  destruct (completing_payment rt now db p body Hst)
    as (Hst1 & Hcore & Hc1 & Hsubs & Hpl).
  destruct Hcore as (Hid & _ & _ & Hlink & Hact1 & Htgt & Ham & _ & Hcr).
  set (db1 := fst (markCompleted rt now db p (razorpay_payment_id body)
                     (razorpay_signature body) (Some body))) in *.
  set (p1 := snd (markCompleted rt now db p (razorpay_payment_id body)
                    (razorpay_signature body) (Some body))) in *.
  split.
  - unfold handleRenew. rewrite Htgt, Hlink, Hsubs, Hsub, Hpl, Hpfs.
    fold limit. fold count.
    destruct ((0 <? limit) && (limit <=? count)).
    + destruct (markFailed rt now db1 p1 _). reflexivity.
    + rewrite currentEnd_max.
      rewrite Subscription_save_active by (cbn; discriminate).
      destruct (Payment_save rt now _ _) as [d q]. cbn [snd].
      unfold billingEntry. rewrite Hid, Ham. reflexivity.
  - intros Ht [Hlo Hhi]. unfold count, countRenewsThisMonth.
    change 1 with (Z.of_nat 1). apply inj_le.
    apply filter_has with (x := p1).
    + apply (findById_In _ _ _ _ Hst1).
    + unfold renewQuery. rewrite Hact1, Hact, Htgt, Ht, Hc1, Hcr.
      cbn [Payment.action_eqb Payment.status_eqb andb].
      rewrite Nat.eqb_refl. cbn [andb].
      apply andb_true_iff. split; [apply Z.leb_le | apply Z.ltb_lt]; lia.
Qed.

Lemma renew_verification_outcome_witness :
  snd Scenario.firstRenewal
  = Json 200 (Some "Subscription renewed") None
      (Some (Subscription.mk 1%nat 7%nat 2%nat Subscription.active
               1710460801000 1726012801000 (Some 1%nat) None None
               [Subscription.mkBilling 1710460801000 49900 1%nat
                  Subscription.success;
                Subscription.mkBilling 1710460805000 49900 2%nat
                  Subscription.success]
               1710460801000))
      None.
Proof.
  edestruct (renew_verification_outcome Sample.runtime (Sample.t0 + 5000)
               Scenario.renewOrders
               (Sample.verifyBodyFor Scenario.renewOrders 2%nat "pay_2")
               renewPayment Sample.Standard Sample.Standard)
    as [H _].
  - repeat split; vm_compute; reflexivity.
  - right. reflexivity.
  - reflexivity.
  - vm_compute. reflexivity.
  - vm_compute. reflexivity.
  - vm_compute. reflexivity.
  - split; vm_compute; discriminate.
  - unfold Scenario.firstRenewal, Scenario.verify. rewrite H.
    vm_compute. reflexivity.
Defined.

(** X15.  An accepted verification of an unreconciled upgrade payment
    whose plan, target subscription and old plan exist succeeds whenever
    the old plan's priority is strictly below the new plan's and the end
    date is inside the range of a Date: the answer is "Plan upgraded" with
    the new subscription, active from [now] until [now] plus the new
    plan's duration in days of 86400000 ms (30 days for a plan without
    duration). *)
Theorem upgrade_verification_succeeds (rt : Runtime) (now : Date) (db : DB)
    (body : VerifyBody) (p : Payment.t) (plan oldPlan : Plan.t)
    (target : ObjectId) (oldSub : Subscription.t) :
  accepted rt db body p ->
  unreconciled p ->
  Payment.action p = Payment.upgrade ->
  findById Plan._id (plans db) (Payment.plan p) = Some plan ->
  Payment.targetSubscription p = Some target ->
  findById Subscription._id (subscriptions db) target = Some oldSub ->
  findById Plan._id (plans db) (Subscription.plan oldSub) = Some oldPlan ->
  Plan.priority oldPlan < Plan.priority plan ->
  let days := match Plan.duration plan with Some d => d | None => 30 end in
  validDate (now + days * 86400000) ->
  snd (verifyPayment rt now db body)
  = Json 200 (Some "Plan upgraded") None
      (Some (Subscription.mk (freshId Subscription._id (subscriptions db))
               (Payment.user p) (Payment.plan p) Subscription.active now
               (now + days * 86400000) (Some (Payment._id p))
               None None
               [Subscription.mkBilling now (Payment.amount p)
                  (Payment._id p) Subscription.success] now))
      None.
Proof.
  intros Ha Hu Hact Hp Ht Ho Hop Hlt days _. subst days.
  rewrite <- (days_ms_durationDays plan).
  rewrite (verifyPayment_dispatch rt now db body p plan Ha Hu Hp).
  cbv zeta. rewrite Hact.
  destruct Ha as (_ & Hst & _).
  destruct (completing_payment rt now db p body Hst)
    as (_ & Hcore & _ & Hsubs & Hpl).
  destruct Hcore as (Hid & Hus & Hplan & _ & _ & Htgt & Ham & _).
  set (db1 := fst (markCompleted rt now db p (razorpay_payment_id body)
                     (razorpay_signature body) (Some body))) in *.
  set (p1 := snd (markCompleted rt now db p (razorpay_payment_id body)
                    (razorpay_signature body) (Some body))) in *.
  unfold handleUpgrade. rewrite Htgt, Ht, Hsubs, Ho, Hpl, Hop.
  assert (Hle : (Plan.priority plan <=? Plan.priority oldPlan) = false)
    by (apply Z.leb_gt; exact Hlt).
  rewrite Hle.
  rewrite Subscription_save_active by (cbn; discriminate).
  unfold Subscription_create.
  cbn [subscriptions set_subscriptions plans payments].
  rewrite Hsubs.
  rewrite (freshId_replaceById Subscription._id (subscriptions db)
             (Subscription.set_status Subscription.expired oldSub) oldSub)
    by (cbn; rewrite (findById_key _ _ _ _ Ho); exact Ho).
  destruct (Payment_save rt now _ _) as [d q]. cbn [snd].
  unfold billingEntry. rewrite Hid, Hus, Hplan, Ham. reflexivity.
Qed.

Lemma upgrade_verification_succeeds_witness :
  snd (Scenario.verify upgradeOrdered 2%nat "pay_2" (Sample.t0 + 3000))
  = Json 200 (Some "Plan upgraded") None
      (Some (Subscription.mk 2%nat 7%nat 3%nat Subscription.active
               1710460803000 1741996803000 (Some 2%nat) None None
               [Subscription.mkBilling 1710460803000 99900 2%nat
                  Subscription.success]
               1710460803000))
      None.
Proof.
  unfold Scenario.verify.
  rewrite (upgrade_verification_succeeds Sample.runtime (Sample.t0 + 3000)
             upgradeOrdered
             (Sample.verifyBodyFor upgradeOrdered 2%nat "pay_2")
             upgradePayment Sample.Premium Sample.Standard 1%nat
             (Subscription.mk 1%nat Scenario.alice 2%nat Subscription.active
                (Sample.t0 + 1000) (Sample.t0 + 1000 + days_ms 90)
                (Some 1%nat) None None
                [Subscription.mkBilling (Sample.t0 + 1000) 49900 1%nat
                   Subscription.success] (Sample.t0 + 1000))
             ltac:(repeat split; vm_compute; reflexivity)
             ltac:(right; reflexivity) eq_refl
             ltac:(vm_compute; reflexivity) eq_refl
             ltac:(vm_compute; reflexivity)
             ltac:(vm_compute; reflexivity)
             ltac:(vm_compute; reflexivity)
             ltac:(split; vm_compute; discriminate)).
  vm_compute. reflexivity.
Defined.

(** ** The webhook *)





(** ** Activation *)

(** X18.  [activate], called by the owner for a completed payment that is
    not linked yet, for an end date inside the range of a Date, creates
    the subscription on the plan named in the request, whatever plan the
    payment was made for: active from [now] until [now] plus that plan's
    duration in days of 86400000 ms (30 days for a plan without duration),
    created by the payment, with an empty billing history; it links the
    payment and answers 201. *)
Theorem activate_creates_on_requested_plan (rt : Runtime) (now : Date)
    (db : DB) (reqUser : ObjectId) (body : ActivateBody) (p : Payment.t)
    (planId : ObjectId) (plan : Plan.t) :
  ab_paymentId body = Some (Payment._id p) ->
  ab_planId body = Some planId ->
  findById Payment._id (payments db) (Payment._id p) = Some p ->
  Payment.status p = Payment.completed ->
  Payment.subscription p = None ->
  findById Plan._id (plans db) planId = Some plan ->
  Payment.user p = reqUser ->
  let days := match Plan.duration plan with Some d => d | None => 30 end in
  validDate (now + days * 86400000) ->
  let s :=
    Subscription.mk (freshId Subscription._id (subscriptions db))
      (Payment.user p) planId Subscription.active now
      (now + days * 86400000) (Some (Payment._id p)) None None
      [] now in
  let db' := fst (activate rt now db reqUser body) in
  snd (activate rt now db reqUser body) = Json 201 None None (Some s) None
  /\ subscriptions db' = (subscriptions db ++ [s])%list
  /\ findById Payment._id (payments db') (Payment._id p)
     = Some (Payment.set_subscription (Some (Subscription._id s)) p)
  /\ plans db' = plans db.
Proof.
  intros Hpid Hplid Hst Hc Hl Hp Hu days _ s db'. subst db' reqUser s days.
  rewrite <- (days_ms_durationDays plan).
  unfold activate. rewrite Hpid, Hplid, Hst, Hc, Hp, Nat.eqb_refl, Hl.
  cbn [Payment.status_eqb negb].
  unfold Subscription_create.
  rewrite (findById_key _ _ _ _ Hp), Hp.
  match goal with
  | |- context [Payment_save rt now ?d (Payment.set_subscription (Some ?i) p)] =>
      pose proof (link_saved rt now d p i Hst) as Hk;
      destruct (Payment_save rt now d (Payment.set_subscription (Some i) p))
        as [db2 p2]
  end.
  cbv zeta in Hk. cbn [fst snd] in *.
  destruct Hk as (_ & Hf & Hsub & Hpl).
  split; [reflexivity|]. split; [exact Hsub|]. split; [exact Hf | exact Hpl].
Qed.

Lemma activate_creates_on_requested_plan_witness :
  nth_error (subscriptions (fst Scenario.secondActivated)) 1
  = Some (Subscription.mk 2%nat 7%nat 2%nat Subscription.active
            1710460804000 1718236804000 (Some 2%nat) None None []
            1710460804000).
Proof.
  edestruct (activate_creates_on_requested_plan Sample.runtime
               (Sample.t0 + 4000) Scenario.secondCaptured Scenario.alice
               (mkActivateBody (Some 2%nat) (Some 2%nat))
               secondCapturedPayment 2%nat Sample.Standard)
    as (_ & Hs & _).
  - reflexivity.
  - reflexivity.
  - vm_compute. reflexivity.
  - reflexivity.
  - reflexivity.
  - vm_compute. reflexivity.
  - reflexivity.
  - split; vm_compute; discriminate.
  - unfold Scenario.secondActivated. rewrite Hs.
    vm_compute. reflexivity.
Defined.

(** X19.  [activate] writes only when it answers with success: every
    error answer leaves the state as it was, and a payment that is not
    completed is always answered with an error. *)
Theorem activate_error_writes_nothing (rt : Runtime) (now : Date) (db : DB)
    (reqUser : ObjectId) (body : ActivateBody) :
  (forall db' m c,
      activate rt now db reqUser body = (db', ApiError m c) -> db' = db)
  /\ (forall p,
         ab_paymentId body = Some (Payment._id p) ->
         findById Payment._id (payments db) (Payment._id p) = Some p ->
         Payment.status p <> Payment.completed ->
         exists m c,
           activate rt now db reqUser body = (db, ApiError m c)).
Proof.
  split.
  - intros db' m c. unfold activate.
    destruct (ab_paymentId body) as [pid|], (ab_planId body) as [planId|];
      try (intros H; now injection H as <- _ _).
    destruct (findById Payment._id (payments db) pid) as [p|];
      [|intros H; now injection H as <- _ _].
    destruct (negb (Payment.status_eqb (Payment.status p) Payment.completed));
      [intros H; now injection H as <- _ _|].
    destruct (findById Plan._id (plans db) planId) as [plan|];
      [|intros H; now injection H as <- _ _].
    destruct (negb (Nat.eqb (Payment.user p) reqUser));
      [intros H; now injection H as <- _ _|].
    destruct (Payment.subscription p) as [sid|]; [discriminate|].
    destruct (Subscription_create now db _ _ _ _ _ _ _) as [d1 s1].
    destruct (Payment_save rt now d1 _) as [d2 p2]. discriminate.
  - intros p Hpid Hst Hs. unfold activate. rewrite Hpid.
    destruct (ab_planId body) as [planId|]; [|eauto].
    rewrite Hst.
    assert (He : Payment.status_eqb (Payment.status p) Payment.completed
                 = false).
    { destruct (Payment.status_eqb (Payment.status p) Payment.completed)
        eqn:E; [|reflexivity]. apply status_eqb_completed in E. congruence. }
    rewrite He. cbn [negb]. eauto.
Qed.

(** ** Cancellation *)

Lemma cancel_saved (now : Date) (db : DB) (sub : Subscription.t) :
  findById Subscription._id (subscriptions db) (Subscription._id sub)
  = Some sub ->
  Subscription.status sub <> Subscription.cancelled ->
  Subscription_save now db
    (Subscription.set_status Subscription.cancelled sub)
  = let sub' :=
      Subscription.set_cancelledAt
        (match Subscription.cancelledAt sub with
         | Some t => Some t
         | None => Some now
         end)
        (Subscription.set_status Subscription.cancelled sub) in
    (set_subscriptions
       (replaceById Subscription._id sub' (subscriptions db)) db, sub').
Proof.
  intros Hf Hs. unfold Subscription_save.
  cbn [Subscription._id Subscription.status Subscription.cancelledAt
       Subscription.set_status Subscription.status_eqb].
  rewrite Hf.
  destruct (Subscription.status sub) eqn:E; try congruence;
    cbn [Subscription.status_eqb negb andb];
    destruct (Subscription.cancelledAt sub) eqn:Ec; cbv zeta;
    unfold Subscription.set_cancelledAt, Subscription.set_status;
    cbn; rewrite ?E, ?Ec; reflexivity.
Qed.

(** X20.  Cancelling a subscription that is not cancelled yet, as its
    owner or as an admin, sets its status to cancelled and stamps
    [cancelledAt] with [now] unless a stamp is already there; the
    cancellation reason and every other field are kept, and no other
    subscription, payment or plan changes. *)
Theorem cancelSubscription_effect (now : Date) (db : DB) (reqUser : ReqUser)
    (id : ObjectId) (sub : Subscription.t) :
  findById Subscription._id (subscriptions db) id = Some sub ->
  Subscription.user sub = ru_id reqUser \/ ru_role reqUser = "admin" ->
  Subscription.status sub <> Subscription.cancelled ->
  let db' := fst (cancelSubscription now db reqUser id) in
  snd (cancelSubscription now db reqUser id)
  = Json 200 (Some "Subscription cancelled") None None None
  /\ findById Subscription._id (subscriptions db') id
     = Some (Subscription.mk (Subscription._id sub) (Subscription.user sub)
               (Subscription.plan sub) Subscription.cancelled
               (Subscription.startDate sub) (Subscription.endDate sub)
               (Subscription.paymentId sub)
               (match Subscription.cancelledAt sub with
                | Some t => Some t
                | None => Some now
                end)
               (Subscription.cancellationReason sub)
               (Subscription.billingHistory sub)
               (Subscription.createdAt sub))
  /\ (forall i, i <> id ->
        findById Subscription._id (subscriptions db') i
        = findById Subscription._id (subscriptions db) i)
  /\ payments db' = payments db
  /\ plans db' = plans db.
Proof.
  intros Hf Hauth Hs db'. subst db'. unfold cancelSubscription. rewrite Hf.
  assert (Ha : negb (Nat.eqb (Subscription.user sub) (ru_id reqUser))
               && negb (String.eqb (ru_role reqUser) "admin") = false).
  { destruct Hauth as [Hu|Hr].
    - rewrite Hu, Nat.eqb_refl. reflexivity.
    - rewrite Hr. cbn. apply andb_false_r. }
  rewrite Ha.
  assert (Hc : Subscription.status_eqb (Subscription.status sub)
                 Subscription.cancelled = false).
  { destruct (Subscription.status sub); try reflexivity. congruence. }
  rewrite Hc.
  pose proof (findById_key _ _ _ _ Hf) as Hk.
  rewrite cancel_saved by (rewrite ?Hk; assumption).
  cbv zeta. cbn [fst snd subscriptions set_subscriptions payments plans].
  split; [reflexivity|]. split.
  { rewrite <- Hk at 1.
    change (Subscription._id sub)
      with (Subscription._id
              (Subscription.set_cancelledAt
                 (match Subscription.cancelledAt sub with
                  | Some t => Some t
                  | None => Some now
                  end)
                 (Subscription.set_status Subscription.cancelled sub))) at 1.
    erewrite findById_replaceById_hit; [reflexivity|].
    cbn [Subscription._id Subscription.set_cancelledAt
         Subscription.set_status]. rewrite Hk. exact Hf. }
  split; [|split; reflexivity].
  intros i Hi. apply findById_replaceById_miss.
  cbn [Subscription._id Subscription.set_cancelledAt Subscription.set_status].
  congruence.
Qed.

Lemma cancelSubscription_effect_witness :
  option_map Subscription.cancelledAt
    (findById Subscription._id
       (subscriptions
          (fst (cancelSubscription (Sample.t0 + 7000) Scenario.paid
                  (mkReqUser Scenario.alice "user") 1%nat)))
       1%nat)
  = Some (Some (Sample.t0 + 7000)).
Proof.
  edestruct (cancelSubscription_effect (Sample.t0 + 7000) Scenario.paid
               (mkReqUser Scenario.alice "user") 1%nat)
    as (_ & Hf & _).
  - vm_compute. reflexivity.
  - left. reflexivity.
  - discriminate.
  - rewrite Hf. reflexivity.
Defined.

(** X21.  Cancelling is idempotent on the state: whatever the first call
    did, a second call for the same subscription by the same caller, at
    any later time, changes nothing. *)
Theorem cancelSubscription_idempotent (now now' : Date) (db : DB)
    (reqUser : ReqUser) (id : ObjectId) :
  fst (cancelSubscription now'
         (fst (cancelSubscription now db reqUser id)) reqUser id)
  = fst (cancelSubscription now db reqUser id).
Proof.
  unfold cancelSubscription at 2 3.
  destruct (findById Subscription._id (subscriptions db) id) as [sub|] eqn:Hf.
  2:{ cbn [fst]. unfold cancelSubscription. now rewrite Hf. }
  destruct (negb (Nat.eqb (Subscription.user sub) (ru_id reqUser))
            && negb (String.eqb (ru_role reqUser) "admin")) eqn:Ha.
  { cbn [fst]. unfold cancelSubscription. now rewrite Hf, Ha. }
  destruct (Subscription.status_eqb (Subscription.status sub)
              Subscription.cancelled) eqn:Hc.
  { cbn [fst]. unfold cancelSubscription. now rewrite Hf, Ha, Hc. }
  pose proof (findById_key _ _ _ _ Hf) as Hk.
  assert (Hs : Subscription.status sub <> Subscription.cancelled).
  { intros E. rewrite E in Hc. discriminate Hc. }
  rewrite cancel_saved by (rewrite ?Hk; assumption).
  cbv zeta. cbn [fst].
  set (sub' := Subscription.set_cancelledAt _ _).
  unfold cancelSubscription.
  cbn [subscriptions set_subscriptions].
  assert (Hf' : findById Subscription._id
                  (replaceById Subscription._id sub' (subscriptions db)) id
                = Some sub').
  { rewrite <- Hk.
    change (Subscription._id sub) with (Subscription._id sub').
    apply findById_replaceById_hit with (y := sub).
    change (Subscription._id sub') with (Subscription._id sub).
    now rewrite Hk. }
  rewrite Hf'.
  change (Subscription.user sub') with (Subscription.user sub).
  rewrite Ha. reflexivity.
Qed.

(** X22.  [cancelSubscription] writes only when it answers "Subscription
    cancelled": every error answer leaves the state as it was, and a
    caller who is neither the owner nor an admin is answered 403. *)
Theorem cancelSubscription_authorised_only (now : Date) (db : DB)
    (reqUser : ReqUser) (id : ObjectId) :
  (forall db' m c,
      cancelSubscription now db reqUser id = (db', ApiError m c) ->
      db' = db)
  /\ (forall sub,
         findById Subscription._id (subscriptions db) id = Some sub ->
         Subscription.user sub <> ru_id reqUser ->
         ru_role reqUser <> "admin" ->
         cancelSubscription now db reqUser id
         = (db, ApiError "Not authorized to cancel this subscription" 403)).
Proof.
  split.
  - intros db' m c. unfold cancelSubscription.
    destruct (findById Subscription._id (subscriptions db) id) as [sub|];
      [|intros H; now injection H as <- _ _].
    destruct (negb (Nat.eqb (Subscription.user sub) (ru_id reqUser))
              && negb (String.eqb (ru_role reqUser) "admin"));
      [intros H; now injection H as <- _ _|].
    destruct (Subscription.status_eqb (Subscription.status sub)
                Subscription.cancelled); [discriminate|].
    destruct (Subscription_save now db _). discriminate.
  - intros sub Hf Hu Hr. unfold cancelSubscription. rewrite Hf.
    apply Nat.eqb_neq in Hu. apply String.eqb_neq in Hr.
    now rewrite Hu, Hr.
Qed.

(** ** Renewal and the sweep *)

Lemma findById_sweep (t : Date) (db : DB) (i : ObjectId) :
  findById Subscription._id (subscriptions (expireOldSubscriptions t db)) i
  = option_map
      (fun s =>
         if Subscription.status_eqb (Subscription.status s)
              Subscription.active
            && (Subscription.endDate s <? t)
         then Subscription.set_status Subscription.expired s else s)
      (findById Subscription._id (subscriptions db) i).
Proof.
  unfold expireOldSubscriptions, findById.
  cbn [subscriptions set_subscriptions].
  induction (subscriptions db) as [|a l IH]; [reflexivity|].
  cbn [map find].
  assert (Hk : Subscription._id
                 (if Subscription.status_eqb (Subscription.status a)
                       Subscription.active
                     && (Subscription.endDate a <? t)
                  then Subscription.set_status Subscription.expired a
                  else a) = Subscription._id a).
  { destruct (_ && _); reflexivity. }
  rewrite Hk. destruct (Nat.eqb (Subscription._id a) i);
    [reflexivity | exact IH].
Qed.

(** X23.  A renewal that succeeded at [now] for a plan whose duration is
    not negative leaves the subscription out of reach of the sweep until
    the new end date: a sweep run afterwards at any time up to
    [now] plus the duration finds the renewed subscription active and
    leaves it exactly as the renewal wrote it. *)
Theorem renewed_subscription_survives_sweep (rt : Runtime) (now : Date)
    (db db' : DB) (body : VerifyBody) (p : Payment.t) (c : nat)
    (m : option string) (pay : option Payment.t) (s' : Subscription.t)
    (pl : option Plan.t) :
  accepted rt db body p ->
  unreconciled p ->
  Payment.action p = Payment.renew ->
  verifyPayment rt now db body = (db', Json c m pay (Some s') pl) ->
  exists plan,
    findById Plan._id (plans db) (Payment.plan p) = Some plan
    /\ findById Subscription._id (subscriptions db') (Subscription._id s')
       = Some s'
    /\ (0 <= durationDays plan ->
        forall t,
          t <= now + days_ms (durationDays plan) ->
          findById Subscription._id
            (subscriptions (expireOldSubscriptions t db'))
            (Subscription._id s') = Some s').
Proof.
  intros Ha Hu Hact H.
  rewrite (verifyPayment_accepted rt now db body p Ha) in H.
  destruct Ha as (_ & Hst & _).
  rewrite (reconcile_completing rt now db p body Hu) in H. cbv zeta in H.
  destruct (completing_payment rt now db p body Hst)
    as (Hst1 & Hcore & _ & Hsub & Hpl).
  destruct Hcore as (_ & _ & Hplan & Hlink & Ha1 & Htgt & _).
  rewrite Hpl, Hplan in H.
  destruct (findById Plan._id (plans db) (Payment.plan p)) as [plan|] eqn:Ep;
    [|discriminate].
  rewrite Ha1, Hact in H.
  destruct (handleRenew_success _ _ _ _ _ _ _ _ _ _ _ Hst1 H)
    as (sub & sub' & Hfind & Hos & Hs' & Hsubs & _).
  injection Hos as ->.
  assert (Hin : findById Subscription._id
                  (subscriptions
                     (fst (markCompleted rt now db p
                             (razorpay_payment_id body)
                             (razorpay_signature body) (Some body))))
                  (Subscription._id sub) = Some sub).
  { unfold findByRef in Hfind.
    destruct (match Payment.targetSubscription _ with
              | Some t => Some t
              | None => _
              end) as [i|]; [|discriminate].
    now rewrite (findById_key _ _ _ _ Hfind). }
  assert (Hk : Subscription._id sub' = Subscription._id sub)
    by (rewrite Hs'; reflexivity).
  assert (Hf : findById Subscription._id (subscriptions db')
                 (Subscription._id sub') = Some sub').
  { rewrite Hsubs. apply findById_replaceById_hit with (y := sub).
    now rewrite Hk. }
  exists plan. split; [reflexivity|]. split; [exact Hf|].
  intros Hd t Ht. rewrite findById_sweep, Hf. cbn [option_map].
  assert (He : (Subscription.endDate sub' <? t) = false).
  { apply Z.ltb_ge. rewrite Hs'. cbn [Subscription.endDate]. lia. }
  now rewrite He, andb_false_r.
Qed.

Lemma renewed_subscription_survives_sweep_witness :
  option_map Subscription.status
    (findById Subscription._id
       (subscriptions
          (expireOldSubscriptions (Sample.t0 + days_ms 60)
             (fst Scenario.firstRenewal)))
       1%nat)
  = Some Subscription.active.
Proof.
  edestruct (renewed_subscription_survives_sweep Sample.runtime
               (Sample.t0 + 5000) Scenario.renewOrders
               (fst Scenario.firstRenewal)
               (Sample.verifyBodyFor Scenario.renewOrders 2%nat "pay_2")
               renewPayment)
    as (plan & Hp & _ & Hs).
  - repeat split; vm_compute; reflexivity.
  - right. reflexivity.
  - reflexivity.
  - vm_compute. reflexivity.
  - vm_compute in Hp. injection Hp as <-.
    cbn [Subscription._id] in Hs.
    rewrite (Hs ltac:(vm_compute; discriminate) (Sample.t0 + days_ms 60)
               ltac:(vm_compute; discriminate)).
    reflexivity.
Defined.

(** ** The plan catalog's pre-save hook *)

Lemma DEFAULT_DURATIONS_name (name : string) (def : Z) :
  DEFAULT_DURATIONS name = Some def ->
  truthy name = true
  /\ def <> 0
  /\ exists meta,
       DEFAULT_PLAN_META name = Some meta
       /\ meta_priority meta <> 0
       /\ (name <> "Premium" -> meta_renewLimit meta <> 0).
Proof.
  unfold DEFAULT_DURATIONS, DEFAULT_PLAN_META.
  destruct (String.eqb name "Basic") eqn:E1.
  { apply String.eqb_eq in E1. subst name. intros H. injection H as <-.
    repeat split; try discriminate. eexists. repeat split; discriminate. }
  destruct (String.eqb name "Standard") eqn:E2.
  { apply String.eqb_eq in E2. subst name. intros H. injection H as <-.
    repeat split; try discriminate. eexists. repeat split; discriminate. }
  destruct (String.eqb name "Premium") eqn:E3; [|discriminate].
  apply String.eqb_eq in E3. subst name. intros H. injection H as <-.
  repeat split; try discriminate. eexists.
  split; [reflexivity|]. split; [discriminate|]. intros Hn. now elim Hn.
Qed.

(** X24.  A new plan named Basic, Standard or Premium, built from what
    the caller gives with the schema defaults for what it omits: the hook
    sets its duration to the default of the name (30, 90, 365 days)
    whatever was given; a priority or renewal limit given as 0 is replaced
    by the value in the table of the name, but an omitted one has the
    schema default (priority 1, renewal limit 2) and keeps it, so that the
    table never applies to it: a Premium plan created without them is
    stored with priority 1 and renewal limit 2, not 3 and 0; an omitted
    downgrade flag is false for every name.  A stored document keeps its
    duration unless it is 0 or missing, and keeps its renewal limit,
    priority and downgrade flag. *)
Theorem plan_hook_name_defaults (d : PlanDoc.t) (def : Z) :
  DEFAULT_DURATIONS (PlanDoc.name d) = Some def ->
  let d' := Plan_pre_save true (Plan_schema_defaults d) in
  let meta := DEFAULT_PLAN_META (PlanDoc.name d) in
  PlanDoc.duration d' = Some def
  /\ PlanDoc.priority d'
     = match PlanDoc.priority d with
       | None => Some 1
       | Some n => if n =? 0 then option_map meta_priority meta else Some n
       end
  /\ PlanDoc.renewLimit d'
     = match PlanDoc.renewLimit d with
       | None => Some 2
       | Some n => if n =? 0 then option_map meta_renewLimit meta else Some n
       end
  /\ PlanDoc.allowDowngrade d'
     = Some (match PlanDoc.allowDowngrade d with
             | Some b => b
             | None => false
             end)
  /\ PlanDoc.duration (Plan_pre_save false d)
     = (if falsyNumber (PlanDoc.duration d)
        then Some def else PlanDoc.duration d)
  /\ PlanDoc.renewLimit (Plan_pre_save false d) = PlanDoc.renewLimit d
  /\ PlanDoc.priority (Plan_pre_save false d) = PlanDoc.priority d
  /\ PlanDoc.allowDowngrade (Plan_pre_save false d)
     = PlanDoc.allowDowngrade d.
Proof.
  intros Hd d' meta0. subst d' meta0.
  destruct (DEFAULT_DURATIONS_name _ _ Hd)
    as (Ht & Hdef & meta & Hm & Hp & Hr).
  apply Z.eqb_neq in Hdef. apply Z.eqb_neq in Hp.
  unfold Plan_pre_save, Plan_schema_defaults.
  cbn [PlanDoc.name PlanDoc.duration PlanDoc.features PlanDoc.priority
       PlanDoc.renewLimit PlanDoc.allowDowngrade PlanDoc.billingCycle].
  rewrite Ht, Hd, Hm, Hdef, Hp.
  cbn [andb orb negb]. rewrite orb_true_r, orb_false_r.
  cbn [PlanDoc.duration PlanDoc.renewLimit PlanDoc.priority
       PlanDoc.allowDowngrade option_map].
  split; [reflexivity|]. split.
  { destruct (PlanDoc.priority d) as [n|]; cbn [falsyNumber];
      [destruct (n =? 0)|]; reflexivity. }
  split.
  { destruct (PlanDoc.renewLimit d) as [n|]; cbn [falsyNumber];
      [destruct (n =? 0)|]; reflexivity. }
  split.
  { destruct (PlanDoc.allowDowngrade d); reflexivity. }
  destruct (falsyNumber (PlanDoc.duration d));
    cbn [PlanDoc.duration PlanDoc.renewLimit PlanDoc.priority
         PlanDoc.allowDowngrade]; repeat split; reflexivity.
Qed.

Lemma plan_hook_name_defaults_witness :
  let d' :=
    Plan_pre_save true
      (Plan_schema_defaults
         (PlanDoc.mk "Premium" (Some 45) PlanDoc.undefined None None None
            None)) in
  PlanDoc.duration d' = Some 365
  /\ PlanDoc.priority d' = Some 1
  /\ PlanDoc.renewLimit d' = Some 2
  /\ PlanDoc.allowDowngrade d' = Some false.
Proof.
  destruct (plan_hook_name_defaults
              (PlanDoc.mk "Premium" (Some 45) PlanDoc.undefined None None
                 None None) 365 eq_refl)
    as (Hd & Hp & Hr & Ha & _).
  cbv zeta. split; [exact Hd|]. split; [exact Hp|].
  split; [exact Hr | exact Ha].
Defined.

Lemma PlanDoc_ext (d1 d2 : PlanDoc.t) :
  PlanDoc.name d1 = PlanDoc.name d2 ->
  PlanDoc.duration d1 = PlanDoc.duration d2 ->
  PlanDoc.features d1 = PlanDoc.features d2 ->
  PlanDoc.priority d1 = PlanDoc.priority d2 ->
  PlanDoc.renewLimit d1 = PlanDoc.renewLimit d2 ->
  PlanDoc.allowDowngrade d1 = PlanDoc.allowDowngrade d2 ->
  PlanDoc.billingCycle d1 = PlanDoc.billingCycle d2 ->
  d1 = d2.
Proof.
  destruct d1, d2. cbn. intros. subst. reflexivity.
Qed.

(** The hook field by field. *)
Lemma Plan_pre_save_fields (isNew : bool) (d : PlanDoc.t) :
  let new := truthy (PlanDoc.name d) && isNew in
  let meta := DEFAULT_PLAN_META (PlanDoc.name d) in
  PlanDoc.name (Plan_pre_save isNew d) = PlanDoc.name d
  /\ PlanDoc.duration (Plan_pre_save isNew d)
     = (if truthy (PlanDoc.name d)
           && (falsyNumber (PlanDoc.duration d) || isNew)
        then match DEFAULT_DURATIONS (PlanDoc.name d) with
             | Some def => if def =? 0 then PlanDoc.duration d else Some def
             | None => PlanDoc.duration d
             end
        else PlanDoc.duration d)
  /\ PlanDoc.features (Plan_pre_save isNew d)
     = match PlanDoc.features d with
       | PlanDoc.array items => PlanDoc.array items
       | PlanDoc.scalar v =>
           if truthy v then PlanDoc.array [v] else PlanDoc.array []
       | PlanDoc.undefined => PlanDoc.array []
       end
  /\ PlanDoc.priority (Plan_pre_save isNew d)
     = match meta with
       | Some m =>
           if new && negb (meta_priority m =? 0)
              && falsyNumber (PlanDoc.priority d)
           then Some (meta_priority m) else PlanDoc.priority d
       | None => PlanDoc.priority d
       end
  /\ PlanDoc.renewLimit (Plan_pre_save isNew d)
     = match meta with
       | Some m =>
           if new && falsyNumber (PlanDoc.renewLimit d)
           then Some (meta_renewLimit m) else PlanDoc.renewLimit d
       | None => PlanDoc.renewLimit d
       end
  /\ PlanDoc.allowDowngrade (Plan_pre_save isNew d)
     = match meta, PlanDoc.allowDowngrade d with
       | Some m, None =>
           if new then Some (meta_allowDowngrade m) else None
       | _, a => a
       end
  /\ PlanDoc.billingCycle (Plan_pre_save isNew d)
     = match meta with
       | Some m =>
           if new && truthy (meta_billingCycle m)
              && negb (truthy_opt (PlanDoc.billingCycle d))
           then Some (meta_billingCycle m) else PlanDoc.billingCycle d
       | None => PlanDoc.billingCycle d
       end.
Proof.
  cbv zeta. unfold Plan_pre_save.
  destruct (truthy (PlanDoc.name d) && isNew);
    destruct (DEFAULT_PLAN_META (PlanDoc.name d)) as [m|];
    cbn [andb PlanDoc.name PlanDoc.duration PlanDoc.features
         PlanDoc.priority PlanDoc.renewLimit PlanDoc.allowDowngrade
         PlanDoc.billingCycle];
    repeat split; try reflexivity;
    destruct (PlanDoc.allowDowngrade d); reflexivity.
Qed.

(** X25.  Saving a plan again changes nothing: for a plan whose name the
    schema admits, the hook run on its own result, as a stored document or
    with the same [isNew] flag, returns that result. *)
Theorem plan_hook_idempotent (isNew : bool) (d : PlanDoc.t) :
  In (PlanDoc.name d) ALLOWED_PLAN_NAMES ->
  Plan_pre_save false (Plan_pre_save isNew d) = Plan_pre_save isNew d
  /\ Plan_pre_save isNew (Plan_pre_save isNew d) = Plan_pre_save isNew d.
Proof.
  intros _.
  assert (H : forall again : bool,
            again = false \/ again = isNew ->
            Plan_pre_save again (Plan_pre_save isNew d)
            = Plan_pre_save isNew d).
  2: { split; apply H; auto. }
  intros again Hagain.
  destruct (Plan_pre_save_fields isNew d)
    as (Hn & Hd & Hf & Hp & Hr & Ha & Hb).
  destruct (Plan_pre_save_fields again (Plan_pre_save isNew d))
    as (Hn' & Hd' & Hf' & Hp' & Hr' & Ha' & Hb').
  cbv zeta in *.
  rewrite Hn in Hn', Hd', Hp', Hr', Ha', Hb'.
  apply PlanDoc_ext;
    [ now rewrite Hn
    | rewrite Hd', Hd | rewrite Hf', Hf | rewrite Hp', Hp
    | rewrite Hr', Hr | rewrite Ha', Ha | rewrite Hb', Hb ];
    clear Hn Hd Hf Hp Hr Ha Hb Hn' Hd' Hf' Hp' Hr' Ha' Hb';
    destruct d as [name dur feat prio lim ad bc];
    cbn [PlanDoc.name PlanDoc.duration PlanDoc.features PlanDoc.priority
         PlanDoc.renewLimit PlanDoc.allowDowngrade PlanDoc.billingCycle];
    generalize (truthy name) (DEFAULT_DURATIONS name)
               (DEFAULT_PLAN_META name);
    intros t dd dm;
    unfold falsyNumber, truthy_opt;
    destruct Hagain; subst again;
    destruct t, isNew, dd as [def|], dm as [[mp mr ma mb]|];
    cbn [andb orb negb meta_priority meta_renewLimit meta_allowDowngrade
         meta_billingCycle];
    repeat match goal with
      | |- context [?z =? 0] =>
          let E := fresh "E" in
          destruct (z =? 0) eqn:E;
          cbn [andb orb negb]; rewrite ?E
      | |- context [match ?o with Some _ => _ | None => _ end] =>
          is_var o; destruct o; cbn [andb orb negb]
      | |- context [match ?o with PlanDoc.array _ => _ | _ => _ end] =>
          is_var o; destruct o; cbn [andb orb negb]
      | |- context [truthy ?s] =>
          let E := fresh "E" in
          destruct (truthy s) eqn:E;
          cbn [andb orb negb]; rewrite ?E
      end;
    try reflexivity; try congruence.
Qed.

Lemma plan_hook_idempotent_witness :
  Plan_pre_save false
    (Plan_pre_save true
       (PlanDoc.mk "Standard" None (PlanDoc.scalar "HD") None None None None))
  = Plan_pre_save true
      (PlanDoc.mk "Standard" None (PlanDoc.scalar "HD") None None None None).
Proof.
  refine (proj1 (plan_hook_idempotent true
                   (PlanDoc.mk "Standard" None (PlanDoc.scalar "HD") None
                      None None None) _)).
  right. left. reflexivity.
Defined.

(** ** Invoices *)

(** What a served invoice implies, and what each refusal leaves behind. *)
Lemma getInvoice_cases (rt : Runtime) (env : InvoiceEnv) (now : Date)
    (db : DB) (reqUser : User.t) (paymentId : option ObjectId) :
  (exists m c,
      getInvoice rt env now db reqUser paymentId = (db, InvoiceError m c)
      /\ (c = 400 \/ c = 403 \/ c = 404 \/ c = 500)%nat)
  \/ (exists p body,
         findByRef Payment._id (payments db) paymentId = Some p
         /\ Payment.status p = Payment.completed
         /\ (Payment.user p = User._id reqUser
             \/ User.role reqUser = "admin")
         /\ generateInvoicePdfBuffer env
              (invoiceDataOf env now db reqUser p) = Some body
         /\ getInvoice rt env now db reqUser paymentId
            = (match Payment.invoiceGeneratedAt p with
               | None =>
                   if save_resolves env
                   then set_payments
                          (replaceById Payment._id
                             (Payment.set_invoiceGeneratedAt (Some now) p)
                             (payments db)) db
                   else db
               | Some _ => db
               end,
               InvoicePdf
                 (inv_invoiceNumber (invoiceDataOf env now db reqUser p)
                    ++ ".pdf") body)).
Proof.
  unfold getInvoice.
  destruct paymentId as [id|]; [|left; eauto 10].
  destruct (findById Payment._id (payments db) id) as [p|] eqn:Ep;
    [|left; eauto 10].
  destruct (negb _ && negb (String.eqb (User.role reqUser) "admin")) eqn:Ea;
    [left; eauto 10|].
  destruct (Payment.status_eqb (Payment.status p) Payment.completed) eqn:Es;
    cbn [negb]; [|left; eauto 10].
  destruct (generateInvoicePdfBuffer env _) as [body|] eqn:Eg;
    [|left; eauto 10].
  right. exists p, body. cbn [findByRef]. rewrite Ep.
  apply status_eqb_completed in Es.
  split; [reflexivity|]. split; [exact Es|]. split.
  { apply andb_false_iff in Ea. destruct Ea as [Ea|Ea].
    - left. apply negb_false_iff in Ea.
      destruct (findById User._id (users env) (Payment.user p)) as [u|] eqn:Eu;
        [|discriminate].
      apply Nat.eqb_eq in Ea. rewrite <- Ea.
      symmetry. exact (findById_key _ _ _ _ Eu).
    - right. apply negb_false_iff in Ea. now apply String.eqb_eq. }
  split; [exact Eg|].
  destruct (Payment.invoiceGeneratedAt p); [reflexivity|].
  destruct (save_resolves env); [|reflexivity].
  f_equal. unfold Payment_save.
  cbn [Payment._id Payment.status Payment.set_invoiceGeneratedAt fst].
  rewrite (findById_key _ _ _ _ Ep), Ep.
  rewrite Es. cbn [Payment.status_eqb negb].
  rewrite Payment_pre_save_stored. reflexivity.
Qed.

(** X26.  An invoice is served only for a stored payment that is completed,
    to its payer or to an admin, and its body is what the generator made of
    that payment's data; every other request is refused with 400, 403, 404
    or 500 and writes nothing. *)
Theorem getInvoice_guards (rt : Runtime) (env : InvoiceEnv) (now : Date)
    (db : DB) (reqUser : User.t) (paymentId : option ObjectId) :
  match snd (getInvoice rt env now db reqUser paymentId) with
  | InvoiceError _ c =>
      fst (getInvoice rt env now db reqUser paymentId) = db
      /\ (c = 400 \/ c = 403 \/ c = 404 \/ c = 500)%nat
  | InvoicePdf _ body =>
      exists p,
        findByRef Payment._id (payments db) paymentId = Some p
        /\ Payment.status p = Payment.completed
        /\ (Payment.user p = User._id reqUser \/ User.role reqUser = "admin")
        /\ generateInvoicePdfBuffer env (invoiceDataOf env now db reqUser p)
           = Some body
  end.
Proof.
  destruct (getInvoice_cases rt env now db reqUser paymentId)
    as [(m & c & E & Hc)|(p & body & Hp & Hs & Ho & Hg & E)];
    rewrite E; cbn [fst snd].
  - split; [reflexivity | exact Hc].
  - exists p. auto.
Qed.

(** X27.  All that [getInvoice] can write is the [invoiceGeneratedAt] of
    the requested payment, and only where there was none: plans and
    subscriptions stay, and every stored payment reads back either as it
    was or, for the requested one without a stamp, with [now] as its
    [invoiceGeneratedAt] and nothing else changed, its invoice number
    included. *)
Theorem getInvoice_stamps_only (rt : Runtime) (env : InvoiceEnv) (now : Date)
    (db : DB) (reqUser : User.t) (paymentId : option ObjectId)
    (i : ObjectId) (q : Payment.t) :
  findById Payment._id (payments db) i = Some q ->
  let db' := fst (getInvoice rt env now db reqUser paymentId) in
  plans db' = plans db
  /\ subscriptions db' = subscriptions db
  /\ (findById Payment._id (payments db') i = Some q
      \/ paymentId = Some i
         /\ Payment.invoiceGeneratedAt q = None
         /\ findById Payment._id (payments db') i
            = Some (Payment.set_invoiceGeneratedAt (Some now) q)).
Proof.
  intros Hq db'. subst db'.
  destruct (getInvoice_cases rt env now db reqUser paymentId)
    as [(m & c & E & Hc)|(p & body & Hp & Hs & Ho & Hg & E)];
    rewrite E; cbn [fst]; [auto|].
  destruct (Payment.invoiceGeneratedAt p) eqn:Eg; [auto|].
  destruct (save_resolves env); [|auto].
  cbn [plans subscriptions payments set_payments].
  split; [reflexivity|]. split; [reflexivity|].
  destruct paymentId as [id|]; [|discriminate]. cbn [findByRef] in Hp.
  pose proof (findById_key _ _ _ _ Hp) as Hk.
  destruct (Nat.eq_dec i id) as [->|Hne].
  - right. assert (q = p) by congruence. subst q.
    split; [reflexivity|]. split; [exact Eg|].
    rewrite <- Hk in Hp |- *.
    apply (findById_replaceById_hit Payment._id (payments db)
             (Payment.set_invoiceGeneratedAt (Some now) p) p).
    exact Hp.
  - left. rewrite findById_replaceById_miss; [exact Hq|].
    cbn [Payment._id Payment.set_invoiceGeneratedAt]. congruence.
Qed.

Lemma getInvoice_stamps_only_witness :
  findById Payment._id
    (payments (fst (getInvoice Sample.runtime (invoiceEnv true)
                      (Sample.t0 + 9000) paidUnstamped aliceUser
                      (Some 1%nat)))) 1%nat
  = Some (Payment.set_invoiceGeneratedAt (Some (Sample.t0 + 9000))
            (Payment.set_invoiceGeneratedAt None Scenario.payment1)).
Proof.
  destruct (getInvoice_stamps_only Sample.runtime (invoiceEnv true)
              (Sample.t0 + 9000) paidUnstamped aliceUser (Some 1%nat) 1%nat
              (Payment.set_invoiceGeneratedAt None Scenario.payment1)
              eq_refl) as (_ & _ & [H|(_ & _ & H)]).
  - vm_compute in H. discriminate H.
  - exact H.
Defined.

(** ** The stamp invariant of the ledger *)

Lemma replaceById_absent {A : Type} (key : A -> ObjectId) (l : list A)
    (x : A) :
  findById key l (key x) = None -> replaceById key x l = l.
Proof.
  unfold findById, replaceById. intros H.
  rewrite <- (map_id l) at 2. apply map_ext_in. intros a Ha.
  pose proof (find_none _ _ H a Ha) as E. cbn beta in E. now rewrite E.
Qed.

Lemma In_replaceById {A : Type} (key : A -> ObjectId) (l : list A)
    (x y : A) :
  In y (replaceById key x l) -> y = x \/ In y l.
Proof.
  unfold replaceById. intros H. apply in_map_iff in H.
  destruct H as (a & Ha & Hin).
  destruct (Nat.eqb (key a) (key x)); subst; auto.
Qed.

Lemma replaceById_keys {A : Type} (key : A -> ObjectId) (l : list A)
    (x : A) :
  map key (replaceById key x l) = map key l.
Proof.
  unfold replaceById. rewrite map_map. apply map_ext. intros a.
  destruct (Nat.eqb (key a) (key x)) eqn:E; [|reflexivity].
  apply Nat.eqb_eq in E. now rewrite E.
Qed.

Lemma findById_NoDup {A : Type} (key : A -> ObjectId) (l : list A) (x : A) :
  NoDup (map key l) -> In x l -> findById key l (key x) = Some x.
Proof.
  unfold findById. induction l as [|a l IH]; cbn [map find In]; [tauto|].
  intros Hnd [->|Hin].
  - now rewrite Nat.eqb_refl.
  - apply NoDup_cons_iff in Hnd. destruct Hnd as [Hna Hnd].
    destruct (Nat.eqb (key a) (key x)) eqn:E; [|now apply IH].
    apply Nat.eqb_eq in E. exfalso. apply Hna. rewrite E.
    now apply in_map.
Qed.

Lemma ledger_stamped_payments (db db' : DB) :
  payments db' = payments db -> ledger_stamped db -> ledger_stamped db'.
Proof. unfold ledger_stamped. intros ->. trivial. Qed.

Lemma invoice_synced_payments (db db' : DB) (p : Payment.t) :
  payments db' = payments db -> invoice_synced db p -> invoice_synced db' p.
Proof. unfold invoice_synced. intros ->. trivial. Qed.

Lemma invoice_synced_ext (db : DB) (p q : Payment.t) :
  Payment._id q = Payment._id p ->
  Payment.invoiceNumber q = Payment.invoiceNumber p ->
  Payment.invoiceGeneratedAt q = Payment.invoiceGeneratedAt p ->
  invoice_synced db p -> invoice_synced db q.
Proof. unfold invoice_synced. intros -> -> ->. trivial. Qed.

Lemma invoice_synced_stored (db : DB) (i : ObjectId) (p : Payment.t) :
  findById Payment._id (payments db) i = Some p -> invoice_synced db p.
Proof.
  intros H o Ho. rewrite (findById_key _ _ _ _ H) in Ho.
  assert (o = p) by congruence. subst o. split; reflexivity.
Qed.

(** [save] keeps the invariant, and leaves the saved document in step with
    the store. *)
Lemma Payment_save_stamped (rt : Runtime) (now : Date) (db : DB)
    (p : Payment.t) :
  ledger_stamped db -> invoice_synced db p ->
  ledger_stamped (fst (Payment_save rt now db p))
  /\ invoice_synced (fst (Payment_save rt now db p))
       (snd (Payment_save rt now db p)).
Proof.
  intros Hl Hs.
  destruct (findById Payment._id (payments db) (Payment._id p)) as [o|] eqn:Eo.
  - pose proof (Payment_save_stored rt now db p o Eo) as Hst.
    pose proof (Payment_save_id rt now db p) as Hid.
    destruct Hl as [Hnd Hl].
    split; [split|].
    + unfold Payment_save. cbn [fst payments set_payments].
      now rewrite replaceById_keys.
    + assert (Hp' : stamped (snd (Payment_save rt now db p))).
      { destruct (Hs o Eo) as [Hn Hg].
        pose proof (Hl o (findById_In _ _ _ _ Eo)) as Ho.
        unfold Payment_save. rewrite Eo. cbn [snd].
        unfold Payment_pre_save. cbn [andb].
        destruct (negb (Payment.status_eqb (Payment.status o)
                          (Payment.status p))
                  && Payment.status_eqb (Payment.status p) Payment.completed
                  && negb (truthy_opt (Payment.invoiceNumber p))) eqn:Ec.
        - intros _. discriminate.
        - intros Hc. rewrite Hg. apply Ho.
          destruct (truthy_opt (Payment.invoiceNumber p)) eqn:Et.
          + right. now rewrite <- Hn.
          + destruct Hc as [Hc|Hc]; [|discriminate]. left.
            rewrite Hc in Ec. cbn [Payment.status_eqb negb andb] in Ec.
            rewrite !andb_true_r in Ec.
            apply negb_false_iff, status_eqb_completed in Ec. exact Ec. }
      intros q Hq. unfold Payment_save in Hq. cbn [fst payments set_payments]
        in Hq.
      apply In_replaceById in Hq. destruct Hq as [->|Hq]; [|now apply Hl].
      exact Hp'.
    + intros o' Ho'. rewrite Hid, Hst in Ho'.
      injection Ho' as <-. split; reflexivity.
  - assert (E : fst (Payment_save rt now db p) = db).
    { unfold Payment_save. cbn [fst].
      rewrite replaceById_absent
        by (rewrite Payment_pre_save_id; exact Eo).
      destruct db; reflexivity. }
    rewrite E. split; [exact Hl|].
    intros o Ho. rewrite Payment_save_id, Eo in Ho. discriminate.
Qed.

Lemma markFailed_stamped (rt : Runtime) (now : Date) (db : DB)
    (p : Payment.t) (reason : string) :
  ledger_stamped db -> invoice_synced db p ->
  ledger_stamped (fst (markFailed rt now db p reason)).
Proof.
  intros Hl Hs. unfold markFailed.
  apply Payment_save_stamped; [exact Hl|].
  revert Hs. apply invoice_synced_ext; reflexivity.
Qed.

Lemma markCompleted_stamped (rt : Runtime) (now : Date) (db : DB)
    (p : Payment.t) (a b : string) (g : option VerifyBody) :
  ledger_stamped db -> invoice_synced db p ->
  ledger_stamped (fst (markCompleted rt now db p a b g))
  /\ invoice_synced (fst (markCompleted rt now db p a b g))
       (snd (markCompleted rt now db p a b g)).
Proof.
  intros Hl Hs. unfold markCompleted.
  apply Payment_save_stamped; [exact Hl|].
  revert Hs. apply invoice_synced_ext;
    destruct (truthy a), (truthy b), g; reflexivity.
Qed.

Lemma link_stamped (rt : Runtime) (now : Date) (db : DB) (p : Payment.t)
    (sid : ObjectId) :
  ledger_stamped db -> invoice_synced db p ->
  ledger_stamped
    (fst (Payment_save rt now db (Payment.set_subscription (Some sid) p))).
Proof.
  intros Hl Hs. apply Payment_save_stamped; [exact Hl|].
  revert Hs. apply invoice_synced_ext; reflexivity.
Qed.

(** Discharges a branch that ends in [markFailed] or in the save that links
    the subscription. *)
Ltac stamped_branch Hl Hs :=
  match goal with
  | |- context [markFailed ?rt ?now ?db ?p ?reason] =>
      pose proof (markFailed_stamped rt now db p reason Hl Hs);
      destruct (markFailed rt now db p reason); assumption
  | |- context [Payment_save ?rt ?now ?db
                  (Payment.set_subscription (Some ?sid) ?p)] =>
      pose proof (link_stamped rt now db p sid Hl Hs);
      destruct (Payment_save rt now db
                  (Payment.set_subscription (Some sid) p)); assumption
  end.

Lemma handleRenew_stamped (rt : Runtime) (now : Date) (db : DB)
    (payment : Payment.t) (plan : Plan.t) :
  ledger_stamped db -> invoice_synced db payment ->
  ledger_stamped (fst (handleRenew rt now db payment plan)).
Proof.
  intros Hl Hs. unfold handleRenew.
  destruct (findByRef Subscription._id (subscriptions db) _) as [sub|];
    [|stamped_branch Hl Hs].
  destruct (findById Plan._id (plans db) (Subscription.plan sub));
    [|exact Hl].
  match goal with |- context [if ?c then _ else _] => destruct c end;
    [stamped_branch Hl Hs|].
  match goal with
  | |- context [Subscription_save now db ?s] =>
      pose proof (Subscription_save_payments now db s) as Hp;
      destruct (Subscription_save now db s) as [d1 s1]
  end.
  cbn [fst] in Hp.
  pose proof (ledger_stamped_payments _ _ Hp Hl) as Hl1.
  pose proof (invoice_synced_payments _ _ _ Hp Hs) as Hs1.
  stamped_branch Hl1 Hs1.
Qed.

Lemma handleUpgrade_stamped (rt : Runtime) (now : Date) (db : DB)
    (payment : Payment.t) (plan : Plan.t) :
  ledger_stamped db -> invoice_synced db payment ->
  ledger_stamped (fst (handleUpgrade rt now db payment plan)).
Proof.
  intros Hl Hs. unfold handleUpgrade.
  destruct (Payment.targetSubscription payment) as [target|];
    [|stamped_branch Hl Hs].
  destruct (findById Subscription._id (subscriptions db) target) as [oldSub|];
    [|stamped_branch Hl Hs].
  destruct (findById Plan._id (plans db) (Subscription.plan oldSub))
    as [oldPlan|]; [|stamped_branch Hl Hs].
  destruct (Plan.priority plan <=? Plan.priority oldPlan);
    [stamped_branch Hl Hs|].
  match goal with
  | |- context [Subscription_save now db ?s] =>
      pose proof (Subscription_save_payments now db s) as Hp;
      destruct (Subscription_save now db s) as [d1 s1]
  end.
  cbn [fst] in Hp.
  match goal with
  | |- context [Subscription_create now d1 ?u ?pl ?pid ?st ?sd ?ed ?h] =>
      pose proof (Subscription_create_payments now d1 u pl pid st sd ed h)
        as Hp2;
      destruct (Subscription_create now d1 u pl pid st sd ed h) as [d2 s2]
  end.
  cbn [fst] in Hp2. rewrite Hp in Hp2.
  pose proof (ledger_stamped_payments _ _ Hp2 Hl) as Hl1.
  pose proof (invoice_synced_payments _ _ _ Hp2 Hs) as Hs1.
  stamped_branch Hl1 Hs1.
Qed.

Lemma handlePurchase_stamped (rt : Runtime) (now : Date) (db : DB)
    (payment : Payment.t) (plan : Plan.t) (ex : option Subscription.t) :
  ledger_stamped db -> invoice_synced db payment ->
  ledger_stamped (fst (handlePurchase rt now db payment plan ex)).
Proof.
  intros Hl Hs. unfold handlePurchase.
  match goal with |- context [if ?c then _ else _] => destruct c end;
    [stamped_branch Hl Hs|].
  match goal with
  | |- context [Subscription_create now db ?u ?pl ?pid ?st ?sd ?ed ?h] =>
      pose proof (Subscription_create_payments now db u pl pid st sd ed h)
        as Hp;
      destruct (Subscription_create now db u pl pid st sd ed h) as [d1 s1]
  end.
  cbn [fst] in Hp.
  pose proof (ledger_stamped_payments _ _ Hp Hl) as Hl1.
  pose proof (invoice_synced_payments _ _ _ Hp Hs) as Hs1.
  stamped_branch Hl1 Hs1.
Qed.

Lemma reconcile_stamped (rt : Runtime) (now : Date) (db : DB)
    (p : Payment.t) (body : VerifyBody) :
  ledger_stamped db -> invoice_synced db p ->
  ledger_stamped (fst (reconcile rt now db p body)).
Proof.
  intros Hl Hs.
  destruct (linked_or_unreconciled p) as [[sid Hk]|Hu].
  - rewrite (reconcile_replay _ _ _ _ _ sid Hk). exact Hl.
  - rewrite (reconcile_completing _ _ _ _ _ Hu). cbv zeta.
    destruct (markCompleted_stamped rt now db p (razorpay_payment_id body)
                (razorpay_signature body) (Some body) Hl Hs) as [Hl1 Hs1].
    destruct (markCompleted rt now db p _ _ _) as [db1 p1].
    cbn [fst snd] in *.
    destruct (findById Plan._id (plans db1) (Payment.plan p1)) as [plan|];
      [|stamped_branch Hl1 Hs1].
    destruct (Payment.action p1).
    + now apply handlePurchase_stamped.
    + now apply handleRenew_stamped.
    + now apply handleUpgrade_stamped.
Qed.

Lemma verifyPayment_stamped (rt : Runtime) (now : Date) (db : DB)
    (body : VerifyBody) :
  ledger_stamped db -> ledger_stamped (fst (verifyPayment rt now db body)).
Proof.
  intros Hl. unfold verifyPayment.
  destruct (vb_paymentId body) as [pid|]; [|exact Hl].
  destruct (missingFields body); [exact Hl|].
  destruct (findById Payment._id (payments db) pid) as [p|] eqn:Ep;
    [|exact Hl].
  pose proof (invoice_synced_stored db pid p Ep) as Hs.
  destruct (orderIdMismatch p body); [exact Hl|].
  destruct (verifyRazorpaySignature rt _ _ _) as [[|]|].
  - now apply reconcile_stamped.
  - stamped_branch Hl Hs.
  - stamped_branch Hl Hs.
Qed.

Lemma Payment_create_stamped (rt : Runtime) (now : Date) (db : DB)
    (user : ObjectId) (plan : Plan.t) (action : Payment.action_t)
    (target : option ObjectId) :
  ledger_stamped db ->
  let r := Payment_create rt now db user (Plan._id plan) (Plan.amount plan)
             action target in
  ledger_stamped (fst r) /\ invoice_synced (fst r) (snd r).
Proof.
  intros [Hnd Hl] r. subst r. rewrite Payment_create_eq. cbn [fst snd].
  split; [split|].
  - cbn [payments set_payments]. rewrite map_app. cbn [map].
    apply NoDup_app; [exact Hnd | repeat constructor; intros [] |].
    intros i Hi [<-|[]]. apply in_map_iff in Hi.
    destruct Hi as (a & Ha & Hin).
    pose proof (freshId_above Payment._id (payments db) a Hin) as Hlt.
    cbn [Payment._id pendingPayment] in Ha. lia.
  - intros q Hq. cbn [payments set_payments] in Hq.
    apply in_app_iff in Hq. destruct Hq as [Hq|[<-|[]]]; [now apply Hl|].
    intros [H|H]; discriminate H.
  - intros o Ho. cbn [payments set_payments] in Ho.
    rewrite findById_app_none in Ho by apply findById_fresh.
    unfold findById in Ho. cbn [find] in Ho.
    destruct (Nat.eqb _ _); [|discriminate].
    injection Ho as <-. split; reflexivity.
Qed.

Lemma placeOrder_stamped (rt : Runtime) (now : Date) (db : DB)
    (user : ObjectId) (plan : Plan.t) (action : Payment.action_t)
    (target : option ObjectId) :
  ledger_stamped db ->
  ledger_stamped (fst (placeOrder rt now db user plan action target)).
Proof.
  intros Hl. unfold placeOrder.
  destruct (Payment_create_stamped rt now db user plan action target Hl)
    as [Hl1 Hs1].
  destruct (Payment_create rt now db user (Plan._id plan) (Plan.amount plan)
              action target) as [db1 payment].
  cbn [fst snd] in Hl1, Hs1.
  destruct (orders_create rt _ _) as [err|order].
  - cbv zeta. destruct (fitsFailureReason _); [|exact Hl1].
    stamped_branch Hl1 Hs1.
  - match goal with
    | |- context [Payment_save rt now db1 ?q] =>
        assert (Hq : invoice_synced db1 q)
          by (revert Hs1; apply invoice_synced_ext; reflexivity);
        pose proof (Payment_save_stamped rt now db1 q Hl1 Hq) as [H _];
        destruct (Payment_save rt now db1 q)
    end.
    exact H.
Qed.

Lemma createOrder_stamped (rt : Runtime) (now : Date) (db : DB)
    (reqUser : option ObjectId) (body : CreateOrderBody) :
  ledger_stamped db ->
  ledger_stamped (fst (createOrder rt now db reqUser body)).
Proof.
  intros Hl. unfold createOrder.
  repeat match goal with
         | |- ledger_stamped (fst (placeOrder _ _ _ _ _ _ _)) =>
             now apply placeOrder_stamped
         | |- ledger_stamped (fst (db, _)) => exact Hl
         | |- context [match ?x with _ => _ end] => destruct x
         end.
Qed.

Lemma activate_stamped (rt : Runtime) (now : Date) (db : DB)
    (reqUser : ObjectId) (body : ActivateBody) :
  ledger_stamped db ->
  ledger_stamped (fst (activate rt now db reqUser body)).
Proof.
  intros Hl. unfold activate.
  destruct (ab_paymentId body) as [pid|]; [|exact Hl].
  destruct (ab_planId body) as [planId|]; [|exact Hl].
  destruct (findById Payment._id (payments db) pid) as [p|] eqn:Ep;
    [|exact Hl].
  pose proof (invoice_synced_stored db pid p Ep) as Hs.
  destruct (negb (Payment.status_eqb _ _)); [exact Hl|].
  destruct (findById Plan._id (plans db) planId) as [plan|]; [|exact Hl].
  destruct (negb (Nat.eqb _ _)); [exact Hl|].
  destruct (Payment.subscription p); [exact Hl|].
  match goal with
  | |- context [Subscription_create now db ?u ?pl ?pid ?st ?sd ?ed ?h] =>
      pose proof (Subscription_create_payments now db u pl pid st sd ed h)
        as Hp;
      destruct (Subscription_create now db u pl pid st sd ed h) as [d1 s1]
  end.
  cbn [fst] in Hp.
  pose proof (ledger_stamped_payments _ _ Hp Hl) as Hl1.
  pose proof (invoice_synced_payments _ _ _ Hp Hs) as Hs1.
  stamped_branch Hl1 Hs1.
Qed.

Lemma applyWebhook_invoice (now : Date) (payload : WebhookPayload)
    (pe : PaymentEntity) (p : Payment.t) :
  Payment._id (applyWebhook now payload pe p) = Payment._id p
  /\ Payment.invoiceNumber (applyWebhook now payload pe p)
     = Payment.invoiceNumber p
  /\ Payment.invoiceGeneratedAt (applyWebhook now payload pe p)
     = Payment.invoiceGeneratedAt p.
Proof.
  unfold applyWebhook. cbv zeta.
  repeat match goal with
         | |- context [if ?c then _ else _] => destruct c
         end; repeat split; reflexivity.
Qed.

Lemma razorpayWebhook_stamped (rt : Runtime) (now : Date) (db : DB)
    (req : WebhookRequest) :
  ledger_stamped db ->
  ledger_stamped (fst (razorpayWebhook rt now db req)).
Proof.
  intros Hl. unfold razorpayWebhook.
  destruct (verifyRazorpayWebhookSignature rt _ _) as [[|]|];
    [|exact Hl|exact Hl].
  destruct (JSON_parse rt (rawBody req)) as [payload|];
    [|destruct (parsesToNull (rawBody req)); exact Hl].
  destruct (eventOfInterest (event payload)); [|exact Hl].
  destruct (entity payload) as [pe|]; [|exact Hl].
  destruct (findByRazorpayOrderId db (order_id pe)) as [p|] eqn:Ep;
    [|exact Hl].
  assert (Hst : findById Payment._id (payments db) (Payment._id p) = Some p).
  { apply findById_NoDup; [exact (proj1 Hl)|].
    unfold findByRazorpayOrderId in Ep. now apply find_some in Ep. }
  pose proof (invoice_synced_stored db _ p Hst) as Hs.
  destruct (applyWebhook_invoice now payload pe p) as (Hi & Hn & Hg).
  assert (Hq : invoice_synced db (applyWebhook now payload pe p))
    by (revert Hs; now apply invoice_synced_ext).
  pose proof (Payment_save_stamped rt now db _ Hl Hq) as [H _].
  destruct (Payment_save rt now db (applyWebhook now payload pe p)).
  exact H.
Qed.

Lemma getInvoice_on_stamped (rt : Runtime) (env : InvoiceEnv) (now : Date)
    (db : DB) (reqUser : User.t) (paymentId : option ObjectId) :
  ledger_stamped db ->
  fst (getInvoice rt env now db reqUser paymentId) = db.
Proof.
  intros [_ Hl].
  destruct (getInvoice_cases rt env now db reqUser paymentId)
    as [(m & c & E & _)|(p & body & Hp & Hs & _ & _ & E)];
    rewrite E; cbn [fst]; [reflexivity|].
  destruct paymentId as [id|]; [|discriminate]. cbn [findByRef] in Hp.
  pose proof (Hl p (findById_In _ _ _ _ Hp) (or_introl Hs)) as Hg.
  destruct (Payment.invoiceGeneratedAt p); [reflexivity | now elim Hg].
Qed.

Lemma cancelSubscription_payments (now : Date) (db : DB) (reqUser : ReqUser)
    (id : ObjectId) :
  payments (fst (cancelSubscription now db reqUser id)) = payments db.
Proof.
  unfold cancelSubscription.
  destruct (findById Subscription._id (subscriptions db) id) as [sub|];
    [|reflexivity].
  destruct (negb _ && negb _); [reflexivity|].
  destruct (Subscription.status_eqb _ _); [reflexivity|].
  match goal with
  | |- context [Subscription_save now db ?s] =>
      pose proof (Subscription_save_payments now db s) as Hp;
      destruct (Subscription_save now db s) as [d1 s1]
  end.
  exact Hp.
Qed.

(** X28.  The ledger invariant: payment identifiers are unique and every
    payment that is completed or has an invoice number carries its
    [invoiceGeneratedAt].  It holds of a ledger without payments and every
    handler keeps it: [createOrder], [verifyPayment], [activate], the
    webhook, [cancelSubscription], the expiry sweep and [getInvoice]. *)
Theorem ledger_stays_stamped (rt : Runtime) (now : Date) (db : DB) :
  (payments db = [] -> ledger_stamped db)
  /\ (ledger_stamped db ->
      (forall u body, ledger_stamped (fst (createOrder rt now db u body)))
      /\ (forall body, ledger_stamped (fst (verifyPayment rt now db body)))
      /\ (forall u body, ledger_stamped (fst (activate rt now db u body)))
      /\ (forall req, ledger_stamped (fst (razorpayWebhook rt now db req)))
      /\ (forall u id,
             ledger_stamped (fst (cancelSubscription now db u id)))
      /\ ledger_stamped (expireOldSubscriptions now db)
      /\ (forall env u id,
             ledger_stamped (fst (getInvoice rt env now db u id)))).
Proof.
  split.
  - intros H. unfold ledger_stamped. rewrite H. split; [constructor|].
    intros p [].
  - intros Hl.
    refine (conj _ (conj _ (conj _ (conj _ (conj _ (conj _ _)))))); intros.
    + now apply createOrder_stamped.
    + now apply verifyPayment_stamped.
    + now apply activate_stamped.
    + now apply razorpayWebhook_stamped.
    + revert Hl. apply ledger_stamped_payments.
      apply cancelSubscription_payments.
    + exact Hl.
    + now rewrite getInvoice_on_stamped.
Qed.

Lemma ledger_stays_stamped_witness :
  ledger_stamped Scenario.paid.
Proof.
  destruct (ledger_stays_stamped Sample.runtime Sample.t0 Sample.catalog)
    as [H0 H1].
  destruct (H1 (H0 eq_refl)) as (Hc & _).
  specialize (Hc (Some Scenario.alice)
                (mkCreateOrderBody (Some 2%nat) None None)).
  destruct (ledger_stays_stamped Sample.runtime (Sample.t0 + 1000)
              Scenario.ordered) as [_ H2].
  destruct (H2 Hc) as (_ & Hv & _).
  exact (Hv Scenario.verify1).
Defined.

(** X29.  On a ledger that satisfies the invariant [getInvoice] writes
    nothing, whoever asks and whatever the generator returns: the stamp it
    would add is already there, set by the save that completed the
    payment. *)
Theorem getInvoice_never_stamps (rt : Runtime) (env : InvoiceEnv)
    (now : Date) (db : DB) (reqUser : User.t) (paymentId : option ObjectId) :
  ledger_stamped db ->
  fst (getInvoice rt env now db reqUser paymentId) = db.
Proof. apply getInvoice_on_stamped. Qed.

Lemma getInvoice_never_stamps_witness :
  getInvoice Sample.runtime (invoiceEnv true) (Sample.t0 + 9000)
    Scenario.paid aliceUser (Some 1%nat)
  = (Scenario.paid, InvoicePdf "INV-1.pdf" (Sample.codes "INV-1")).
Proof.
  assert (Hp : payments Scenario.paid = [Scenario.payment1])
    by (vm_compute; reflexivity).
  assert (Hl : ledger_stamped Scenario.paid).
  { unfold ledger_stamped. rewrite Hp. split.
    - repeat constructor. intros [].
    - intros p [<-|[]] _. discriminate. }
  apply injective_projections.
  - exact (getInvoice_never_stamps Sample.runtime (invoiceEnv true)
             (Sample.t0 + 9000) Scenario.paid aliceUser (Some 1%nat) Hl).
  - vm_compute. reflexivity.
Defined.

(** ** Reading active subscriptions *)

Lemma filter_map_fixed {A : Type} (q : A -> bool) (f : A -> A) (l : list A) :
  (forall x, q (f x) = q x) ->
  (forall x, q x = true -> f x = x) ->
  filter q (map f l) = filter q l.
Proof.
  intros Hq Hf. induction l as [|a l IH]; cbn [map filter]; [reflexivity|].
  rewrite Hq, IH. destruct (q a) eqn:E; [|reflexivity].
  now rewrite (Hf a E).
Qed.

(** X30.  The readers of active subscriptions against the sweep and each
    other: [findExpiringSoon] returns the same list before and after the
    sweep run at the same instant, and only subscriptions that are
    currently active and not expired; the query behind [findActiveByUser]
    matches a user's subscription exactly when it is currently active and
    does not end at this very instant; so the subscription
    [getMySubscription] answers with is the user's own, stored, currently
    active and not expired. *)
Theorem active_readers_agree (days : Z) (now : Date) (db : DB) :
  findExpiringSoon days now (expireOldSubscriptions now db)
  = findExpiringSoon days now db
  /\ (forall s,
         In s (findExpiringSoon days now db) ->
         isCurrentlyActive now s = true /\ isExpired now s = false)
  /\ (forall u s,
         activeQuery u now s = true
         <-> Subscription.user s = u
             /\ isCurrentlyActive now s = true
             /\ Subscription.endDate s <> now)
  /\ (forall u m p s pl,
         getMySubscription now db u = Json 200 m p (Some s) pl ->
         In s (subscriptions db)
         /\ Subscription.user s = ru_id u
         /\ isCurrentlyActive now s = true
         /\ isExpired now s = false).
Proof.
  assert (Hq : forall u s,
             activeQuery u now s = true
             <-> Subscription.user s = u
                 /\ isCurrentlyActive now s = true
                 /\ Subscription.endDate s <> now).
  { intros u s. unfold activeQuery, isCurrentlyActive.
    rewrite !andb_true_iff, Nat.eqb_eq, Z.ltb_lt, Z.leb_le. split.
    - intros [[Hu Hs] Hlt]. repeat split; try assumption; lia.
    - intros (Hu & [Hs Hle] & Hne). repeat split; try assumption; lia. }
  split; [|split; [|split; [exact Hq|]]].
  - unfold findExpiringSoon, expireOldSubscriptions.
    cbn [subscriptions set_subscriptions].
    apply filter_map_fixed.
    + intros s. cbn beta.
      destruct (Subscription.status_eqb (Subscription.status s)
                  Subscription.active) eqn:Es; cbn [andb]; [|now rewrite Es].
      destruct (Subscription.endDate s <? now) eqn:El; [|now rewrite Es].
      cbn [Subscription.status Subscription.endDate Subscription.set_status
           Subscription.status_eqb andb].
      apply Z.ltb_lt in El. symmetry.
      apply andb_false_iff. left. apply Z.leb_gt. exact El.
    + intros s Hs. cbn beta in Hs |- *.
      apply andb_true_iff in Hs. destruct Hs as [Hs _].
      apply andb_true_iff in Hs. destruct Hs as [Hs Hle].
      apply Z.leb_le in Hle. rewrite Hs. cbn [andb].
      destruct (Subscription.endDate s <? now) eqn:El; [|reflexivity].
      apply Z.ltb_lt in El. lia.
  - intros s Hs. unfold findExpiringSoon in Hs. apply filter_In in Hs.
    destruct Hs as [_ Hs]. apply andb_true_iff in Hs. destruct Hs as [Hs _].
    split; [exact Hs|]. unfold isExpired.
    apply andb_true_iff in Hs. destruct Hs as [_ Hle].
    apply Z.leb_le in Hle. apply Z.ltb_ge. exact Hle.
  - intros u m p s pl H. unfold getMySubscription in H. cbv zeta in H.
    injection H as _ _ Hf _. unfold findActiveByUser in Hf.
    apply find_some in Hf. destruct Hf as [Hin Ha].
    apply Hq in Ha. destruct Ha as (Hu & Hc & _).
    repeat split; try assumption.
    unfold isCurrentlyActive in Hc. apply andb_true_iff in Hc.
    destruct Hc as [_ Hle]. apply Z.leb_le in Hle.
    unfold isExpired. apply Z.ltb_ge. exact Hle.
Qed.

Lemma active_readers_agree_witness :
  isCurrentlyActive (Sample.t0 + 2000)
    (Subscription.mk 1%nat Scenario.alice 2%nat Subscription.active
       (Sample.t0 + 1000) (Sample.t0 + 1000 + days_ms 90) (Some 1%nat) None
       None
       [Subscription.mkBilling (Sample.t0 + 1000) 49900 1%nat
          Subscription.success] (Sample.t0 + 1000)) = true.
Proof.
  assert (E : getMySubscription (Sample.t0 + 2000) Scenario.paid
                (mkReqUser Scenario.alice "user")
              = Json 200 None None
                  (Some (Subscription.mk 1%nat Scenario.alice 2%nat
                           Subscription.active (Sample.t0 + 1000)
                           (Sample.t0 + 1000 + days_ms 90) (Some 1%nat) None
                           None
                           [Subscription.mkBilling (Sample.t0 + 1000) 49900
                              1%nat Subscription.success]
                           (Sample.t0 + 1000)))
                  (Some Sample.Standard))
    by (vm_compute; reflexivity).
  destruct (active_readers_agree 3 (Sample.t0 + 2000) Scenario.paid)
    as (_ & _ & _ & H).
  destruct (H _ _ _ _ _ E) as (_ & _ & Hc & _).
  exact Hc.
Defined.
